(** * gsutil: help-topic records and the test-case base class

  A shallow embedding of [gslib/addlhelp/*.py] and of
  [gslib/tests/testcase/base.py], with the properties the specification
  states about them.

  Conventions of the embedding.
  - Python text ([str]) is a [string]: a sequence of code points below 256.
    Bytes objects are [list byte]. The making of names is given a second
    time on text of any code points ([Unicode]), where the case of letters
    behaves differently.
  - Methods of [GsUtilTestCase] run in the monad [M]: they thread a [World]
    (the test-case instance, the operating system's file tree, its clock,
    the log of system calls and the random source) and end either with
    a value or with a raised exception.
  - Library functions the code calls ([random.randrange], [os.*],
    [shutil.rmtree], [tempfile.mkdtemp], ['%08x' % n], [repr]) are given by
    small executable models, each introduced where it is used. The [re]
    module is an interface ([Assertions.Engine]) with a model of a fragment
    of it. *)

From Stdlib Require Import ZArith NArith Ascii Lia DecimalString.

Abbreviation byte := Corelib.Init.Byte.byte.
From stdpp Require Import base gmap sets list strings.

Local Open Scope N_scope.

(** ** Text *)

Module Text.

Abbreviation len := String.length.

Fixpoint map (f : ascii → ascii) (s : string) : string :=
  match s with
  | "" => ""
  | String c s' => String (f c) (map f s')
  end.

Fixpoint all (p : ascii → bool) (s : string) : bool :=
  match s with
  | "" => true
  | String c s' => p c && all p s'
  end.

(** [s[:n]] *)
Fixpoint slice_to (n : nat) (s : string) : string :=
  match n, s with
  | S n', String c s' => String c (slice_to n' s')
  | _, _ => ""
  end.

Fixpoint repeat (c : ascii) (n : nat) : string :=
  match n with
  | O => ""
  | S n' => String c (repeat c n')
  end.

(** [s.startswith(p)] *)
Definition startswith (p s : string) : bool := String.prefix p s.

(** [s.endswith(p)]: [p] is [s] or ends what follows the first character
    of [s]. *)
Fixpoint endswith (p s : string) : bool :=
  String.eqb p s ||
  match s with
  | "" => false
  | String _ s' => endswith p s'
  end.

(** [needle in s] *)
Fixpoint contains (needle s : string) : bool :=
  String.prefix needle s ||
  match s with
  | "" => false
  | String _ s' => contains needle s'
  end.

Definition code (c : ascii) : N := N_of_ascii c.

Definition between (lo hi : N) (c : ascii) : bool :=
  (lo <=? code c) && (code c <=? hi).

(** [c.isupper()] for a code point below 256: A-Z, and the capital letters
    of the Latin-1 block (U+00C0-U+00DE without the multiplication sign). *)
Definition isupper (c : ascii) : bool :=
  between 65 90 c || between 192 214 c || between 216 222 c.

(** [c.lower()]: each of these capitals has its small letter 32 places up. *)
Definition lower_char (c : ascii) : ascii :=
  if isupper c then ascii_of_N (code c + 32) else c.

(** [s.lower()] *)
Definition lower (s : string) : string := map lower_char s.

(** [s.replace(old, new)] for one-character [old] and [new]. *)
Definition replace_char (old new : ascii) (s : string) : string :=
  map (λ c, if Ascii.eqb c old then new else c) s.

End Text.

(** ** Number formatting: ['%x'], ['%08x'], ['%d'] *)

Module Fmt.

Definition hex_digit (d : N) : ascii :=
  match d with
  | 0 => "0" | 1 => "1" | 2 => "2" | 3 => "3" | 4 => "4" | 5 => "5"
  | 6 => "6" | 7 => "7" | 8 => "8" | 9 => "9" | 10 => "a" | 11 => "b"
  | 12 => "c" | 13 => "d" | 14 => "e" | _ => "f"
  end%char.

(** Digits of [n] in base 16, most significant first; [fuel] bounds the
    number of digits produced. *)
Fixpoint hex_digits (fuel : nat) (n : N) : string :=
  match fuel with
  | O => ""
  | S fuel' =>
      if n <? 16 then String (hex_digit n) ""
      else hex_digits fuel' (n / 16) +:+ String (hex_digit (n mod 16)) ""
  end.

(** ['%x' % n] *)
Definition x (n : N) : string := hex_digits (S (N.size_nat n)) n.

(** Left padding with zeros up to [width], as the [0] flag of [%] does. *)
Definition zero_pad (width : nat) (s : string) : string :=
  Text.repeat "0"%char (width - Text.len s) +:+ s.

(** ['%08x' % n] *)
Definition x08 (n : N) : string := zero_pad 8 (x n).

(** ['%d' % n] for a non-negative [n]. *)
Definition d (n : nat) : string := NilZero.string_of_uint (Nat.to_uint n).

(** The value of one hexadecimal digit, and [int(s, 16)] for a string of
    hexadecimal digits. *)
Definition hex_value (c : ascii) : option N :=
  let k := Text.code c in
  if Text.between 48 57 c then Some (k - 48)
  else if Text.between 97 102 c then Some (k - 87)
  else if Text.between 65 70 c then Some (k - 55)
  else None.

Definition is_hex (c : ascii) : bool :=
  match hex_value c with Some _ => true | None => false end.

(** The digits [0-9a-f], which ['%x'] writes. *)
Definition is_lower_hex (c : ascii) : bool :=
  Text.between 48 57 c || Text.between 97 102 c.

Fixpoint int16_from (acc : N) (s : string) : option N :=
  match s with
  | "" => Some acc
  | String c s' =>
      match hex_value c with
      | Some v => int16_from (acc * 16 + v) s'
      | None => None
      end
  end.

Definition int16 (s : string) : option N :=
  match s with
  | "" => None
  | _ => int16_from 0 s
  end.

End Fmt.

(** ** Python values, exceptions and outcomes *)

(** The dynamically typed arguments of [CreateTempFile] ([uid], [gid],
    [mode]) and the attribute values of function objects. *)
Inductive PyVal :=
| PyInt (z : Z)
| PyBool (b : bool)
| PyStr (s : string).

Inductive OsErrno :=
| FileExistsError
| FileNotFoundError
| NotADirectoryError
| IsADirectoryError
| PermissionError.

Inductive Exn :=
| TypeError
| ValueError
| UnicodeEncodeError
| IndexError
| OSError (e : OsErrno)
| re_error
| failureException (msg : string)
| OverflowError.

Inductive Outcome (A : Type) :=
| Return (a : A)
| Raise (e : Exn).
Arguments Return {A} a.
Arguments Raise {A} e.

Module Py.

(** Code points below 256 that [int] skips around a number: the blanks of
    C and, beyond ASCII, the next-line control and the no-break space. *)
Definition isspace (c : ascii) : bool :=
  Text.between 9 13 c || (Text.code c =? 32) ||
  (Text.code c =? 133) || (Text.code c =? 160).

Fixpoint lstrip (s : string) : string :=
  match s with
  | String c s' => if isspace c then lstrip s' else s
  | "" => ""
  end.

(** [s.strip()] *)
Definition strip (s : string) : string :=
  String.rev (lstrip (String.rev (lstrip s))).

Definition digit_value (base : N) (c : ascii) : option N :=
  match Fmt.hex_value c with
  | Some v => if v <? base then Some v else None
  | None => None
  end.

(** The digits of a literal: at least one digit, single underscores allowed
    between digits. [fresh] holds at the start and after an underscore,
    where a digit must follow. *)
Fixpoint digits_from (base : N) (fresh : bool) (acc : N) (s : string)
  : option N :=
  match s with
  | "" => if fresh then None else Some acc
  | String c s' =>
      if Ascii.eqb c "_" then
        if fresh then None else digits_from base true acc s'
      else
        match digit_value base c with
        | Some v => digits_from base false (acc * base + v) s'
        | None => None
        end
  end.

Definition unsigned_literal (base : N) (s : string) : option N :=
  match base, s with
  | 8, String "0" (String "o" s') | 8, String "0" (String "O" s') =>
      match s' with
      | String "_" s'' => digits_from 8 true 0 s''
      | _ => digits_from 8 true 0 s'
      end
  | _, _ => digits_from base true 0 s
  end.

(** [int(s, base)] on text, for base 8 and base 10. *)
Definition int_of_text (base : N) (s : string) : option Z :=
  match strip s with
  | String "-" s' => (λ n, - Z.of_N n)%Z <$> unsigned_literal base s'
  | String "+" s' => Z.of_N <$> unsigned_literal base s'
  | s' => Z.of_N <$> unsigned_literal base s'
  end.

(** [int(v)] *)
Definition int (v : PyVal) : Outcome Z :=
  match v with
  | PyInt z => Return z
  | PyBool b => Return (if b then 1 else 0)%Z
  | PyStr s =>
      match int_of_text 10 s with
      | Some z => Return z
      | None => Raise ValueError
      end
  end.

(** [int(v, 8)]: an explicit base needs text. *)
Definition int8 (v : PyVal) : Outcome Z :=
  match v with
  | PyStr s =>
      match int_of_text 8 s with
      | Some z => Return z
      | None => Raise ValueError
      end
  | _ => Raise TypeError
  end.

(** [v != z] for an integer [z]. *)
Definition ne_int (v : PyVal) (z : Z) : bool :=
  match v with
  | PyInt z' => negb (z' =? z)%Z
  | PyBool b => negb ((if b then 1 else 0) =? z)%Z
  | PyStr _ => true
  end.

(** A value passed where the operating system wants an integer id. *)
Definition as_id (v : PyVal) : Outcome Z :=
  match v with
  | PyInt z => Return z
  | PyBool b => Return (if b then 1 else 0)%Z
  | PyStr _ => Raise TypeError
  end.

(** [six.ensure_binary(s)]: the UTF-8 encoding of text. *)
Definition utf8_char (c : ascii) : list byte :=
  let k := Text.code c in
  if k <? 128 then [byte_of_ascii c]
  else [byte_of_ascii (ascii_of_N (192 + k / 64));
        byte_of_ascii (ascii_of_N (128 + k mod 64))].

Fixpoint ensure_binary (s : string) : list byte :=
  match s with
  | "" => []
  | String c s' => utf8_char c ++ ensure_binary s'
  end.

(** [s.encode('ascii')] *)
Definition ascii_bytes (s : string) : list byte :=
  List.map byte_of_ascii (String.list_ascii_of_string s).

Definition encode_ascii (s : string) : Outcome (list byte) :=
  if Text.all (λ c, Text.code c <? 128) s
  then Return (ascii_bytes s)
  else Raise UnicodeEncodeError.

End Py.

(** ** Paths: [os.path.join], [os.path.dirname] *)

Module os_path.

Definition is_sep (c : ascii) : bool := Ascii.eqb c "/".

Definition join2 (a b : string) : string :=
  if Text.startswith "/" b then b
  else if String.eqb a "" || Text.endswith "/" a then a +:+ b
  else a +:+ "/" +:+ b.

(** [os.path.join(a, *p)] *)
Definition join (a : string) (p : list string) : string :=
  fold_left join2 p a.

(** On a reversed path: what is left once the last component is dropped. *)
Fixpoint drop_component (s : string) : string :=
  match s with
  | "" => ""
  | String c s' => if is_sep c then s else drop_component s'
  end.

Fixpoint lstrip_sep (s : string) : string :=
  match s with
  | "" => ""
  | String c s' => if is_sep c then lstrip_sep s' else s
  end.

(** [os.path.dirname(p)]: up to the last separator, trailing separators
    removed unless nothing else is left. *)
Definition dirname (p : string) : string :=
  let head := drop_component (String.rev p) in
  if Text.all is_sep head then String.rev head
  else String.rev (lstrip_sep head).

(** Every prefix of a path that is followed by a separator. *)
Fixpoint prefixes (p : string) : list string :=
  match p with
  | "" => []
  | String c p' =>
      (if is_sep c then [""] else []) ++ List.map (String c) (prefixes p')
  end.

(** The directories a path lies in. *)
Definition ancestors (p : string) : list string :=
  List.filter (λ d, negb (String.eqb d "")) (prefixes p).

(** [k] is [d] or lies in [d]. *)
Definition within (d k : string) : bool :=
  String.eqb k d || String.prefix (d +:+ "/") k.

End os_path.

(** ** The operating system *)

(** A regular file: its contents, its times in seconds, its owner and
    group, and the permission bits of its mode ([st_mode & 0o777]). *)
Record File := {
  st_data : list byte;
  st_atime : Z;
  st_mtime : Z;
  st_uid : Z;
  st_gid : Z;
  st_mode : Z
}.

(** A system call as the process issues it, whatever its result. *)
Inductive Syscall :=
| sys_mkdir (path : string)
| sys_makedirs (path : string)
| sys_open_wb (path : string) (data : list byte)
| sys_utime (path : string) (atime mtime : Z)
| sys_chown (path : string) (uid gid : Z)
| sys_chmod (path : string) (mode : Z)
| sys_rmtree (path : string).

(** Files and directories are kept by path, as the code names them; paths are
    not normalised, and there are no links. Directories carry no owner and
    no mode: the process is taken to have access to them, and none of them
    hands its group on to what is made in it. The clock advances by one at
    every system call. The process has an effective user and group,
    further groups it is a member of, and a umask. The file system stores
    times from [time_min] to [time_max] (ext4: from -2^31 to
    2^34 - 2^31 - 1). *)
Record OsState := {
  files : gmap string File;
  dirs : gset string;
  clock : Z;
  euid : Z;
  egid : Z;
  groups : gset Z;
  umask : Z;
  tempdir : string;
  time_min : Z;
  time_max : Z;
  calls : list Syscall
}.

Module OS.

Definition with_files (f : gmap string File) (s : OsState) : OsState :=
  {| files := f; dirs := dirs s; clock := clock s; euid := euid s;
     egid := egid s; groups := groups s; umask := umask s;
     tempdir := tempdir s; time_min := time_min s; time_max := time_max s;
     calls := calls s |}.

Definition with_dirs (d : gset string) (s : OsState) : OsState :=
  {| files := files s; dirs := d; clock := clock s; euid := euid s;
     egid := egid s; groups := groups s; umask := umask s;
     tempdir := tempdir s; time_min := time_min s; time_max := time_max s;
     calls := calls s |}.

(** Entering a system call: it is logged and the clock moves on. *)
Definition enter (c : Syscall) (s : OsState) : OsState :=
  {| files := files s; dirs := dirs s; clock := (clock s + 1)%Z;
     euid := euid s; egid := egid s; groups := groups s; umask := umask s;
     tempdir := tempdir s; time_min := time_min s; time_max := time_max s;
     calls := calls s ++ [c] |}.

Definition isdir (p : string) (s : OsState) : bool :=
  bool_decide (p ∈ dirs s).

Definition isfile (p : string) (s : OsState) : bool :=
  bool_decide (is_Some (files s !! p)).

Definition exists_ (p : string) (s : OsState) : bool :=
  isdir p s || isfile p s.

(** The directory an entry is created in must be there; a path without
    directory part is relative to the working directory. *)
Definition parent_check (p : string) (s : OsState) : option OsErrno :=
  let d := os_path.dirname p in
  if String.eqb d "" || isdir d s then None
  else if isfile d s then Some NotADirectoryError
  else Some FileNotFoundError.

(** [os.mkdir(p)] *)
Definition mkdir (p : string) (s : OsState) : Outcome unit * OsState :=
  let s := enter (sys_mkdir p) s in
  if String.eqb p "" then (Raise (OSError FileNotFoundError), s)
  else if exists_ p s then (Raise (OSError FileExistsError), s)
  else match parent_check p s with
       | Some e => (Raise (OSError e), s)
       | None => (Return (), with_dirs ({[p]} ∪ dirs s) s)
       end.

(** [os.makedirs(p)]: the directory and the missing ones it lies in. *)
Definition makedirs (p : string) (s : OsState) : Outcome unit * OsState :=
  let s := enter (sys_makedirs p) s in
  if String.eqb p "" then (Raise (OSError FileNotFoundError), s)
  else if exists_ p s then (Raise (OSError FileExistsError), s)
  else if existsb (λ d, isfile d s) (os_path.ancestors p)
  then (Raise (OSError NotADirectoryError), s)
  else (Return (),
        with_dirs ({[p]} ∪ list_to_set (os_path.ancestors p) ∪ dirs s) s).

(** The time the file system stores for [t]: the nearest one in its
    range. *)
Definition stored_time (s : OsState) (t : Z) : Z :=
  Z.max (time_min s) (Z.min t (time_max s)).

(** [with open(p, 'wb') as f: f.write(data)]: a new file belongs to the
    process and is stamped with the current time; an existing one keeps its
    owner, permission bits and access time. *)
Definition written (p : string) (data : list byte) (s : OsState) : File :=
  match files s !! p with
  | Some f =>
      {| st_data := data; st_atime := st_atime f;
         st_mtime := stored_time s (clock s);
         st_uid := st_uid f; st_gid := st_gid f; st_mode := st_mode f |}
  | None =>
      {| st_data := data; st_atime := stored_time s (clock s);
         st_mtime := stored_time s (clock s);
         st_uid := euid s; st_gid := egid s;
         st_mode := Z.land 438 (Z.lnot (umask s)) |}
  end.

(** What is left of a path once the separators at its end are dropped. *)
Definition rstrip_sep (p : string) : string :=
  String.rev (os_path.lstrip_sep (String.rev p)).

(** A path that ends in a separator names a directory, which cannot be
    opened for writing, wherever the path up to there leads. *)
Definition open_wb_write (p : string) (data : list byte) (s : OsState)
  : Outcome unit * OsState :=
  let s := enter (sys_open_wb p data) s in
  if String.eqb p "" then (Raise (OSError FileNotFoundError), s)
  else if Text.endswith "/" p then
    match parent_check (rstrip_sep p) s with
    | Some e => (Raise (OSError e), s)
    | None => (Raise (OSError IsADirectoryError), s)
    end
  else if isdir p s then (Raise (OSError IsADirectoryError), s)
  else match parent_check p s with
       | Some e => (Raise (OSError e), s)
       | None => (Return (), with_files (<[p := written p data s]> (files s)) s)
       end.

(** Changing the attributes of a file is for its owner and for root. *)
Definition owns (f : File) (s : OsState) : bool :=
  (euid s =? 0)%Z || (euid s =? st_uid f)%Z.

Definition change (p : string) (ok : File → bool) (upd : File → File)
  (s : OsState) : Outcome unit * OsState :=
  match files s !! p with
  | None => (Raise (OSError FileNotFoundError), s)
  | Some f =>
      if owns f s && ok f
      then (Return (), with_files (<[p := upd f]> (files s)) s)
      else (Raise (OSError PermissionError), s)
  end.

(** The integers that the interpreter passes on as a C [time_t], as a C
    [int] and as a user or group id; for any other it raises
    [OverflowError] before the system is asked. *)
Definition is_time_t (t : Z) : bool := (- 2 ^ 63 <=? t)%Z && (t <? 2 ^ 63)%Z.

Definition is_int (m : Z) : bool := (- 2 ^ 31 <=? m)%Z && (m <? 2 ^ 31)%Z.

Definition is_id (i : Z) : bool := (-1 <=? i)%Z && (i <? 2 ^ 32)%Z.

(** [os.utime(p, (atime, mtime))] with whole seconds. *)
Definition utime (p : string) (atime mtime : Z) (s : OsState)
  : Outcome unit * OsState :=
  let s := enter (sys_utime p atime mtime) s in
  if is_time_t atime && is_time_t mtime then
    change p (λ _, true)
      (λ f, {| st_data := st_data f; st_atime := stored_time s atime;
               st_mtime := stored_time s mtime;
               st_uid := st_uid f; st_gid := st_gid f;
               st_mode := st_mode f |})
      s
  else (Raise OverflowError, s).

(** An id of -1, which is 2^32 - 1 as the system reads it, leaves that id
    as it is. *)
Definition keeps_id (i : Z) : bool := (i =? -1)%Z || (i =? 2 ^ 32 - 1)%Z.

(** [os.chown(p, uid, gid)]: leaving both ids as they are is open to
    everyone; only root gives a file away; its owner may hand it to a group
    the process is a member of. *)
Definition chown (p : string) (uid gid : Z) (s : OsState)
  : Outcome unit * OsState :=
  let s := enter (sys_chown p uid gid) s in
  if is_id uid && is_id gid then
    if keeps_id uid && keeps_id gid then
      match files s !! p with
      | None => (Raise (OSError FileNotFoundError), s)
      | Some _ => (Return (), s)
      end
    else
    change p
      (λ f, (euid s =? 0)%Z ||
            (keeps_id uid || (uid =? st_uid f)%Z) &&
            (keeps_id gid || (gid =? st_gid f)%Z || (gid =? egid s)%Z ||
             bool_decide (gid ∈ groups s)))
      (λ f, {| st_data := st_data f; st_atime := st_atime f;
               st_mtime := st_mtime f;
               st_uid := if keeps_id uid then st_uid f else uid;
               st_gid := if keeps_id gid then st_gid f else gid;
               st_mode := st_mode f |})
      s
  else (Raise OverflowError, s).

(** [os.chmod(p, mode)]: the permission bits of the file become those of
    [mode]. *)
Definition chmod (p : string) (mode : Z) (s : OsState)
  : Outcome unit * OsState :=
  let s := enter (sys_chmod p mode) s in
  if is_int mode then
    change p (λ _, true)
      (λ f, {| st_data := st_data f; st_atime := st_atime f;
               st_mtime := st_mtime f; st_uid := st_uid f;
               st_gid := st_gid f; st_mode := Z.land mode 511 |})
      s
  else (Raise OverflowError, s).

(** [shutil.rmtree(p)], for a process that may read and write the
    directories of the tree (they carry no owner and no mode here): the
    directory goes with all that lies in it; a path that is no directory is
    an error. With [ignore_errors] the error is dropped. *)
Definition remove_tree (p : string) (s : OsState) : OsState :=
  with_dirs (filter (λ k, ¬ os_path.within p k) (dirs s))
    (with_files (filter (λ kv, ¬ os_path.within p kv.1) (files s)) s).

Definition rmtree (p : string) (ignore_errors : bool) (s : OsState)
  : Outcome unit * OsState :=
  let s := enter (sys_rmtree p) s in
  let r :=
    if isdir p s then (Return (), remove_tree p s)
    else if isfile p s then (Raise (OSError NotADirectoryError), s)
    else (Raise (OSError FileNotFoundError), s) in
  if ignore_errors then (Return (), r.2) else r.

End OS.

(** ** The world a test case runs in *)

Record World := {
  _testMethodName : string;       (* self._testMethodName *)
  tempdirs : list string;         (* self.tempdirs *)
  os : OsState;
  entropy : nat → N;              (* what the random source will deliver *)
  draws : nat                     (* how much of it has been used *)
}.

Definition M (A : Type) : Type := World → Outcome A * World.

Definition ret {A} (a : A) : M A := λ w, (Return a, w).

Definition raise {A} (e : Exn) : M A := λ w, (Raise e, w).

Definition bind {A B} (m : M A) (k : A → M B) : M B :=
  λ w, match m w with
       | (Return a, w') => k a w'
       | (Raise e, w') => (Raise e, w')
       end.

Notation "x <- m ;; k" := (bind m (λ x, k))
  (at level 100, m at next level, right associativity, only parsing).
Notation "m ;;; k" := (bind m (λ _, k))
  (at level 100, right associativity, only parsing).

(** A computed outcome, raised if it is an exception. *)
Definition lift {A} (o : Outcome A) : M A := λ w, (o, w).

Definition with_os (s : OsState) (w : World) : World :=
  {| _testMethodName := _testMethodName w; tempdirs := tempdirs w; os := s;
     entropy := entropy w; draws := draws w |}.

Definition with_tempdirs (l : list string) (w : World) : World :=
  {| _testMethodName := _testMethodName w; tempdirs := l; os := os w;
     entropy := entropy w; draws := draws w |}.

(** A system call of the process. *)
Definition sys {A} (f : OsState → Outcome A * OsState) : M A :=
  λ w, let r := f (os w) in (r.1, with_os r.2 w).

Module random.

(** [random.randrange(n)]: the next value of the source, brought into
    [0, n). *)
Definition randrange (n : N) : M N :=
  λ w, if n =? 0 then (Raise ValueError, w)
       else (Return (entropy w (draws w) mod n),
             {| _testMethodName := _testMethodName w; tempdirs := tempdirs w;
                os := os w; entropy := entropy w; draws := S (draws w) |}).

End random.

Module tempfile.

(** [os.TMP_MAX] on Linux. *)
Definition TMP_MAX : nat := 238328.

Definition characters : string := "abcdefghijklmnopqrstuvwxyz0123456789_".

Fixpoint token (k : nat) (n : N) : string :=
  match k with
  | O => ""
  | S k' =>
      match String.get (N.to_nat (n mod 37)) characters with
      | Some c => String c (token k' (n / 37))
      | None => ""
      end
  end.

Fixpoint mkdtemp_from (attempts : nat) (prefix : string) : M string :=
  match attempts with
  | O => raise (OSError FileExistsError)
  | S attempts' =>
      r <- random.randrange (37 ^ 8) ;;
      dir <- (λ w, (Return (tempdir (os w)), w)) ;;
      let file := os_path.join dir [prefix +:+ token 8 r] in
      λ w, match sys (OS.mkdir file) w with
           | (Return _, w') => (Return file, w')
           | (Raise (OSError FileExistsError), w') =>
               mkdtemp_from attempts' prefix w'
           | (Raise e, w') => (Raise e, w')
           end
  end.

(** [tempfile.mkdtemp(prefix=prefix)]: a new directory under the system's
    temporary directory, named by the prefix and eight characters drawn at
    random; a name that is taken is passed over, [TMP_MAX] times at most. *)
Definition mkdtemp (prefix : string) : M string :=
  mkdtemp_from TMP_MAX prefix.

End tempfile.

(** ** [gslib.tests.util] *)

Module util.

(** Modelled from the spec: [gslib.tests.util.MakeBucketNameValid] is not
    part of the sources at hand. [MakeTempName] documents what it does to a
    name: "replacing "_" with "-", converting uppercase letters to
    lowercase", so that the result "contains no uppercase letters and no
    underscores". *)
Definition MakeBucketNameValid (name : string) : string :=
  Text.lower (Text.replace_char "_" "-" name).

End util.

(** ** [gslib/tests/testcase/base.py] *)

Definition MAX_BUCKET_LENGTH : nat := 63.

Module GsUtilTestCase.

(** A file name is text, or a tuple of path components. *)
Inductive FileName :=
| Name (s : string)
| Tuple (parts : list string).

(** File contents are text or bytes. *)
Inductive Contents :=
| Str (s : string)
| Bytes (b : list byte).

(** [self.tempdirs.pop()] *)
Definition tempdirs_pop : M string :=
  λ w, match last (tempdirs w) with
       | Some d => (Return d, with_tempdirs (removelast (tempdirs w)) w)
       | None => (Raise IndexError, w)
       end.

(** [self.tempdirs.append(d)] *)
Definition tempdirs_append (d : string) : M unit :=
  λ w, (Return (), with_tempdirs (tempdirs w ++ [d]) w).

(** The loop of [tearDown]; each round takes one directory off the list, so
    as many rounds as the list is long empty it. *)
Fixpoint tearDown_loop (rounds : nat) : M unit :=
  match rounds with
  | O => ret ()
  | S rounds' =>
      λ w, match tempdirs w with
           | [] => (Return (), w)
           | _ =>
               (tmpdir <- tempdirs_pop ;;
                sys (OS.rmtree tmpdir true) ;;;
                tearDown_loop rounds') w
           end
  end.

Definition tearDown : M unit :=
  λ w, tearDown_loop (length (tempdirs w)) w.

Definition GetTestMethodName : M string :=
  λ w, (Return (_testMethodName w), w).

Definition MakeRandomTestString : M string :=
  r <- random.randrange (256 ^ 4) ;;
  ret (Fmt.x08 r).

Definition MakeTempName (kind : string) (prefix : string) : M string :=
  method <- GetTestMethodName ;;
  let name := prefix +:+ "gsutil-test-" +:+ method +:+ "-" +:+ kind in
  let name := Text.slice_to (MAX_BUCKET_LENGTH - 9) name in
  rand <- MakeRandomTestString ;;
  let name := name +:+ "-" +:+ rand in
  if String.eqb kind "bucket"
  then ret (util.MakeBucketNameValid name)
  else ret name.

(** [[f() for _ in range(n)]] *)
Fixpoint times {A} (n : nat) (f : M A) : M (list A) :=
  match n with
  | O => ret []
  | S n' => a <- f ;; l <- times n' f ;; ret (a :: l)
  end.

(** [for i, x in enumerate(l): body(i, x)], counting from [i]. *)
Fixpoint for_enumerate {A} (i : nat) (l : list A) (body : nat → A → M unit)
  : M unit :=
  match l with
  | [] => ret ()
  | a :: l' => body i a ;;; for_enumerate (S i) l' body
  end.

(** The body of [CreateTempDir], given the method it calls for each file.
    [test_files] is a number of files or a list of file names. *)
Definition CreateTempDir_with
    (CreateTempFile : string → Contents → FileName → M string)
    (test_files : Z + list FileName) (contents : option Contents)
  : M string :=
  prefix <- MakeTempName "directory" "" ;;
  tmpdir <- tempfile.mkdtemp prefix ;;
  tempdirs_append tmpdir ;;;
  test_files <-
    match test_files with
    | inr l => ret l
    | inl n =>
        names <- times (Z.to_nat n) (MakeTempName "file" "") ;;
        ret (List.map Name names)
    end ;;
  for_enumerate 0 test_files (λ i name,
    contents_file <-
      match contents with
      | Some c => ret c
      | None => b <- lift (Py.encode_ascii ("test " +:+ Fmt.d i)) ;;
                ret (Bytes b)
      end ;;
    CreateTempFile tmpdir contents_file name ;;;
    ret ()) ;;;
  ret tmpdir.

(** [self.CreateTempDir()], as [CreateTempFile] calls it: without test
    files the loop has nothing to run over and no file is made. *)
Definition CreateTempDir_empty : M string :=
  CreateTempDir_with (λ _ _ _, raise TypeError) (inl 0%Z) None.

Definition falsy (file_name : option FileName) : bool :=
  match file_name with
  | None | Some (Name "") | Some (Tuple []) => true
  | _ => false
  end.

Section Sentinels.

(** [NA_ID] and [NA_MODE] come from [gslib.utils.posix_util], which is not
    part of the sources at hand: two integers that stand for "no id" and
    "no mode". *)
Variables NA_ID NA_MODE : Z.

Definition CreateTempFile
    (tmpdir : option string) (contents : option Contents)
    (file_name : option FileName) (mtime : option Z)
    (mode uid gid : PyVal) : M string :=
  tmpdir <-
    match tmpdir with
    | Some d => if String.eqb d "" then CreateTempDir_empty else ret d
    | None => CreateTempDir_empty
    end ;;
  file_name <-
    match file_name with
    | Some n => if falsy file_name
                then n' <- MakeTempName "file" "" ;; ret (Name n')
                else ret n
    | None => n' <- MakeTempName "file" "" ;; ret (Name n')
    end ;;
  let fpath :=
    match file_name with
    | Tuple parts => os_path.join tmpdir parts
    | Name n => os_path.join tmpdir [n]
    end in
  isdir <- (λ w, (Return (OS.isdir (os_path.dirname fpath) (os w)), w)) ;;
  (if negb isdir then sys (OS.makedirs (os_path.dirname fpath))
   else ret ()) ;;;
  contents <-
    match contents with
    | Some c => ret c
    | None => n <- MakeTempName "contents" "" ;; ret (Str n)
    end ;;
  let contents :=
    match contents with
    | Str s => Py.ensure_binary s
    | Bytes b => b
    end in
  sys (OS.open_wb_write fpath contents) ;;;
  (match mtime with
   | Some t => sys (OS.utime fpath t t)
   | None => ret ()
   end) ;;;
  owner <-
    (if Py.ne_int uid NA_ID then ret true
     else g <- lift (Py.int gid) ;; ret (negb (g =? NA_ID)%Z)) ;;
  (if owner : bool
   then g <- lift (Py.int gid) ;;
        u <- lift (Py.as_id uid) ;;
        sys (OS.chown fpath u g)
   else ret ()) ;;;
  m <- lift (Py.int mode) ;;
  (if negb (m =? NA_MODE)%Z
   then m8 <- lift (Py.int8 mode) ;; sys (OS.chmod fpath m8)
   else ret ()) ;;;
  ret fpath.

(** [self.CreateTempDir(test_files, contents)]: each file is made by
    [CreateTempFile(tmpdir=tmpdir, file_name=name, contents=contents_file)],
    the other arguments at their defaults. *)
Definition CreateTempDir (test_files : Z + list FileName)
    (contents : option Contents) : M string :=
  CreateTempDir_with
    (λ tmpdir contents_file name,
       CreateTempFile (Some tmpdir) (Some contents_file) (Some name) None
         (PyInt NA_MODE) (PyInt NA_ID) (PyInt NA_ID))
    test_files contents.

End Sentinels.

End GsUtilTestCase.

(** ** Names in text beyond code point 255

    A [prefix] or a [kind] may hold any code point. For such text the
    making of names is given a second time, on sequences of code points,
    with the case tables of the interpreter as far as they are written
    down here. *)

Module Unicode.

(** Python text in full: a sequence of code points. *)
Definition text : Type := list N.

(** The text a [string] stands for. *)
Definition of_string (s : string) : text :=
  Text.code <$> String.list_ascii_of_string s.

Definition latin1_upper (c : N) : bool :=
  (65 <=? c) && (c <=? 90) || (192 <=? c) && (c <=? 214) ||
  (216 <=? c) && (c <=? 222).

(** [c.isupper()] and [c.lower()] by code point. The tables hold the code
    points below 256; U+0130 (capital I with dot above), whose small form is
    the two code points U+0069 and U+0307 (small i, combining dot above);
    and U+03D2 (Greek upsilon with hook symbol), an uppercase letter that
    has no small form. They answer [None] for every other code point. *)
Definition isupper (c : N) : option bool :=
  if c <? 256 then Some (latin1_upper c)
  else if c =? 304 then Some true
  else if c =? 775 then Some false
  else if c =? 978 then Some true
  else None.

Definition lower_char (c : N) : option (list N) :=
  if c <? 256 then Some [if latin1_upper c then c + 32 else c]
  else if c =? 304 then Some [105; 775]
  else if c =? 775 then Some [775]
  else if c =? 978 then Some [978]
  else None.

(** [s.lower()] *)
Fixpoint lower (s : text) : option text :=
  match s with
  | [] => Some []
  | c :: s' =>
      match lower_char c, lower s' with
      | Some l, Some r => Some (l ++ r)
      | _, _ => None
      end
  end.

(** [s.replace(old, new)] for one-character [old] and [new]. *)
Definition replace_char (old new : N) (s : text) : text :=
  (λ c, if c =? old then new else c) <$> s.

(** [gslib.tests.util.MakeBucketNameValid], modelled as in [util] above;
    [None] where the case tables have no answer. *)
Definition MakeBucketNameValid (name : text) : option text :=
  lower (replace_char 95 45 name).

(** [GsUtilTestCase.MakeTempName] (lines 92-114 of base.py). *)
Definition MakeTempName (kind : text) (prefix : text) : M (option text) :=
  method <- GsUtilTestCase.GetTestMethodName ;;
  let name := prefix ++ of_string "gsutil-test-" ++ of_string method ++
              of_string "-" ++ kind in
  let name := take (MAX_BUCKET_LENGTH - 9) name in
  rand <- GsUtilTestCase.MakeRandomTestString ;;
  let name := name ++ of_string "-" ++ of_string rand in
  if bool_decide (kind = of_string "bucket")
  then ret (MakeBucketNameValid name)
  else ret (Some name).

End Unicode.

(** ** Regular expressions: a fragment of the [re] module

    The [re] module is the interpreter's. The model covers the patterns
    built from literal characters, [.], [|], groups [( )], the repetitions
    [*] [+] [?] and a backslash before a special character, under the flags
    IGNORECASE, MULTILINE, DOTALL and UNICODE. On these it answers as the
    module does: a compiled pattern or [re.error]. For every other pattern
    or flag it gives no answer ([None]). *)

Module re.

Definition IGNORECASE : Z := 2.
Definition MULTILINE : Z := 8.
Definition DOTALL : Z := 16.
Definition UNICODE : Z := 32.

Inductive Regex :=
| Never
| Eps
| Lit (c : ascii) (ignorecase : bool)
| Dot (dotall : bool)
| Cat (r1 r2 : Regex)
| Alt (r1 r2 : Regex)
| Star (r : Regex).

(** A compiled pattern object. *)
Record Pattern := {
  pattern : string;
  flags : Z;
  program : Regex
}.

Definition fold_case (c : ascii) : ascii :=
  if Text.between 65 90 c then ascii_of_N (Text.code c + 32) else c.

Definition lit_matches (c : ascii) (ignorecase : bool) (a : ascii) : bool :=
  if ignorecase then Ascii.eqb (fold_case a) (fold_case c) else Ascii.eqb a c.

Fixpoint nullable (r : Regex) : bool :=
  match r with
  | Never | Lit _ _ | Dot _ => false
  | Eps | Star _ => true
  | Cat r1 r2 => nullable r1 && nullable r2
  | Alt r1 r2 => nullable r1 || nullable r2
  end.

(** What is left of [r] to match once it has read [a]. *)
Fixpoint deriv (a : ascii) (r : Regex) : Regex :=
  match r with
  | Never | Eps => Never
  | Lit c i => if lit_matches c i a then Eps else Never
  | Dot all => if all || negb (Ascii.eqb a "010") then Eps else Never
  | Cat r1 r2 =>
      if nullable r1 then Alt (Cat (deriv a r1) r2) (deriv a r2)
      else Cat (deriv a r1) r2
  | Alt r1 r2 => Alt (deriv a r1) (deriv a r2)
  | Star r1 => Cat (deriv a r1) (Star r1)
  end.

(** [r] matches at the start of [s]. *)
Fixpoint match_here (r : Regex) (s : string) : bool :=
  nullable r ||
  match s with
  | "" => false
  | String a s' => match_here (deriv a r) s'
  end.

(** [r] matches somewhere in [s]. *)
Fixpoint search_program (r : Regex) (s : string) : bool :=
  match_here r s ||
  match s with
  | "" => false
  | String _ s' => search_program r s'
  end.

(** [p.search(text)], as a truth value. *)
Definition search (p : Pattern) (text : string) : bool :=
  search_program (program p) text.

(** What the programs mean: the texts a program matches, and a program
    being found in a text, which is what [search] decides. *)
Inductive Matches : Regex → string → Prop :=
| matches_eps : Matches Eps ""
| matches_lit c i a :
    lit_matches c i a = true → Matches (Lit c i) (String a "")
| matches_dot all a :
    all || negb (Ascii.eqb a "010") = true → Matches (Dot all) (String a "")
| matches_cat r1 r2 s1 s2 :
    Matches r1 s1 → Matches r2 s2 → Matches (Cat r1 r2) (s1 +:+ s2)
| matches_alt_l r1 r2 s : Matches r1 s → Matches (Alt r1 r2) s
| matches_alt_r r1 r2 s : Matches r2 s → Matches (Alt r1 r2) s
| matches_star_nil r : Matches (Star r) ""
| matches_star_cons r s1 s2 :
    Matches r s1 → Matches (Star r) s2 → Matches (Star r) (s1 +:+ s2).

Definition found (p : Pattern) (text : string) : Prop :=
  ∃ before part after,
    text = before +:+ part +:+ after ∧ Matches (program p) part.

(** *** Reading a pattern *)

(** One level of grouping while it is read: the alternatives closed by [|],
    the items of the current alternative, its last item (which a repetition
    may still apply to), whether that item is already repeated, and whether
    nothing has been read since the opening parenthesis. *)
Record Frame := {
  alts : option Regex;
  items : Regex;
  last_item : option Regex;
  repeated : bool;
  opened : bool
}.

Definition start (opened : bool) : Frame :=
  {| alts := None; items := Eps; last_item := None; repeated := false;
     opened := opened |}.

Definition close_items (f : Frame) : Regex :=
  match last_item f with
  | Some a => Cat (items f) a
  | None => items f
  end.

Definition close (f : Frame) : Regex :=
  match alts f with
  | Some a => Alt a (close_items f)
  | None => close_items f
  end.

Definition push (a : Regex) (f : Frame) : Frame :=
  {| alts := alts f; items := close_items f; last_item := Some a;
     repeated := false; opened := false |}.

Definition next_alternative (f : Frame) : Frame :=
  {| alts := Some (close f); items := Eps; last_item := None;
     repeated := false; opened := false |}.

Definition repeat (c : ascii) (a : Regex) (f : Frame) : Frame :=
  {| alts := alts f; items := items f;
     last_item := Some (if Ascii.eqb c "*" then Star a
                        else if Ascii.eqb c "+" then Cat a (Star a)
                        else Alt a Eps);
     repeated := true; opened := false |}.

Inductive Parsed :=
| Compiled (r : Regex)
| Malformed
| Unsupported.

Definition special : string := ".^$*+?{}[]\|()".

Definition is_special (c : ascii) : bool :=
  Text.contains (String c "") special.

Definition literal (c : ascii) (ignorecase : bool) : option Regex :=
  if ignorecase && (128 <=? Text.code c) then None
  else Some (Lit c ignorecase).

Fixpoint parse (ignorecase dotall : bool) (stack : list Frame) (f : Frame)
    (s : string) : Parsed :=
  match s with
  | "" =>
      match stack with
      | [] => Compiled (close f)
      | _ => Malformed                     (* missing ) *)
      end
  | String c s' =>
      if Ascii.eqb c "(" then
        parse ignorecase dotall (f :: stack) (start true) s'
      else if Ascii.eqb c ")" then
        match stack with
        | [] => Malformed                  (* unbalanced parenthesis *)
        | outer :: stack' =>
            parse ignorecase dotall stack' (push (close f) outer) s'
        end
      else if Ascii.eqb c "|" then
        parse ignorecase dotall stack (next_alternative f) s'
      else if Ascii.eqb c "*" || Ascii.eqb c "+" || Ascii.eqb c "?" then
        if repeated f then Unsupported
        else match last_item f with
             | Some a => parse ignorecase dotall stack (repeat c a f) s'
             | None =>
                 if opened f && Ascii.eqb c "?" then Unsupported
                 else Malformed            (* nothing to repeat *)
             end
      else if Ascii.eqb c "\" then
        match s' with
        | "" => Malformed                  (* bad escape (end of pattern) *)
        | String e s'' =>
            if is_special e then
              match literal e ignorecase with
              | Some a => parse ignorecase dotall stack (push a f) s''
              | None => Unsupported
              end
            else Unsupported
        end
      else if Ascii.eqb c "." then
        parse ignorecase dotall stack (push (Dot dotall) f) s'
      else if is_special c then Unsupported
      else match literal c ignorecase with
           | Some a => parse ignorecase dotall stack (push a f) s'
           | None => Unsupported
           end
  end.

Definition flags_supported (fl : Z) : bool :=
  (0 <=? fl)%Z && (Z.land fl (Z.lnot 58) =? 0)%Z.

(** [re.compile(src, flags=fl)] *)
Definition compile (src : string) (fl : Z) : option (Outcome Pattern) :=
  if flags_supported fl then
    match parse (Z.testbit fl 1) (Z.testbit fl 4) [] (start false) src with
    | Compiled r =>
        Some (Return {| pattern := src; flags := Z.lor fl UNICODE;
                        program := r |})
    | Malformed => Some (Raise re_error)
    | Unsupported => None
    end
  else None.

End re.

(** ** [repr] of text *)

Module Repr.

Definition double_quote : ascii := ascii_of_N 34.

Definition quote_for (s : string) : ascii :=
  if Text.contains "'" s && negb (Text.contains (String double_quote "") s)
  then double_quote
  else "'"%char.

Definition hex_escape (c : ascii) : string :=
  "\x" +:+ Fmt.zero_pad 2 (Fmt.x (Text.code c)).

(** Code points below 256 that are not printable: the control characters,
    the no-break space and the soft hyphen. *)
Definition printable (c : ascii) : bool :=
  Text.between 32 126 c ||
  (Text.between 161 255 c && negb (Text.code c =? 173)).

Definition escape (quote c : ascii) : string :=
  if Ascii.eqb c quote || Ascii.eqb c "\" then String "\" (String c "")
  else if Ascii.eqb c "009" then "\t"
  else if Ascii.eqb c "010" then "\n"
  else if Ascii.eqb c "013" then "\r"
  else if printable c then String c ""
  else hex_escape c.

Fixpoint escape_all (quote : ascii) (s : string) : string :=
  match s with
  | "" => ""
  | String c s' => escape quote c +:+ escape_all quote s'
  end.

(** [repr(s)] *)
Definition repr (s : string) : string :=
  let q := quote_for s in
  String q (escape_all q s) +:+ String q "".

End Repr.

Module Assertions.

(** What the assertion uses of the interpreter's [re] module, whatever that
    module does with a pattern: [compile] is [re.compile(src, flags=fl)],
    which returns a pattern object or raises; [pattern] and [flags] are the
    attributes of a pattern object; [search] tells whether [p.search(text)]
    returns a match object (which is true) or [None]. *)
Class Engine := {
  Pattern : Type;
  compile : string → Z → Outcome Pattern;
  pattern : Pattern → string;
  flags : Pattern → Z;
  search : Pattern → string → bool
}.

(** The engine that answers as the modelled fragment of [re] where that
    has an answer, and as a given engine [rest] everywhere else. *)
Definition fragment_with (rest : Engine) : Engine :=
  {| Pattern := re.Pattern + @Pattern rest;
     compile src fl :=
       match re.compile src fl with
       | Some (Return p) => Return (inl p)
       | Some (Raise e) => Raise e
       | None =>
           match @compile rest src fl with
           | Return q => Return (inr q)
           | Raise e => Raise e
           end
       end;
     pattern p :=
       match p with inl p => re.pattern p | inr q => @pattern rest q end;
     flags p :=
       match p with inl p => re.flags p | inr q => @flags rest q end;
     search p text :=
       match p with
       | inl p => re.search p text
       | inr q => @search rest q text
       end |}.

Section Engine.

Context {E : Engine}.

(** The [pattern] argument: text, or a pattern object. *)
Inductive PatternArg :=
| Source (s : string)
| Object (p : Pattern).

(** [self.assertRegexpMatchesWithFlags(text, pattern, msg, flags)] *)
Definition assertRegexpMatchesWithFlags (text : string)
    (pattern : PatternArg) (msg : option string) (flags : Z)
  : Outcome unit :=
  match
    match pattern with
    | Source s => compile s flags
    | Object p =>
        compile (Assertions.pattern p) (Z.lor (Assertions.flags p) flags)
    end
  with
  | Raise e => Raise e
  | Return pattern =>
      if negb (search pattern text) then
        let failure_msg :=
          match msg with
          | Some m => if String.eqb m "" then "Regex didn't match" else m
          | None => "Regex didn't match"
          end in
        let failure_msg :=
          failure_msg +:+ ": " +:+ Repr.repr (Assertions.pattern pattern) +:+
          " not found in " +:+ Repr.repr text in
        Raise (failureException failure_msg)
      else Return ()
  end.

End Engine.

Arguments PatternArg E : clear implicits.

End Assertions.

(** ** The decorators [NotParallelizable] and [RequiresIsolation] *)

Module Decorators.

Section Functions.

(** What a function is called with (its positional and keyword arguments)
    and what a call results in (a value, an exception, effects). *)
Variables Args Result : Type.

(** A function object: what calling it does, and its attributes. *)
Record Function := {
  call : Args → Result;
  __module__ : string;
  __name__ : string;
  __qualname__ : string;
  __doc__ : option string;
  __dict__ : gmap string PyVal;
  __wrapped__ : option (Args → Result)
}.

(** A function defined in this module, with body [body]. *)
Definition def (name qualname : string) (body : Args → Result) : Function :=
  {| call := body; __module__ := "gslib.tests.testcase.base";
     __name__ := name; __qualname__ := qualname; __doc__ := None;
     __dict__ := ∅; __wrapped__ := None |}.

(** [functools.wraps(wrapped)(wrapper)] *)
Definition wraps (wrapped wrapper : Function) : Function :=
  {| call := call wrapper;
     __module__ := __module__ wrapped;
     __name__ := __name__ wrapped;
     __qualname__ := __qualname__ wrapped;
     __doc__ := __doc__ wrapped;
     __dict__ := __dict__ wrapped ∪ __dict__ wrapper;
     __wrapped__ := Some (call wrapped) |}.

(** [f.attr = v] *)
Definition setattr (attr : string) (v : PyVal) (f : Function) : Function :=
  {| call := call f; __module__ := __module__ f; __name__ := __name__ f;
     __qualname__ := __qualname__ f; __doc__ := __doc__ f;
     __dict__ := <[attr := v]> (__dict__ f);
     __wrapped__ := __wrapped__ f |}.

Definition NotParallelizable (func : Function) : Function :=
  let ParallelAnnotatedFunc :=
    wraps func
      (def "ParallelAnnotatedFunc"
           "NotParallelizable.<locals>.ParallelAnnotatedFunc"
           (λ args, call func args)) in
  setattr "is_parallelizable" (PyBool false) ParallelAnnotatedFunc.

Definition RequiresIsolation (func : Function) : Function :=
  let RequiresIsolationFunc :=
    wraps func
      (def "RequiresIsolationFunc"
           "RequiresIsolation.<locals>.RequiresIsolationFunc"
           (λ args, call func args)) in
  setattr "requires_isolation" (PyBool true) RequiresIsolationFunc.

End Functions.

Arguments call {Args Result}.
Arguments __module__ {Args Result}.
Arguments __name__ {Args Result}.
Arguments __qualname__ {Args Result}.
Arguments __doc__ {Args Result}.
Arguments __dict__ {Args Result}.
Arguments __wrapped__ {Args Result}.
Arguments NotParallelizable {Args Result}.
Arguments RequiresIsolation {Args Result}.

End Decorators.

(** ** [gslib/addlhelp]: the help topics *)

Module HelpProvider.

(** [HelpProvider.HelpSpec], with the fields the topic modules fill in. *)
Record HelpSpec := {
  help_name : string;
  help_name_aliases : list string;
  help_type : string;
  help_one_line_summary : string;
  help_text : string;
  subcommand_help_text : gmap string string
}.

End HelpProvider.

Module addlhelp.
Import HelpProvider.

Module apis.
Definition _DETAILED_HELP_TEXT : string := "detailed_help/apis.md".
Module CommandOptions.
Definition help_spec : HelpSpec := {|
  help_name := "apis";
  help_name_aliases := ["XML"; "JSON"; "api"; "force_api"; "prefer_api"];
  help_type := "additional_help";
  help_one_line_summary := "Cloud Storage APIs";
  help_text := _DETAILED_HELP_TEXT;
  subcommand_help_text := ∅
|}.
End CommandOptions.
End apis.

Module crc32c.
Definition _DETAILED_HELP_TEXT : string := "detailed_help/crc32c.md".
Module CommandOptions.
Definition help_spec : HelpSpec := {|
  help_name := "crc32c";
  help_name_aliases := ["crc32"; "crc"; "crcmod"];
  help_type := "additional_help";
  help_one_line_summary := "CRC32C and Installing crcmod";
  help_text := _DETAILED_HELP_TEXT;
  subcommand_help_text := ∅
|}.
End CommandOptions.
End crc32c.

Module encoding.
Definition _DETAILED_HELP_TEXT : string := "detailed_help/encoding.md".
Module CommandOptions.
Definition help_spec : HelpSpec := {|
  help_name := "encoding";
  help_name_aliases :=
    ["encodings"; "utf8"; "utf-8"; "latin1"; "unicode"; "interoperability"];
  help_type := "additional_help";
  help_one_line_summary := "Filename encoding and interoperability problems";
  help_text := _DETAILED_HELP_TEXT;
  subcommand_help_text := ∅
|}.
End CommandOptions.
End encoding.

Module projects.
Definition _DETAILED_HELP_TEXT : string := "detailed_help.md".
Module CommandOptions.
Definition help_spec : HelpSpec := {|
  help_name := "projects";
  help_name_aliases :=
    ["apis console"; "cloud console"; "console"; "dev console"; "project";
     "proj"; "project-id"];
  help_type := "additional_help";
  help_one_line_summary := "Working With Projects";
  help_text := _DETAILED_HELP_TEXT;
  subcommand_help_text := ∅
|}.
End CommandOptions.
End projects.

Module security.
Definition _DETAILED_HELP_TEXT : string := "detailed_help/security.md".
Module CommandOptions.
Definition help_spec : HelpSpec := {|
  help_name := "security";
  help_name_aliases :=
    ["hmac"; "https"; "oauth"; "protection"; "privacy"; "proxies"; "proxy,";
     "signing"; "telemetry"; "tls"];
  help_type := "additional_help";
  help_one_line_summary := "Security and Privacy Considerations";
  help_text := _DETAILED_HELP_TEXT;
  subcommand_help_text := ∅
|}.
End CommandOptions.
End security.

Module wildcards.
Definition _DETAILED_HELP_TEXT : string := "detailed_help/wildcards.md".
Module CommandOptions.
Definition help_spec : HelpSpec := {|
  help_name := "wildcards";
  help_name_aliases := ["wildcard"; "*"; "**"; "?"];
  help_type := "additional_help";
  help_one_line_summary := "Wildcard Names";
  help_text := _DETAILED_HELP_TEXT;
  subcommand_help_text := ∅
|}.
End CommandOptions.
End wildcards.

(** The help specification each topic module constructs, module by module. *)
Definition topics : list (string * HelpSpec) :=
  [("apis", apis.CommandOptions.help_spec);
   ("crc32c", crc32c.CommandOptions.help_spec);
   ("encoding", encoding.CommandOptions.help_spec);
   ("projects", projects.CommandOptions.help_spec);
   ("security", security.CommandOptions.help_spec);
   ("wildcards", wildcards.CommandOptions.help_spec)].

End addlhelp.

(** ** Notions the properties are stated with *)

(** The system calls issued between two worlds. *)
Definition issued (w w' : World) (l : list Syscall) : Prop :=
  calls (os w') = calls (os w) ++ l.

(** The value the next [randrange(256**4)] delivers, and the world after
    one draw. *)
Definition drawn (w : World) : N := entropy w (draws w) mod 256 ^ 4.

Definition advance (w : World) : World :=
  {| _testMethodName := _testMethodName w; tempdirs := tempdirs w;
     os := os w; entropy := entropy w; draws := S (draws w) |}.

(** The part of a temporary name that comes before the random suffix, and
    the name [MakeTempName] makes of it and of the value [r] drawn. *)
Definition name_stem (method kind prefix : string) : string :=
  Text.slice_to 54 (prefix +:+ "gsutil-test-" +:+ method +:+ "-" +:+ kind).

Definition temp_name (method kind prefix : string) (r : N) : string :=
  let name := name_stem method kind prefix +:+ "-" +:+ Fmt.x08 r in
  if String.eqb kind "bucket" then util.MakeBucketNameValid name else name.

(** The same stem in the model of text beyond code point 255. *)
Definition unicode_stem (method : string) (kind prefix : Unicode.text)
  : Unicode.text :=
  take 54 (prefix ++ Unicode.of_string "gsutil-test-" ++
           Unicode.of_string method ++ Unicode.of_string "-" ++ kind).

(** A world to run examples in: a process of user 1000 that has made no
    system call yet, an empty temporary directory [/tmp], the test method
    [testFoo], and a random source [e]. *)
Definition example_world (e : nat → N) : World :=
  {| _testMethodName := "testFoo"; tempdirs := [];
     os := {| files := ∅; dirs := {["/tmp"]}; clock := 1700000000;
              euid := 1000; egid := 1000; groups := {[ 1000%Z; 100%Z ]};
              umask := 18; tempdir := "/tmp";
              time_min := - 2 ^ 31; time_max := 2 ^ 34 - 2 ^ 31 - 1;
              calls := [] |};
     entropy := e; draws := 0 |}.

(** The file tree after the directories of [l] have been removed, the last
    one first, errors ignored. *)
Definition swept (l : list string) (s : OsState) : OsState :=
  foldr (λ d s, (OS.rmtree d true s).2) s l.

(** The source and the flags [assertRegexpMatchesWithFlags] compiles: those
    of a pattern object are taken over, its flags joined bitwise with the
    ones given. *)
Definition pattern_source `{E : Assertions.Engine}
    (p : Assertions.PatternArg E) : string :=
  match p with
  | Assertions.Source s => s
  | Assertions.Object o => Assertions.pattern o
  end.

Definition pattern_flags `{E : Assertions.Engine}
    (p : Assertions.PatternArg E) (flags : Z) : Z :=
  match p with
  | Assertions.Source _ => flags
  | Assertions.Object o => Z.lor (Assertions.flags o) flags
  end.

(** The head of the message of a failed [assertRegexpMatchesWithFlags]:
    [msg or "Regex didn't match"]. *)
Definition message_head (msg : option string) : string :=
  match msg with
  | Some (String c m) => String c m
  | _ => "Regex didn't match"
  end.

(** Printable ASCII other than the quote and the backslash: [repr] writes
    such characters as they are. *)
Definition plain (c : ascii) : bool :=
  Text.between 32 126 c && negb (Ascii.eqb c "'") && negb (Ascii.eqb c "\").

(** A file tree is well formed when every entry lies in directories that
    exist. *)
Definition fs_wf (s : OsState) : Prop :=
  ∀ k, k ∈ dom (files s) ∪ dirs s →
       Forall (λ d, d ∈ dirs s) (os_path.ancestors k).

(** The contents of the files that are, or lie in, [d]. *)
Definition listing (d : string) (s : OsState) : gmap string (list byte) :=
  filter (λ kv, os_path.within d kv.1) (st_data <$> files s).

(** What is written for given contents. *)
Definition to_bytes (c : GsUtilTestCase.Contents) : list byte :=
  match c with
  | GsUtilTestCase.Str s => Py.ensure_binary s
  | GsUtilTestCase.Bytes b => b
  end.

(** A relation between the states of the operating system holds along a
    computation: between the state it starts in and the one it ends in,
    whatever the outcome. *)
Definition along (R : OsState → OsState → Prop) {A} (m : M A) : Prop :=
  ∀ w, R (os w) (os (m w).2).

(** All calls issued from [s] to [s'] satisfy [P]. *)
Definition calls_all (P : Syscall → Prop) (s s' : OsState) : Prop :=
  ∃ l, calls s' = calls s ++ l ∧ Forall P l.

(** No file is touched from [s] to [s'], the process is who it was, and the
    clock does not go back. *)
Definition files_kept (s s' : OsState) : Prop :=
  files s' = files s ∧ euid s' = euid s ∧ egid s' = egid s ∧
  umask s' = umask s ∧ (clock s ≤ clock s')%Z.

(** The file system stores the same range of times in [s] and in [s']. *)
Definition range_kept (s s' : OsState) : Prop :=
  time_min s' = time_min s ∧ time_max s' = time_max s.

(** [CreateTempFile] in two parts, for the proofs: the first part finds
    the path and the bytes to write (lines 199-213 of base.py), the second
    part ([CreateTempFile_times], [CreateTempFile_perms]) is what follows
    the writing (lines 217-225). *)
Definition CreateTempFile_target
    (tmpdir : option string) (contents : option GsUtilTestCase.Contents)
    (file_name : option GsUtilTestCase.FileName) : M (string * list byte) :=
  tmpdir <-
    match tmpdir with
    | Some d => if String.eqb d "" then GsUtilTestCase.CreateTempDir_empty
                else ret d
    | None => GsUtilTestCase.CreateTempDir_empty
    end ;;
  file_name <-
    match file_name with
    | Some n => if GsUtilTestCase.falsy file_name
                then n' <- GsUtilTestCase.MakeTempName "file" "" ;;
                     ret (GsUtilTestCase.Name n')
                else ret n
    | None => n' <- GsUtilTestCase.MakeTempName "file" "" ;;
              ret (GsUtilTestCase.Name n')
    end ;;
  let fpath :=
    match file_name with
    | GsUtilTestCase.Tuple parts => os_path.join tmpdir parts
    | GsUtilTestCase.Name n => os_path.join tmpdir [n]
    end in
  isdir <- (λ w, (Return (OS.isdir (os_path.dirname fpath) (os w)), w)) ;;
  (if negb isdir then sys (OS.makedirs (os_path.dirname fpath))
   else ret ()) ;;;
  contents <-
    match contents with
    | Some c => ret c
    | None => n <- GsUtilTestCase.MakeTempName "contents" "" ;;
              ret (GsUtilTestCase.Str n)
    end ;;
  ret (fpath, to_bytes contents).

Definition CreateTempFile_times (fpath : string) (mtime : option Z)
  : M unit :=
  match mtime with
  | Some t => sys (OS.utime fpath t t)
  | None => ret ()
  end.

Definition CreateTempFile_perms (NA_ID NA_MODE : Z) (fpath : string)
    (mode uid gid : PyVal) : M string :=
  owner <-
    (if Py.ne_int uid NA_ID then ret true
     else g <- lift (Py.int gid) ;; ret (negb (g =? NA_ID)%Z)) ;;
  (if owner : bool
   then g <- lift (Py.int gid) ;;
        u <- lift (Py.as_id uid) ;;
        sys (OS.chown fpath u g)
   else ret ()) ;;;
  m <- lift (Py.int mode) ;;
  (if negb (m =? NA_MODE)%Z
   then m8 <- lift (Py.int8 mode) ;; sys (OS.chmod fpath m8)
   else ret ()) ;;;
  ret fpath.

(** The file at [p] has the contents [d] and the times [a] and [m]. *)
Definition file_has (p : string) (d : list byte) (a m : Z) (s : OsState)
  : Prop :=
  ∃ f, files s !! p = Some f ∧ st_data f = d ∧ st_atime f = a ∧ st_mtime f = m.

(** The file at [p] has the owner [u], the group [g] and the mode [m]. *)
Definition file_owned (p : string) (u g m : Z) (s : OsState) : Prop :=
  ∃ f, files s !! p = Some f ∧ st_uid f = u ∧ st_gid f = g ∧ st_mode f = m.

(** The calls that change the owner or the mode of a file are issued only
    under the conditions [owner] and [mode]. *)
Definition attr_calls (owner mode : Prop) (c : Syscall) : Prop :=
  match c with
  | sys_chown _ _ _ => owner
  | sys_chmod _ _ => mode
  | _ => True
  end.

Definition is_utime (c : Syscall) : Prop :=
  match c with
  | sys_utime _ _ _ => True
  | _ => False
  end.

(** The caller asks for an owner: [uid != NA_ID or int(gid) != NA_ID]; and
    for a mode: [int(mode) != NA_MODE]. *)
Definition owner_requested (NA_ID : Z) (uid gid : PyVal) : Prop :=
  Py.ne_int uid NA_ID = true ∨ ∃ g, Py.int gid = Return g ∧ g ≠ NA_ID.

Definition mode_requested (NA_MODE : Z) (mode : PyVal) : Prop :=
  ∃ m, Py.int mode = Return m ∧ m ≠ NA_MODE.

(** From [s] to [s'] the clock does not go back and the file at [p] keeps
    its contents and its times. *)
Definition contents_kept (p : string) (s s' : OsState) : Prop :=
  (clock s ≤ clock s')%Z ∧ ∀ d a m, file_has p d a m s → file_has p d a m s'.

(** The owner, group and mode a file at [p] has once it is written in the
    state [s]: its own if it is there, those of the process if it is new. *)
Definition owner_as_written (p : string) (s : OsState) : Z * Z * Z :=
  match files s !! p with
  | Some f => (st_uid f, st_gid f, st_mode f)
  | None => (euid s, egid s, Z.land 438 (Z.lnot (umask s)))
  end.

(** A character other than the separator of paths. *)
Definition no_sep (c : ascii) : bool := negb (os_path.is_sep c).

(** The name of a directory entry: not empty, without separator, and
    neither ["."] nor [".."]. *)
Definition entry_name (n : string) : bool :=
  negb (String.eqb n "") && Text.all no_sep n &&
  negb (String.eqb n ".") && negb (String.eqb n "..").

(** The texts between the separators of a path. *)
Fixpoint split_path (p : string) : list string :=
  match p with
  | "" => [""]
  | String c p' =>
      if os_path.is_sep c then "" :: split_path p'
      else match split_path p' with
           | n :: l => String c n :: l
           | [] => [String c ""]
           end
  end.

(** A path in normal form: it starts at the root, and what follows each
    separator is the name of an entry. Links apart, two different paths in
    normal form name two different places of a file tree. *)
Definition normal_path (p : string) : bool :=
  match split_path p with
  | "" :: n :: l => forallb entry_name (n :: l)
  | _ => false
  end.

(** The file tree is kept under paths in normal form, the temporary
    directory of the system among them. *)
Definition normal_tree (s : OsState) : Prop :=
  normal_path (tempdir s) = true ∧
  ∀ k, k ∈ dom (files s) ∪ dirs s → normal_path k = true.

(** The directory and the file name given to [CreateTempFile] name a place
    in normal form: the directory, if there is one, is a path in normal
    form, and the file name, if there is one, is the name of an entry or a
    tuple of such names. *)
Definition normal_names (tmpdir : option string)
    (file_name : option GsUtilTestCase.FileName) : Prop :=
  match tmpdir with
  | Some d => d = "" ∨ normal_path d = true
  | None => True
  end ∧
  match file_name with
  | Some (GsUtilTestCase.Name n) => n = "" ∨ entry_name n = true
  | Some (GsUtilTestCase.Tuple l) => Forall (λ n, entry_name n = true) l
  | None => True
  end.

(** From [w] to [w'] the test case and the random source are as they were:
    only the operating system has moved on. *)
Definition same_self (w w' : World) : Prop :=
  _testMethodName w' = _testMethodName w ∧ tempdirs w' = tempdirs w ∧
  entropy w' = entropy w ∧ draws w' = draws w.

(** The bytes of ["test <i>"]. *)
Definition test_bytes (i : nat) : list byte :=
  Py.ascii_bytes ("test " +:+ Fmt.d i).

(** The value of the [k]-th draw from the random source of [w]. *)
Definition draw_at (w : World) (k : nat) : N := entropy w k mod 256 ^ 4.

(** ** [assertNumLines] *)

Module LineAssertions.

(** [s.count(c)] for a one-character [c]. *)
Fixpoint count (c : ascii) (s : string) : nat :=
  match s with
  | "" => O
  | String a s' => (if Ascii.eqb a c then 1 else 0) + count c s'
  end.

(** [repr] of an integer. *)
Definition repr_int (z : Z) : string := NilZero.string_of_int (Z.to_int z).

(** [self.assertEqual(first, second)] on integers: the failure names both. *)
Definition assertEqual (first second : Z) : Outcome unit :=
  if (first =? second)%Z then Return ()
  else Raise (failureException (repr_int first +:+ " != " +:+ repr_int second)).

Definition assertNumLines (text : string) (numlines : Z) : Outcome unit :=
  assertEqual (Z.of_nat (count "010" text)) numlines.

End LineAssertions.

(** A world with a tracked directory that holds one file, next to a file
    that lies outside of it. *)
Definition example_tree : World :=
  let f := {| st_data := []; st_atime := 0; st_mtime := 0; st_uid := 1000;
              st_gid := 1000; st_mode := 420 |} in
  {| _testMethodName := "testFoo"; tempdirs := ["/tmp/d"];
     os := {| files := {[ "/tmp/d/f" := f; "/tmp/g" := f ]};
              dirs := {[ "/tmp"; "/tmp/d" ]}; clock := 1700000000;
              euid := 1000; egid := 1000; groups := {[ 1000%Z; 100%Z ]};
              umask := 18; tempdir := "/tmp";
              time_min := - 2 ^ 31; time_max := 2 ^ 34 - 2 ^ 31 - 1;
              calls := [] |};
     entropy := N.of_nat; draws := 0 |}.

(** A computation leaves the world in the relation [R] to the one it
    started in, whatever the outcome. *)
Definition through (R : World → World → Prop) {A} (m : M A) : Prop :=
  ∀ w, R w (m w).2.

(** From [w] to [w'] the test is the same test, the random source is the
    same and has not been rewound, and the list of tracked directories has
    only grown at its end. *)
Definition self_kept (w w' : World) : Prop :=
  _testMethodName w' = _testMethodName w ∧ entropy w' = entropy w ∧
  (draws w ≤ draws w')%nat ∧ tempdirs w `prefix_of` tempdirs w'.

(** The same, with the list of tracked directories as it was. *)
Definition tracked_same (w w' : World) : Prop :=
  _testMethodName w' = _testMethodName w ∧ entropy w' = entropy w ∧
  (draws w ≤ draws w')%nat ∧ tempdirs w' = tempdirs w.

(** From [s] to [s'] no directory is lost. *)
Definition dirs_grow (s s' : OsState) : Prop := dirs s ⊆ dirs s'.

(** From [s] to [s'] the directories are the same and no file but the one
    at [p] is touched. *)
Definition others_kept (p : string) (s s' : OsState) : Prop :=
  dirs s' = dirs s ∧ ∀ k, k ≠ p → files s' !! k = files s !! k.

(** How [CreateTempFile] starts: the directory given, or a new one. *)
Definition CreateTempFile_tmpdir (tmpdir : option string) : M string :=
  match tmpdir with
  | Some d => if String.eqb d "" then GsUtilTestCase.CreateTempDir_empty
              else ret d
  | None => GsUtilTestCase.CreateTempDir_empty
  end.

(** [CreateTempDir] once the directory is made and tracked, for the proofs:
    the body of the loop (lines 140-144 of base.py), and the names of the
    files with the loop over them (lines 135-145). *)
Definition CreateTempDir_body
    (CreateTempFile : string → GsUtilTestCase.Contents →
                      GsUtilTestCase.FileName → M string)
    (tmpdir : string) (contents : option GsUtilTestCase.Contents)
    (i : nat) (name : GsUtilTestCase.FileName) : M unit :=
  contents_file <-
    match contents with
    | Some c => ret c
    | None => b <- lift (Py.encode_ascii ("test " +:+ Fmt.d i)) ;;
              ret (GsUtilTestCase.Bytes b)
    end ;;
  CreateTempFile tmpdir contents_file name ;;;
  ret ().

Definition CreateTempDir_files
    (CreateTempFile : string → GsUtilTestCase.Contents →
                      GsUtilTestCase.FileName → M string)
    (tmpdir : string) (test_files : Z + list GsUtilTestCase.FileName)
    (contents : option GsUtilTestCase.Contents) : M string :=
  test_files <-
    match test_files with
    | inr l => ret l
    | inl n =>
        names <- GsUtilTestCase.times (Z.to_nat n)
                   (GsUtilTestCase.MakeTempName "file" "") ;;
        ret (List.map GsUtilTestCase.Name names)
    end ;;
  GsUtilTestCase.for_enumerate 0 test_files
    (CreateTempDir_body CreateTempFile tmpdir contents) ;;;
  ret tmpdir.

(** The call by which [CreateTempDir] makes a file. *)
Definition CreateTempDir_file (NA_ID NA_MODE : Z) (tmpdir : string)
    (contents_file : GsUtilTestCase.Contents)
    (name : GsUtilTestCase.FileName) : M string :=
  GsUtilTestCase.CreateTempFile NA_ID NA_MODE (Some tmpdir)
    (Some contents_file) (Some name) None
    (PyInt NA_MODE) (PyInt NA_ID) (PyInt NA_ID).

(** What [CreateTempDir] writes into its [i]-th file: the contents given,
    or the ASCII bytes of ["test <i>"]. *)
Definition CreateTempDir_data (contents : option GsUtilTestCase.Contents)
    (i : nat) : list byte :=
  match contents with
  | Some c => to_bytes c
  | None => test_bytes i
  end.

(** * Properties *)

(** ** Text and number formatting *)

Module TextFacts.

Lemma len_app (a b : string) :
  Text.len (a +:+ b) = (Text.len a + Text.len b)%nat.
Proof. induction a as [|c a IH]; simpl; [done | by rewrite IH]. Qed.

Lemma len_map f (s : string) : Text.len (Text.map f s) = Text.len s.
Proof. induction s as [|c s IH]; simpl; [done | by rewrite IH]. Qed.

Lemma len_slice_to (n : nat) (s : string) :
  (Text.len (Text.slice_to n s) ≤ n)%nat.
Proof.
  revert s; induction n as [|n IH]; intros [|c s]; simpl; try lia.
  specialize (IH s); lia.
Qed.

Lemma len_repeat c (n : nat) : Text.len (Text.repeat c n) = n.
Proof. induction n as [|n IH]; simpl; [done | by rewrite IH]. Qed.

Lemma map_app f (a b : string) :
  Text.map f (a +:+ b) = Text.map f a +:+ Text.map f b.
Proof. induction a as [|c a IH]; simpl; [done | by rewrite IH]. Qed.

Lemma all_app p (a b : string) :
  Text.all p (a +:+ b) = Text.all p a && Text.all p b.
Proof.
  induction a as [|c a IH]; simpl; [done |].
  by rewrite IH, andb_assoc.
Qed.

Lemma all_repeat p c (n : nat) : p c = true → Text.all p (Text.repeat c n) = true.
Proof. intros Hc; induction n as [|n IH]; simpl; [done | by rewrite Hc, IH]. Qed.

Lemma all_map p f (s : string) :
  (∀ c, p (f c) = true) → Text.all p (Text.map f s) = true.
Proof. intros H; induction s as [|c s IH]; simpl; [done | by rewrite H, IH]. Qed.

(** A map that leaves the characters of [s] alone leaves [s] alone. *)
Lemma map_fixed p f (s : string) :
  (∀ c, p c = true → f c = c) → Text.all p s = true → Text.map f s = s.
Proof.
  intros H; induction s as [|c s IH]; simpl; [done |].
  intros [Hc Hs]%andb_true_iff. by rewrite (H c Hc), (IH Hs).
Qed.

Lemma app_assoc (a b c : string) : (a +:+ b) +:+ c = a +:+ (b +:+ c).
Proof.
  induction a as [|x a IH]; [done|].
  change (String x ((a +:+ b) +:+ c) = String x (a +:+ (b +:+ c))).
  by rewrite IH.
Qed.

End TextFacts.

Module FmtFacts.
Import TextFacts.

Lemma small_cases (n : N) :
  n < 16 →
  n = 0 ∨ n = 1 ∨ n = 2 ∨ n = 3 ∨ n = 4 ∨ n = 5 ∨ n = 6 ∨ n = 7 ∨
  n = 8 ∨ n = 9 ∨ n = 10 ∨ n = 11 ∨ n = 12 ∨ n = 13 ∨ n = 14 ∨ n = 15.
Proof. lia. Qed.

Lemma hex_value_digit (n : N) :
  n < 16 → Fmt.hex_value (Fmt.hex_digit n) = Some n.
Proof.
  intros H. destruct (small_cases n H) as
    [->|[->|[->|[->|[->|[->|[->|[->|[->|[->|[->|[->|[->|[->|[->| ->]]]]]]]]]]]]]]];
    reflexivity.
Qed.

Lemma lower_hex_digit (n : N) : Fmt.is_lower_hex (Fmt.hex_digit n) = true.
Proof.
  destruct (N.lt_ge_cases n 16) as [H|H].
  - destruct (small_cases n H) as
      [->|[->|[->|[->|[->|[->|[->|[->|[->|[->|[->|[->|[->|[->|[->| ->]]]]]]]]]]]]]]];
      reflexivity.
  - unfold Fmt.hex_digit.
    destruct n as [|p]; [lia|].
    do 4 (destruct p as [p|p|]; try reflexivity); lia.
Qed.

Lemma lower_hex_is_hex (c : ascii) :
  Fmt.is_lower_hex c = true → Fmt.is_hex c = true.
Proof.
  unfold Fmt.is_lower_hex, Fmt.is_hex, Fmt.hex_value.
  intros [H|H]%orb_true_iff; rewrite H; [done|].
  by destruct (Text.between 48 57 c).
Qed.

Lemma hex_digits_len (fuel k : nat) (n : N) :
  n < 16 ^ N.of_nat k → (1 ≤ k)%nat →
  (Text.len (Fmt.hex_digits fuel n) ≤ k)%nat.
Proof.
  revert k n; induction fuel as [|fuel IH]; intros k n Hn Hk; simpl; [lia|].
  destruct (N.ltb_spec n 16) as [Hlt|Hge]; simpl; [lia|].
  rewrite len_app; simpl.
  destruct k as [|[|k]]; [lia| |].
  - change (16 ^ N.of_nat 1) with 16 in Hn. lia.
  - assert (Text.len (Fmt.hex_digits fuel (n / 16)) ≤ S k)%nat; [|lia].
    apply IH; [|lia].
    apply N.Div0.div_lt_upper_bound.
    replace (N.of_nat (S (S k))) with (N.succ (N.of_nat (S k))) in Hn by lia.
    by rewrite N.pow_succ_r' in Hn.
Qed.

Lemma hex_digits_lower (fuel : nat) (n : N) :
  Text.all Fmt.is_lower_hex (Fmt.hex_digits fuel n) = true.
Proof.
  revert n; induction fuel as [|fuel IH]; intros n; simpl; [done|].
  destruct (n <? 16); simpl.
  - by rewrite lower_hex_digit.
  - rewrite all_app, IH; simpl. by rewrite lower_hex_digit.
Qed.

Lemma int16_from_snoc (acc : N) (s : string) (c : ascii) :
  Fmt.int16_from acc (s +:+ String c "") =
  match Fmt.int16_from acc s, Fmt.hex_value c with
  | Some v, Some d => Some (v * 16 + d)
  | _, _ => None
  end.
Proof.
  revert acc; induction s as [|a s IH]; intros acc; simpl.
  - by destruct (Fmt.hex_value c).
  - destruct (Fmt.hex_value a); [apply IH | done].
Qed.

Lemma hex_digits_value (fuel : nat) (n : N) :
  n < 16 ^ N.of_nat fuel → Fmt.int16_from 0 (Fmt.hex_digits fuel n) = Some n.
Proof.
  revert n; induction fuel as [|fuel IH]; intros n Hn.
  - simpl in *. f_equal. lia.
  - cbn [Fmt.hex_digits].
    destruct (N.ltb_spec n 16) as [Hlt|Hge].
    + cbn [Fmt.int16_from]. by rewrite (hex_value_digit n Hlt).
    + rewrite int16_from_snoc, IH, hex_value_digit.
      * f_equal. rewrite (N.div_mod n 16) at 3 by lia. lia.
      * apply N.mod_lt; lia.
      * apply N.Div0.div_lt_upper_bound.
        replace (N.of_nat (S fuel)) with (N.succ (N.of_nat fuel)) in Hn by lia.
        by rewrite N.pow_succ_r' in Hn.
Qed.

Lemma size_nat_bound (n : N) : n < 2 ^ N.of_nat (N.size_nat n).
Proof.
  destruct n as [|p]; [done|]. simpl.
  induction p as [p IH|p IH|].
  - cbn [Pos.size_nat].
    replace (N.of_nat (S (Pos.size_nat p))) with (N.succ (N.of_nat (Pos.size_nat p))) by lia.
    rewrite N.pow_succ_r'. lia.
  - cbn [Pos.size_nat].
    replace (N.of_nat (S (Pos.size_nat p))) with (N.succ (N.of_nat (Pos.size_nat p))) by lia.
    rewrite N.pow_succ_r'. lia.
  - done.
Qed.

Lemma fuel_enough (n : N) : n < 16 ^ N.of_nat (S (N.size_nat n)).
Proof.
  eapply N.lt_le_trans; [apply size_nat_bound|].
  transitivity (16 ^ N.of_nat (N.size_nat n)).
  - apply N.pow_le_mono_l. lia.
  - apply N.pow_le_mono_r; lia.
Qed.

Lemma x_value (n : N) : Fmt.int16_from 0 (Fmt.x n) = Some n.
Proof. apply hex_digits_value, fuel_enough. Qed.

Lemma x_len (n : N) (k : nat) :
  n < 16 ^ N.of_nat k → (1 ≤ k)%nat → (1 ≤ Text.len (Fmt.x n) ≤ k)%nat.
Proof.
  intros Hn Hk; split; [|by apply hex_digits_len].
  unfold Fmt.x; cbn [Fmt.hex_digits].
  destruct (n <? 16); [simpl; lia|]. rewrite len_app; simpl; lia.
Qed.

Lemma int16_from_zeros (k : nat) (s : string) :
  Fmt.int16_from 0 (Text.repeat "0" k +:+ s) = Fmt.int16_from 0 s.
Proof. induction k as [|k IH]; [done|]. exact IH. Qed.

(** ['%08x' % n] for [n] below [256^4]: eight digits [0-9a-f] that read back
    as [n]. *)
Lemma x08_len (n : N) : n < 256 ^ 4 → Text.len (Fmt.x08 n) = 8%nat.
Proof.
  intros Hn. unfold Fmt.x08, Fmt.zero_pad.
  destruct (x_len n 8) as [H1 H2]; [exact Hn | lia |].
  rewrite len_app, len_repeat. lia.
Qed.

Lemma x08_lower (n : N) : Text.all Fmt.is_lower_hex (Fmt.x08 n) = true.
Proof.
  unfold Fmt.x08, Fmt.zero_pad.
  rewrite all_app, all_repeat by done. apply hex_digits_lower.
Qed.

Lemma x08_value (n : N) : n < 256 ^ 4 → Fmt.int16 (Fmt.x08 n) = Some n.
Proof.
  intros Hn. pose proof (x08_len n Hn) as Hlen.
  unfold Fmt.int16. destruct (Fmt.x08 n) eqn:E; [done|].
  rewrite <- E. unfold Fmt.x08, Fmt.zero_pad.
  rewrite int16_from_zeros. apply x_value.
Qed.

Lemma x08_inj (n m : N) :
  n < 256 ^ 4 → m < 256 ^ 4 → Fmt.x08 n = Fmt.x08 m → n = m.
Proof.
  intros Hn Hm E. apply x08_value in Hn, Hm. rewrite E in Hn. congruence.
Qed.

End FmtFacts.

(** ** Temporary names *)

Module NameFacts.
Import TextFacts FmtFacts GsUtilTestCase.

Lemma drawn_bound (w : World) : drawn w < 256 ^ 4.
Proof. apply N.mod_lt. done. Qed.

(** [MakeTempName] always returns, after one draw from the random source. *)
Lemma MakeTempName_run (kind prefix : string) (w : World) :
  MakeTempName kind prefix w =
  (Return (temp_name (_testMethodName w) kind prefix (drawn w)), advance w).
Proof.
  unfold MakeTempName, MakeRandomTestString, GetTestMethodName,
    random.randrange, bind, ret.
  change (256 ^ 4 =? 0) with false. cbv beta iota. unfold temp_name.
  by destruct (String.eqb kind "bucket").
Qed.

Lemma lower_hex_fixed (c : ascii) :
  Fmt.is_lower_hex c = true →
  Text.lower_char c = c ∧ (if Ascii.eqb c "_" then "-"%char else c) = c.
Proof. destruct c as [[] [] [] [] [] [] [] []]; vm_compute; intros; done. Qed.

Lemma valid_char (c : ascii) :
  let c' := Text.lower_char (if Ascii.eqb c "_" then "-"%char else c) in
  negb (Text.isupper c') && negb (Ascii.eqb c' "_") = true.
Proof. destruct c as [[] [] [] [] [] [] [] []]; vm_compute; done. Qed.

Lemma MakeBucketNameValid_hex (s : string) :
  Text.all Fmt.is_lower_hex s = true → util.MakeBucketNameValid s = s.
Proof.
  intros H. unfold util.MakeBucketNameValid, Text.lower, Text.replace_char.
  rewrite (map_fixed Fmt.is_lower_hex _ s), (map_fixed Fmt.is_lower_hex _ s);
    try done; intros c Hc; by destruct (lower_hex_fixed c Hc).
Qed.

Lemma MakeBucketNameValid_app (a b : string) :
  util.MakeBucketNameValid (a +:+ b) =
  util.MakeBucketNameValid a +:+ util.MakeBucketNameValid b.
Proof.
  unfold util.MakeBucketNameValid, Text.lower, Text.replace_char.
  by rewrite !map_app.
Qed.

Lemma MakeBucketNameValid_len (s : string) :
  Text.len (util.MakeBucketNameValid s) = Text.len s.
Proof.
  unfold util.MakeBucketNameValid, Text.lower, Text.replace_char.
  by rewrite !len_map.
Qed.

Lemma MakeBucketNameValid_clean (s : string) :
  Text.all (λ c, negb (Text.isupper c) && negb (Ascii.eqb c "_"))
    (util.MakeBucketNameValid s) = true.
Proof.
  unfold util.MakeBucketNameValid, Text.lower, Text.replace_char.
  induction s as [|c s IH]; [done|].
  cbn [Text.map Text.all]. rewrite IH, andb_true_r. apply valid_char.
Qed.

(** The name a kind selects: coerced for buckets, as it is otherwise. *)
Lemma name_shape (kind stem suffix : string) :
  Text.all Fmt.is_lower_hex suffix = true →
  (if String.eqb kind "bucket"
   then util.MakeBucketNameValid (stem +:+ "-" +:+ suffix)
   else stem +:+ "-" +:+ suffix) =
  (if String.eqb kind "bucket" then util.MakeBucketNameValid stem else stem)
  +:+ "-" +:+ suffix.
Proof.
  intros H. destruct (String.eqb kind "bucket"); [|done].
  by rewrite !MakeBucketNameValid_app, (MakeBucketNameValid_hex suffix H).
Qed.

(** *** The two models of text agree on code points below 256 *)

Lemma of_string_cons (c : ascii) (s : string) :
  Unicode.of_string (String c s) = Text.code c :: Unicode.of_string s.
Proof. done. Qed.

Lemma of_string_app (a b : string) :
  Unicode.of_string (a +:+ b) = Unicode.of_string a ++ Unicode.of_string b.
Proof.
  induction a as [|c a IH]; [done|].
  change (String c a +:+ b) with (String c (a +:+ b)).
  by rewrite !of_string_cons, IH.
Qed.

Lemma of_string_length (s : string) :
  length (Unicode.of_string s) = Text.len s.
Proof.
  induction s as [|c s IH]; [done|]. rewrite of_string_cons. cbn. by rewrite IH.
Qed.

Lemma of_string_slice (n : nat) (s : string) :
  take n (Unicode.of_string s) = Unicode.of_string (Text.slice_to n s).
Proof.
  revert s. induction n as [|n IH]; intros [|c s]; try done.
  rewrite of_string_cons. cbn [take Text.slice_to].
  by rewrite of_string_cons, IH.
Qed.

Lemma code_inj (c c' : ascii) : Text.code c = Text.code c' → c = c'.
Proof.
  unfold Text.code. intros H.
  by rewrite <- (ascii_N_embedding c), <- (ascii_N_embedding c'), H.
Qed.

Lemma of_string_inj (a b : string) :
  Unicode.of_string a = Unicode.of_string b → a = b.
Proof.
  revert b. induction a as [|c a IH]; intros [|c' b]; try done.
  rewrite !of_string_cons. intros [= Hc Hs].
  by rewrite (code_inj _ _ Hc), (IH _ Hs).
Qed.

Lemma lower_char_code (c : ascii) :
  Unicode.lower_char (Text.code c) = Some [Text.code (Text.lower_char c)] ∧
  Unicode.isupper (Text.code c) = Some (Text.isupper c).
Proof. destruct c as [[] [] [] [] [] [] [] []]; by vm_compute. Qed.

Lemma lower_of_string (s : string) :
  Unicode.lower (Unicode.of_string s) = Some (Unicode.of_string (Text.lower s)).
Proof.
  induction s as [|c s IH]; [done|].
  rewrite of_string_cons. cbn [Unicode.lower].
  destruct (lower_char_code c) as [-> _]. by rewrite IH.
Qed.

Lemma replace_char_code (c : ascii) :
  (if Text.code c =? 95 then 45 else Text.code c) =
  Text.code (if Ascii.eqb c "_" then "-"%char else c).
Proof. destruct c as [[] [] [] [] [] [] [] []]; by vm_compute. Qed.

Lemma replace_of_string (s : string) :
  Unicode.replace_char 95 45 (Unicode.of_string s) =
  Unicode.of_string (Text.replace_char "_" "-" s).
Proof.
  induction s as [|c s IH]; [done|].
  unfold Text.replace_char. cbn [Text.map].
  rewrite !of_string_cons. unfold Unicode.replace_char. cbn [fmap list_fmap].
  f_equal; [apply replace_char_code | exact IH].
Qed.

Lemma MakeBucketNameValid_of_string (s : string) :
  Unicode.MakeBucketNameValid (Unicode.of_string s) =
  Some (Unicode.of_string (util.MakeBucketNameValid s)).
Proof.
  unfold Unicode.MakeBucketNameValid, util.MakeBucketNameValid.
  by rewrite replace_of_string, lower_of_string.
Qed.

(** [Unicode.MakeTempName] always returns, after one draw from the random
    source. *)
Lemma Unicode_MakeTempName_run (kind prefix : Unicode.text) (w : World) :
  Unicode.MakeTempName kind prefix w =
  (Return
     (let name :=
        unicode_stem (_testMethodName w) kind prefix ++
        Unicode.of_string "-" ++ Unicode.of_string (Fmt.x08 (drawn w)) in
      if bool_decide (kind = Unicode.of_string "bucket")
      then Unicode.MakeBucketNameValid name else Some name),
   advance w).
Proof.
  unfold Unicode.MakeTempName, MakeRandomTestString, GetTestMethodName,
    random.randrange, bind, ret.
  change (256 ^ 4 =? 0) with false. cbv beta iota zeta.
  by destruct (bool_decide _).
Qed.

(** On text of code points below 256 the two models of [MakeTempName]
    return the same name. *)
Lemma MakeTempName_agree (kind prefix : string) (w : World) :
  Unicode.MakeTempName (Unicode.of_string kind) (Unicode.of_string prefix) w =
  (Return (Some (Unicode.of_string
     (temp_name (_testMethodName w) kind prefix (drawn w)))), advance w).
Proof.
  rewrite Unicode_MakeTempName_run. do 2 f_equal. cbv zeta.
  unfold unicode_stem, temp_name, name_stem. cbv zeta.
  rewrite <- !of_string_app, of_string_slice, <- !of_string_app.
  destruct (String.eqb kind "bucket") eqn:Ek.
  - apply String.eqb_eq in Ek as ->.
    rewrite bool_decide_eq_true_2 by done.
    apply MakeBucketNameValid_of_string.
  - rewrite bool_decide_eq_false_2; [done|].
    intros H%of_string_inj. apply String.eqb_neq in Ek. done.
Qed.

Lemma x08_hex (n : N) : Text.all Fmt.is_hex (Fmt.x08 n) = true.
Proof.
  pose proof (x08_lower n) as H.
  revert H. generalize (Fmt.x08 n). intros s.
  induction s as [|c s IH]; [done|]. cbn [Text.all].
  intros [Hc Hs]%andb_true_iff.
  by rewrite (lower_hex_is_hex c Hc), (IH Hs).
Qed.





End NameFacts.

(** ** Help topics *)

Module HelpFacts.
Import HelpProvider addlhelp.

(** C9. Each of the six topic modules constructs one help specification,
    which binds a canonical name, a list of aliases, a one-line summary and
    the reference to the detailed text of the module; the canonical names
    are apis, crc32c, encoding, projects, security and wildcards, pairwise
    distinct. *)
Theorem help_topics_distinct :
  length topics = 6%nat ∧
  help_name <$> topics.*2 =
    ["apis"; "crc32c"; "encoding"; "projects"; "security"; "wildcards"] ∧
  NoDup (help_name <$> topics.*2) ∧
  help_text <$> topics.*2 =
    [apis._DETAILED_HELP_TEXT; crc32c._DETAILED_HELP_TEXT;
     encoding._DETAILED_HELP_TEXT; projects._DETAILED_HELP_TEXT;
     security._DETAILED_HELP_TEXT; wildcards._DETAILED_HELP_TEXT] ∧
  Forall (λ t, help_name t.2 = t.1 ∧ help_type t.2 = "additional_help" ∧
               help_name_aliases t.2 ≠ [] ∧ help_one_line_summary t.2 ≠ "" ∧
               help_text t.2 ≠ "")
    topics.
Proof.
  split; [done|]. split; [done|]. split; [|split; [done|]].
  - apply (bool_decide_unpack _). by vm_compute.
  - unfold topics. repeat constructor; done.
Qed.

End HelpFacts.

(** ** Decorators *)

Module DecoratorFacts.
Import Decorators.


End DecoratorFacts.

(** ** Teardown *)

Module TearDownFacts.
Import GsUtilTestCase.

Lemma rmtree_calls (d : string) (b : bool) (s : OsState) :
  calls (OS.rmtree d b s).2 = calls s ++ [sys_rmtree d].
Proof.
  unfold OS.rmtree. cbv zeta.
  destruct b; destruct (OS.isdir _ _); try destruct (OS.isfile _ _); done.
Qed.

Lemma rmtree_ignore_errors (d : string) (s : OsState) :
  (OS.rmtree d true s).1 = Return ().
Proof. done. Qed.

Lemma swept_calls (l : list string) (s : OsState) :
  calls (swept l s) = calls s ++ (sys_rmtree <$> rev l).
Proof.
  induction l as [|d l IH].
  - simpl. by rewrite (right_id_L [] (++)).
  - change (swept (d :: l) s) with (OS.rmtree d true (swept l s)).2.
    rewrite rmtree_calls, IH. cbn [rev]. rewrite fmap_app, (assoc_L (++)). done.
Qed.

(** One round of the loop on a list that ends in [d]. *)
Lemma tearDown_loop_step (n : nat) (w : World) (l : list string) (d : string) :
  tempdirs w = l ++ [d] →
  tearDown_loop (S n) w =
  tearDown_loop n (with_os (OS.rmtree d true (os w)).2 (with_tempdirs l w)).
Proof.
  intros E. cbn [tearDown_loop].
  destruct (tempdirs w) as [|x t] eqn:Et; [by destruct l|].
  unfold bind, tempdirs_pop. rewrite Et, E, last_snoc, removelast_last.
  reflexivity.
Qed.

Lemma tearDown_loop_run (n : nat) (w : World) :
  (length (tempdirs w) ≤ n)%nat →
  tearDown_loop n w =
  (Return (), with_os (swept (tempdirs w) (os w)) (with_tempdirs [] w)).
Proof.
  revert w. induction n as [|n IH]; intros w Hn.
  - destruct w as [m t o e k]; simpl in *. destruct t; [done | simpl in Hn; lia].
  - destruct (tempdirs w) as [|x t] eqn:Et using rev_ind.
    + cbn [tearDown_loop]. rewrite Et. by destruct w; simpl in *; subst.
    + clear IHt. rewrite (tearDown_loop_step n w t x Et), IH.
      * unfold swept. rewrite foldr_app. reflexivity.
      * simpl. rewrite length_app in Hn. simpl in Hn. lia.
Qed.

(** [tearDown] returns, with the list emptied and every directory of it
    removed, the last one first. *)
Lemma tearDown_run (w : World) :
  tearDown w =
  (Return (), with_os (swept (tempdirs w) (os w)) (with_tempdirs [] w)).
Proof. unfold tearDown. by apply tearDown_loop_run. Qed.



End TearDownFacts.

(** ** Regular expressions *)

Module RegexFacts.
Import TextFacts.

Lemma app_empty (a b : string) : a +:+ b = "" → a = "" ∧ b = "".
Proof. by destruct a, b. Qed.

Lemma app_cons (a b : string) (c : ascii) (s : string) :
  a +:+ b = String c s →
  (a = "" ∧ b = String c s) ∨ ∃ a', a = String c a' ∧ s = a' +:+ b.
Proof.
  destruct a as [|x a]; [by left|]. intros [= -> <-]. right. by exists a.
Qed.

Lemma nullable_spec (r : re.Regex) :
  re.nullable r = true ↔ re.Matches r "".
Proof.
  split.
  - induction r; cbn; try done; intros H.
    + constructor.
    + apply andb_true_iff in H as [H1 H2].
      apply (re.matches_cat _ _ "" ""); auto.
    + apply orb_true_iff in H as [H|H];
        [apply re.matches_alt_l | apply re.matches_alt_r]; auto.
    + constructor.
  - intros H. remember "" as s eqn:Es.
    induction H; subst; cbn; try done.
    + apply app_empty in Es as [-> ->]. by rewrite IHMatches1, IHMatches2.
    + by rewrite IHMatches.
    + rewrite IHMatches; [apply orb_true_r | done].
Qed.

(** A repetition that matches a text with a first character matches it
    with a first round that takes this character. *)
Lemma star_first (r : re.Regex) (t : string) :
  re.Matches (re.Star r) t →
  ∀ a s, t = String a s →
    ∃ s1 s2, s = s1 +:+ s2 ∧ re.Matches r (String a s1) ∧
             re.Matches (re.Star r) s2.
Proof.
  intros H. remember (re.Star r) as r' eqn:Er.
  induction H; try done. injection Er as ->.
  intros a s E. apply app_cons in E as [[-> ->]|(s1' & -> & ->)].
  - by apply IHMatches2.
  - by exists s1', s2.
Qed.

Lemma never_inv (s : string) : re.Matches re.Never s → False.
Proof. inversion 1. Qed.

Lemma eps_inv (s : string) : re.Matches re.Eps s → s = "".
Proof. by inversion 1. Qed.

Lemma lit_inv c i (s : string) :
  re.Matches (re.Lit c i) s →
  ∃ a, s = String a "" ∧ re.lit_matches c i a = true.
Proof. inversion 1; subst. by eexists. Qed.

Lemma dot_inv all (s : string) :
  re.Matches (re.Dot all) s →
  ∃ a, s = String a "" ∧ all || negb (Ascii.eqb a "010") = true.
Proof. inversion 1; subst. by eexists. Qed.

Lemma cat_inv r1 r2 (s : string) :
  re.Matches (re.Cat r1 r2) s →
  ∃ s1 s2, s = s1 +:+ s2 ∧ re.Matches r1 s1 ∧ re.Matches r2 s2.
Proof. inversion 1; subst. by eexists _, _. Qed.

Lemma alt_inv r1 r2 (s : string) :
  re.Matches (re.Alt r1 r2) s → re.Matches r1 s ∨ re.Matches r2 s.
Proof. inversion 1; subst; auto. Qed.

Lemma deriv_spec (a : ascii) (r : re.Regex) (s : string) :
  re.Matches (re.deriv a r) s ↔ re.Matches r (String a s).
Proof.
  revert s. induction r as [| |c i|all|r1 IH1 r2 IH2|r1 IH1 r2 IH2|r1 IH1];
    intros s; cbn [re.deriv].
  - split; intros H; by apply never_inv in H.
  - split; intros H; [by apply never_inv in H | by apply eps_inv in H].
  - destruct (re.lit_matches c i a) eqn:E; split; intros H.
    + apply eps_inv in H as ->. by constructor.
    + apply lit_inv in H as (a' & [= <- ->] & _). constructor.
    + by apply never_inv in H.
    + apply lit_inv in H as (a' & [= <- ->] & H). congruence.
  - destruct (all || negb (Ascii.eqb a "010")) eqn:E; split; intros H.
    + apply eps_inv in H as ->. by constructor.
    + apply dot_inv in H as (a' & [= <- ->] & _). constructor.
    + by apply never_inv in H.
    + apply dot_inv in H as (a' & [= <- ->] & H). congruence.
  - assert (re.Matches (re.Cat (re.deriv a r1) r2) s →
            re.Matches (re.Cat r1 r2) (String a s)) as Hl.
    { intros H. apply cat_inv in H as (s1 & s2 & -> & H1 & H2).
      apply IH1 in H1. by apply (re.matches_cat _ _ (String a s1) s2). }
    assert (re.Matches (re.Cat r1 r2) (String a s) →
            re.Matches (re.Cat (re.deriv a r1) r2) s ∨
            (re.Matches r1 "" ∧ re.Matches (re.deriv a r2) s)) as Hr.
    { intros H. apply cat_inv in H as (s1 & s2 & E & H1 & H2). symmetry in E.
      apply app_cons in E as [[-> ->]|(s1' & -> & ->)].
      - right. split; [done|]. by apply IH2.
      - left. constructor; [by apply IH1 | done]. }
    destruct (re.nullable r1) eqn:En.
    + split.
      * intros H. apply alt_inv in H as [H|H]; [by apply Hl|].
        apply (re.matches_cat _ _ "" (String a s));
          [by apply nullable_spec | by apply IH2].
      * intros H. destruct (Hr H) as [H'|[_ H']];
          [by apply re.matches_alt_l | by apply re.matches_alt_r].
    + split; [exact Hl|]. intros H. destruct (Hr H) as [H'|[H' _]]; [done|].
      apply nullable_spec in H'. congruence.
  - split; intros H; apply alt_inv in H as [H|H];
      (apply re.matches_alt_l, IH1, H) || (apply re.matches_alt_r, IH2, H).
  - split.
    + intros H. apply cat_inv in H as (s1 & s2 & -> & H1 & H2).
      apply IH1 in H1. by apply (re.matches_star_cons _ (String a s1) s2).
    + intros H. destruct (star_first _ _ H a s eq_refl) as (s1 & s2 & -> & H1 & H2).
      constructor; [by apply IH1 | done].
Qed.

Lemma match_here_spec (r : re.Regex) (s : string) :
  re.match_here r s = true ↔
  ∃ part after, s = part +:+ after ∧ re.Matches r part.
Proof.
  revert r. induction s as [|a s IH]; intros r; cbn [re.match_here].
  - rewrite orb_false_r, nullable_spec. split.
    + intros H. by exists "", "".
    + intros (p & q & E & H). symmetry in E. by apply app_empty in E as [-> ->].
  - rewrite orb_true_iff, nullable_spec, IH. split.
    + intros [H|(p & q & -> & H)].
      * by exists "", (String a s).
      * exists (String a p), q. split; [done|]. by apply deriv_spec.
    + intros (p & q & E & H). symmetry in E.
      apply app_cons in E as [[-> ->]|(p' & -> & ->)]; [by left|].
      right. exists p', q. split; [done|]. by apply deriv_spec.
Qed.

(** [search] decides whether the pattern is found in the text. *)
Lemma search_spec (p : re.Pattern) (text : string) :
  re.search p text = true ↔ re.found p text.
Proof.
  unfold re.search, re.found. generalize (re.program p). intros r.
  induction text as [|a s IH]; cbn [re.search_program].
  - rewrite orb_false_r, match_here_spec. split.
    + intros (q & t & E & H). by exists "", q, t.
    + intros (b & q & t & E & H). symmetry in E.
      apply app_empty in E as [-> E]. by exists q, t.
  - rewrite orb_true_iff, match_here_spec, IH. split.
    + intros [(q & t & E & H)|(b & q & t & -> & H)].
      * by exists "", q, t.
      * by exists (String a b), q, t.
    + intros (b & q & t & E & H). symmetry in E.
      apply app_cons in E as [[-> E]|(b' & -> & ->)].
      * left. by exists q, t.
      * right. by exists b', q, t.
Qed.

End RegexFacts.

(** ** The regular-expression assertion *)

Module AssertFacts.
Import TextFacts Assertions.

Lemma prefix_app (n b : string) : String.prefix n (n +:+ b) = true.
Proof.
  induction n as [|c n IH]; [by destruct b|].
  change (String c n +:+ b) with (String c (n +:+ b)). cbn [String.prefix].
  destruct (ascii_dec c c); [exact IH | done].
Qed.

Lemma contains_here (n b : string) : Text.contains n (n +:+ b) = true.
Proof.
  destruct (n +:+ b) eqn:E; cbn [Text.contains]; rewrite <- E, prefix_app; done.
Qed.

Lemma contains_later (n a s : string) :
  Text.contains n s = true → Text.contains n (a +:+ s) = true.
Proof.
  intros H. induction a as [|c a IH]; [done|].
  change (String c a +:+ s) with (String c (a +:+ s)). cbn [Text.contains].
  rewrite IH. apply orb_true_r.
Qed.

Lemma contains_middle (n a b : string) :
  Text.contains n (a +:+ n +:+ b) = true.
Proof. apply contains_later, contains_here. Qed.

Lemma plain_not_quote (s : string) :
  Text.all plain s = true → Text.contains "'" s = false.
Proof.
  induction s as [|c s IH]; [done|]. cbn [Text.all Text.contains].
  intros [Hc Hs]%andb_true_iff. rewrite (IH Hs), orb_false_r.
  cbn [String.prefix]. destruct (ascii_dec "'" c) as [<-|]; [|done].
  by vm_compute in Hc.
Qed.

Lemma escape_plain (c : ascii) :
  plain c = true → Repr.escape "'" c = String c "".
Proof. destruct c as [[] [] [] [] [] [] [] []]; vm_compute; done. Qed.

Lemma escape_all_plain (s : string) :
  Text.all plain s = true → Repr.escape_all "'" s = s.
Proof.
  induction s as [|c s IH]; [done|]. cbn [Text.all Repr.escape_all].
  intros [Hc Hs]%andb_true_iff. by rewrite (escape_plain c Hc), (IH Hs).
Qed.

(** [repr] of plain text is the text between single quotes. *)
Lemma repr_plain (s : string) :
  Text.all plain s = true → Repr.repr s = "'" +:+ s +:+ "'".
Proof.
  intros H. unfold Repr.repr, Repr.quote_for.
  rewrite (plain_not_quote s H). cbn [andb].
  by rewrite (escape_all_plain s H).
Qed.

Lemma contains_self (n : string) : Text.contains n n = true.
Proof.
  assert (String.prefix n n = true) as H.
  { induction n as [|c n IH]; [done|]. cbn [String.prefix].
    destruct (ascii_dec c c); [exact IH | done]. }
  destruct n; cbn [Text.contains]; by rewrite H.
Qed.

(** The message of a failure names the pattern and the text. *)
Lemma message_names (head src text : string) :
  let m := head +:+ ": " +:+ Repr.repr src +:+ " not found in " +:+
           Repr.repr text in
  Text.contains (Repr.repr src) m = true ∧
  Text.contains (Repr.repr text) m = true ∧
  (Text.all plain src = true → Text.contains src m = true) ∧
  (Text.all plain text = true → Text.contains text m = true).
Proof.
  cbv zeta. repeat split.
  - do 2 apply contains_later. apply contains_here.
  - do 4 apply contains_later. apply contains_self.
  - intros H. rewrite (repr_plain src H).
    do 2 apply contains_later. rewrite app_assoc. apply contains_later.
    rewrite app_assoc. apply contains_here.
  - intros H. rewrite (repr_plain text H).
    do 5 apply contains_later. apply contains_here.
Qed.

Lemma compile_pattern (src : string) (fl : Z) (p : re.Pattern) :
  re.compile src fl = Some (Return p) → re.pattern p = src.
Proof.
  unfold re.compile. destruct (re.flags_supported fl); [|done].
  destruct (re.parse _ _ _ _ _); intros [= <-]; done.
Qed.

Lemma assert_compiles `{E : Engine} (text : string) (pattern : PatternArg E)
    (msg : option string) (flags : Z) :
  assertRegexpMatchesWithFlags text pattern msg flags =
  match compile (pattern_source pattern) (pattern_flags pattern flags) with
  | Return p =>
      if search p text then Return ()
      else Raise (failureException
             (message_head msg +:+ ": " +:+ Repr.repr (Assertions.pattern p)
              +:+ " not found in " +:+ Repr.repr text))
  | Raise e => Raise e
  end.
Proof.
  unfold assertRegexpMatchesWithFlags.
  destruct pattern as [s|o]; cbn [pattern_source pattern_flags];
    (destruct (compile _ _) as [p|e]; [|done]);
    destruct (search p text); cbn [negb]; try done;
    by destruct msg as [[|c m]|].
Qed.

(** What the engine [fragment_with rest] compiles where the fragment has an
    answer. *)
Lemma fragment_compiles (rest : Engine) (src : string) (fl : Z)
    (o : Outcome re.Pattern) :
  re.compile src fl = Some o →
  @compile (fragment_with rest) src fl =
  match o with Return p => Return (inl p) | Raise e => Raise e end.
Proof. intros H. cbn. rewrite H. by destruct o. Qed.

(** The claim C7 fails in two ways. On a pattern that does not compile the
    assertion ends neither silently nor in the failure exception: the error
    of [re.compile] comes out of it. And the message of a failure holds the
    [repr] of the text, not the text: a text with a line break in it is not
    part of the message. Both hold whatever [re] does outside the
    fragment. *)
Lemma assertRegexp_uncompilable_or_escaped :
  (∀ rest : Engine,
     let result :=
       @assertRegexpMatchesWithFlags (fragment_with rest)
         "ABC" (Source "(") None 0 in
     result = Raise re_error ∧ result ≠ Return () ∧
     ∀ m, result ≠ Raise (failureException m)) ∧
  (∀ rest : Engine,
     let text := String "A" (String "010" "B") in
     ∃ m, @assertRegexpMatchesWithFlags (fragment_with rest)
            text (Source "xyz") None 0 = Raise (failureException m) ∧
          m = "Regex didn't match: 'xyz' not found in 'A\nB'" ∧
          Text.contains text m = false).
Proof.
  split; intros rest; cbv zeta.
  - rewrite assert_compiles. cbn [pattern_source pattern_flags].
    rewrite (fragment_compiles rest "(" 0 (Raise re_error)) by by vm_compute.
    done.
  - rewrite assert_compiles. cbn [pattern_source pattern_flags].
    rewrite (fragment_compiles rest "xyz" 0
      (Return {| re.pattern := "xyz"; re.flags := 32;
                 re.program :=
                   re.Cat (re.Cat (re.Cat re.Eps (re.Lit "x" false))
                             (re.Lit "y" false)) (re.Lit "z" false) |}))
      by by vm_compute.
    eexists. split; [by vm_compute|]. split; by vm_compute.
Qed.

(** C7, amended. Whatever [re] does (for every engine): when the pattern
    compiles under the given flags (those of a pattern object joined in
    bitwise), the assertion returns silently exactly if the search of the
    compiled pattern in the text finds a match, and otherwise raises the
    failure exception with a message that contains the [repr] of the
    compiled pattern's source and the [repr] of the text, hence the source
    and the text themselves where they are plain printable text; when the
    pattern does not compile, the exception of [re.compile] comes out of the
    assertion. On the modelled fragment of [re], whatever [re] does outside
    it, the search finds a match exactly if the program of the pattern
    matches some part of the text, and the source of the compiled pattern
    is the pattern given. The assertion on "ABC" with "abc" under IGNORECASE
    succeeds; on "ABC" with "xyz" it fails with a message that contains
    "xyz" and "ABC". *)
Theorem assertRegexpMatchesWithFlags_spec :
  (∀ (E : Engine) (text : string) (pattern : PatternArg E)
     (msg : option string) (flags : Z),
     let result := assertRegexpMatchesWithFlags text pattern msg flags in
     match compile (pattern_source pattern) (pattern_flags pattern flags) with
     | Return p =>
         (result = Return () ↔ search p text = true) ∧
         (search p text = false →
          ∃ m, result = Raise (failureException m) ∧
               Text.contains (Repr.repr (Assertions.pattern p)) m = true ∧
               Text.contains (Repr.repr text) m = true ∧
               (Text.all plain (Assertions.pattern p) = true →
                Text.contains (Assertions.pattern p) m = true) ∧
               (Text.all plain text = true → Text.contains text m = true))
     | Raise e => result = Raise e
     end) ∧
  (∀ (rest : Engine) (text : string) (pattern : PatternArg (fragment_with rest))
     (msg : option string) (flags : Z),
     let src := pattern_source pattern in
     let result := assertRegexpMatchesWithFlags text pattern msg flags in
     match re.compile src (pattern_flags pattern flags) with
     | Some (Return p) =>
         (result = Return () ↔ re.found p text) ∧
         (¬ re.found p text →
          ∃ m, result = Raise (failureException m) ∧
               Text.contains (Repr.repr src) m = true ∧
               Text.contains (Repr.repr text) m = true)
     | Some (Raise e) => result = Raise e
     | None =>
         @compile (fragment_with rest) src (pattern_flags pattern flags) =
         match @compile rest src (pattern_flags pattern flags) with
         | Return q => Return (inr q)
         | Raise e => Raise e
         end
     end) ∧
  (∀ rest : Engine,
     @assertRegexpMatchesWithFlags (fragment_with rest)
       "ABC" (Source "abc") None re.IGNORECASE = Return () ∧
     ∃ m, @assertRegexpMatchesWithFlags (fragment_with rest)
            "ABC" (Source "xyz") None 0 = Raise (failureException m) ∧
          Text.contains "xyz" m = true ∧ Text.contains "ABC" m = true).
Proof.
  split; [|split].
  - intros E text pattern msg flags. cbv zeta. rewrite assert_compiles.
    destruct (compile _ _) as [p|e]; [|done].
    destruct (search p text); split; try done.
    intros _. eexists; split; [reflexivity|]. apply message_names.
  - intros rest text pattern msg flags. cbv zeta. rewrite assert_compiles.
    destruct (re.compile _ _) as [[p|e]|] eqn:Ec.
    + rewrite (fragment_compiles rest _ _ _ Ec).
      apply compile_pattern in Ec.
      cbn [search fragment_with Assertions.pattern].
      rewrite Ec.
      pose proof (RegexFacts.search_spec p text) as Hs.
      destruct (re.search p text); split.
      * split; [intros _; by apply Hs | done].
      * intros Hn. destruct Hn. by apply Hs.
      * split; [done|]. intros Hf. by apply Hs in Hf.
      * intros _. eexists; split; [reflexivity|].
        destruct (message_names (message_head msg) (pattern_source pattern)
          text) as (H1 & H2 & _). done.
    + by rewrite (fragment_compiles rest _ _ _ Ec).
    + cbn. by rewrite Ec.
  - intros rest. split.
    + rewrite assert_compiles. cbn [pattern_source pattern_flags].
      rewrite (fragment_compiles rest "abc" re.IGNORECASE
        (Return {| re.pattern := "abc"; re.flags := 34;
                   re.program :=
                     re.Cat (re.Cat (re.Cat re.Eps (re.Lit "a" true))
                               (re.Lit "b" true)) (re.Lit "c" true) |}))
        by by vm_compute.
      by vm_compute.
    + rewrite assert_compiles. cbn [pattern_source pattern_flags].
      rewrite (fragment_compiles rest "xyz" 0
        (Return {| re.pattern := "xyz"; re.flags := 32;
                   re.program :=
                     re.Cat (re.Cat (re.Cat re.Eps (re.Lit "x" false))
                               (re.Lit "y" false)) (re.Lit "z" false) |}))
        by by vm_compute.
      eexists. split; [by vm_compute|]. split; by vm_compute.
Qed.

End AssertFacts.

(** ** Computations *)

Module MonadFacts.

Lemma bind_assoc {A B C} (m : M A) (k : A → M B) (h : B → M C) (w : World) :
  bind (bind m k) h w = bind m (λ a, bind (k a) h) w.
Proof. unfold bind. by destruct (m w) as [[a|e] w1]. Qed.

Lemma bind_ext {A B} (m : M A) (k k' : A → M B) (w : World) :
  (∀ a w1, k a w1 = k' a w1) → bind m k w = bind m k' w.
Proof. intros H. unfold bind. destruct (m w) as [[a|e] w1]; [apply H|done]. Qed.

Lemma bind_ret {A B} (a : A) (k : A → M B) (w : World) :
  bind (ret a) k w = k a w.
Proof. done. Qed.

(** A computation that returns has returned at every step. *)
Lemma bind_return {A B} (m : M A) (k : A → M B) (w w' : World) (b : B) :
  bind m k w = (Return b, w') →
  ∃ a w1, m w = (Return a, w1) ∧ k a w1 = (Return b, w').
Proof.
  unfold bind. destruct (m w) as [[a|e] w1]; [|done]. intros H. by exists a, w1.
Qed.

End MonadFacts.

Module OSFacts.

Lemma mkdir_calls (p : string) (s : OsState) :
  calls (OS.mkdir p s).2 = calls s ++ [sys_mkdir p].
Proof.
  unfold OS.mkdir. cbv zeta.
  destruct (String.eqb p ""); [done|].
  destruct (OS.exists_ _ _); [done|]. by destruct (OS.parent_check _ _).
Qed.

Lemma makedirs_calls (p : string) (s : OsState) :
  calls (OS.makedirs p s).2 = calls s ++ [sys_makedirs p].
Proof.
  unfold OS.makedirs. cbv zeta.
  destruct (String.eqb p ""); [done|].
  destruct (OS.exists_ _ _); [done|]. by destruct (existsb _ _).
Qed.

Lemma open_calls (p : string) (d : list byte) (s : OsState) :
  calls (OS.open_wb_write p d s).2 = calls s ++ [sys_open_wb p d].
Proof.
  unfold OS.open_wb_write. cbv zeta.
  destruct (String.eqb p ""); [done|].
  destruct (Text.endswith "/" p); [by destruct (OS.parent_check _ _)|].
  destruct (OS.isdir _ _); [done|]. by destruct (OS.parent_check _ _).
Qed.

Lemma change_calls (p : string) ok upd (s : OsState) :
  calls (OS.change p ok upd s).2 = calls s.
Proof.
  unfold OS.change. destruct (files s !! p); [|done].
  by destruct (OS.owns _ _ && ok _).
Qed.

Lemma utime_calls (p : string) (a m : Z) (s : OsState) :
  calls (OS.utime p a m s).2 = calls s ++ [sys_utime p a m].
Proof.
  unfold OS.utime. cbv zeta.
  destruct (_ && _); [by rewrite change_calls | done].
Qed.

Lemma chown_calls (p : string) (u g : Z) (s : OsState) :
  calls (OS.chown p u g s).2 = calls s ++ [sys_chown p u g].
Proof.
  unfold OS.chown. cbv zeta.
  destruct (OS.is_id u && OS.is_id g); [|done].
  destruct (OS.keeps_id u && OS.keeps_id g); [|by rewrite change_calls].
  by destruct (files _ !! p).
Qed.

Lemma chmod_calls (p : string) (m : Z) (s : OsState) :
  calls (OS.chmod p m s).2 = calls s ++ [sys_chmod p m].
Proof.
  unfold OS.chmod. cbv zeta.
  destruct (OS.is_int m); [by rewrite change_calls | done].
Qed.

(** *** Relations that hold along computations *)

Lemma calls_all_refl P (s : OsState) : calls_all P s s.
Proof. exists []. by rewrite (right_id_L [] (++)). Qed.

Lemma calls_all_trans P (s1 s2 s3 : OsState) :
  calls_all P s1 s2 → calls_all P s2 s3 → calls_all P s1 s3.
Proof.
  intros (l1 & E1 & H1) (l2 & E2 & H2). exists (l1 ++ l2).
  rewrite E2, E1, (assoc_L (++)). split; [done|]. by apply Forall_app.
Qed.

Lemma calls_all_one (P : Syscall → Prop) (c : Syscall) (s s' : OsState) :
  calls s' = calls s ++ [c] → P c → calls_all P s s'.
Proof. intros E H. exists [c]. split; [done|]. by constructor. Qed.

Lemma files_kept_refl (s : OsState) : files_kept s s.
Proof. unfold files_kept. repeat split; lia. Qed.

Lemma files_kept_trans (s1 s2 s3 : OsState) :
  files_kept s1 s2 → files_kept s2 s3 → files_kept s1 s3.
Proof. unfold files_kept. intros (?&?&?&?&?) (?&?&?&?&?). repeat split; try congruence; lia. Qed.

Lemma mkdir_kept (p : string) (s : OsState) : files_kept s (OS.mkdir p s).2.
Proof.
  unfold OS.mkdir, files_kept. cbv zeta.
  destruct (String.eqb p ""); [simpl; repeat split; lia|].
  destruct (OS.exists_ _ _); [simpl; repeat split; lia|].
  destruct (OS.parent_check _ _); simpl; repeat split; lia.
Qed.

Lemma makedirs_kept (p : string) (s : OsState) :
  files_kept s (OS.makedirs p s).2.
Proof.
  unfold OS.makedirs, files_kept. cbv zeta.
  destruct (String.eqb p ""); [simpl; repeat split; lia|].
  destruct (OS.exists_ _ _); [simpl; repeat split; lia|].
  destruct (existsb _ _); simpl; repeat split; lia.
Qed.

(** *** Writing and changing a file *)

Lemma open_return (p : string) (d : list byte) (s s' : OsState) :
  OS.open_wb_write p d s = (Return (), s') →
  files s' = <[p := OS.written p d (OS.enter (sys_open_wb p d) s)]> (files s) ∧
  dirs s' = dirs s ∧ clock s' = (clock s + 1)%Z ∧
  euid s' = euid s ∧ egid s' = egid s ∧ umask s' = umask s.
Proof.
  unfold OS.open_wb_write. cbv zeta.
  destruct (String.eqb p ""); [done|].
  destruct (Text.endswith "/" p); [by destruct (OS.parent_check _ _)|].
  destruct (OS.isdir _ _); [done|].
  destruct (OS.parent_check _ _); [done|]. by intros [= <-].
Qed.

Lemma written_data (p : string) (d : list byte) (s : OsState) :
  st_data (OS.written p d s) = d.
Proof. unfold OS.written. by destruct (files s !! p). Qed.

Lemma written_mtime (p : string) (d : list byte) (s : OsState) :
  st_mtime (OS.written p d s) = OS.stored_time s (clock s).
Proof. unfold OS.written. by destruct (files s !! p). Qed.

(** A change of [p] leaves in place what the update leaves in place. *)
Lemma change_keeps (φ : File → Prop) (p : string) ok upd (s : OsState) :
  (∀ f, φ f → φ (upd f)) →
  (∃ f, files s !! p = Some f ∧ φ f) →
  ∃ f, files (OS.change p ok upd s).2 !! p = Some f ∧ φ f.
Proof.
  intros Hupd (f & Hf & Hφ). unfold OS.change. rewrite Hf.
  destruct (OS.owns _ _ && ok _); cbn [snd]; [|by exists f].
  exists (upd f). split; [|by apply Hupd]. cbn. apply lookup_insert_eq.
Qed.

Lemma change_clock (p : string) ok upd (s : OsState) :
  clock (OS.change p ok upd s).2 = clock s.
Proof.
  unfold OS.change. destruct (files s !! p); [|done].
  by destruct (OS.owns _ _ && ok _).
Qed.

Lemma change_return (p : string) ok upd (s s' : OsState) :
  OS.change p ok upd s = (Return (), s') →
  ∃ f, files s !! p = Some f ∧ files s' = <[p := upd f]> (files s).
Proof.
  unfold OS.change. destruct (files s !! p) as [f|]; [|done].
  destruct (OS.owns _ _ && ok _); [|done]. intros [= <-]. by exists f.
Qed.

(** The three calls that change attributes: each is a change of the file
    once its arguments are in range, and [OverflowError] otherwise. *)
Lemma utime_cases (p : string) (a m : Z) (s : OsState) :
  let s1 := OS.enter (sys_utime p a m) s in
  OS.utime p a m s =
    OS.change p (λ _, true)
      (λ f, {| st_data := st_data f; st_atime := OS.stored_time s1 a;
               st_mtime := OS.stored_time s1 m;
               st_uid := st_uid f; st_gid := st_gid f;
               st_mode := st_mode f |}) s1 ∨
  OS.utime p a m s = (Raise OverflowError, s1).
Proof. unfold OS.utime. cbv zeta. destruct (_ && _); auto. Qed.

Lemma chown_cases (p : string) (u g : Z) (s : OsState) :
  let s1 := OS.enter (sys_chown p u g) s in
  OS.chown p u g s =
    OS.change p
      (λ f, (euid s1 =? 0)%Z ||
            (OS.keeps_id u || (u =? st_uid f)%Z) &&
            (OS.keeps_id g || (g =? st_gid f)%Z || (g =? egid s1)%Z ||
             bool_decide (g ∈ groups s1)))
      (λ f, {| st_data := st_data f; st_atime := st_atime f;
               st_mtime := st_mtime f;
               st_uid := if OS.keeps_id u then st_uid f else u;
               st_gid := if OS.keeps_id g then st_gid f else g;
               st_mode := st_mode f |}) s1 ∨
  ∃ o, OS.chown p u g s = (o, s1).
Proof.
  unfold OS.chown. cbv zeta.
  destruct (OS.is_id u && OS.is_id g); [|right; by eexists].
  destruct (OS.keeps_id u && OS.keeps_id g); [|by left].
  right. destruct (files _ !! p); by eexists.
Qed.

Lemma chmod_cases (p : string) (m : Z) (s : OsState) :
  let s1 := OS.enter (sys_chmod p m) s in
  OS.chmod p m s =
    OS.change p (λ _, true)
      (λ f, {| st_data := st_data f; st_atime := st_atime f;
               st_mtime := st_mtime f; st_uid := st_uid f;
               st_gid := st_gid f; st_mode := Z.land m 511 |}) s1 ∨
  OS.chmod p m s = (Raise OverflowError, s1).
Proof. unfold OS.chmod. cbv zeta. destruct (OS.is_int m); auto. Qed.

Lemma utime_return (p : string) (a m : Z) (s s' : OsState) :
  OS.utime p a m s = (Return (), s') →
  OS.is_time_t a = true ∧ OS.is_time_t m = true ∧
  ∃ f, files s !! p = Some f ∧
    files s' =
      <[p := {| st_data := st_data f; st_atime := OS.stored_time s a;
                st_mtime := OS.stored_time s m;
                st_uid := st_uid f; st_gid := st_gid f;
                st_mode := st_mode f |}]> (files s).
Proof.
  unfold OS.utime. cbv zeta.
  destruct (OS.is_time_t a); [|done]. destruct (OS.is_time_t m); [|done].
  intros (f & Hf & ->)%change_return. split; [done|]. split; [done|].
  by exists f.
Qed.

Lemma chown_return (p : string) (u g : Z) (s s' : OsState) :
  OS.chown p u g s = (Return (), s') →
  OS.is_id u = true ∧ OS.is_id g = true ∧
  ∃ f, files s !! p = Some f ∧
    files s' =
      <[p := {| st_data := st_data f; st_atime := st_atime f;
                st_mtime := st_mtime f;
                st_uid := if OS.keeps_id u then st_uid f else u;
                st_gid := if OS.keeps_id g then st_gid f else g;
                st_mode := st_mode f |}]> (files s).
Proof.
  unfold OS.chown. cbv zeta.
  destruct (OS.is_id u); [|done]. destruct (OS.is_id g); [|done].
  cbn [andb]. destruct (OS.keeps_id u) eqn:Eu, (OS.keeps_id g) eqn:Eg;
    cbn [andb];
    try (intros (f & Hf & ->)%change_return; split; [done|]; split; [done|];
         by exists f).
  cbn [files OS.enter]. destruct (files s !! p) as [f|] eqn:Hf; [|done].
  intros [= <-]. split; [done|]. split; [done|]. exists f. split; [done|].
  cbn [files OS.enter]. destruct f. cbn. by rewrite insert_id.
Qed.

Lemma chmod_return (p : string) (m : Z) (s s' : OsState) :
  OS.chmod p m s = (Return (), s') →
  OS.is_int m = true ∧
  ∃ f, files s !! p = Some f ∧
    files s' =
      <[p := {| st_data := st_data f; st_atime := st_atime f;
                st_mtime := st_mtime f; st_uid := st_uid f;
                st_gid := st_gid f; st_mode := Z.land m 511 |}]> (files s).
Proof.
  unfold OS.chmod. cbv zeta. destruct (OS.is_int m); [|done].
  intros (f & Hf & ->)%change_return. split; [done|]. by exists f.
Qed.

Lemma range_kept_refl (s : OsState) : range_kept s s.
Proof. done. Qed.

Lemma range_kept_trans (s1 s2 s3 : OsState) :
  range_kept s1 s2 → range_kept s2 s3 → range_kept s1 s3.
Proof. unfold range_kept. intros [? ?] [? ?]. split; congruence. Qed.

Lemma mkdir_range (p : string) (s : OsState) : range_kept s (OS.mkdir p s).2.
Proof.
  unfold OS.mkdir. cbv zeta.
  destruct (String.eqb p ""); [done|].
  destruct (OS.exists_ _ _); [done|]. by destruct (OS.parent_check _ _).
Qed.

Lemma makedirs_range (p : string) (s : OsState) :
  range_kept s (OS.makedirs p s).2.
Proof.
  unfold OS.makedirs. cbv zeta.
  destruct (String.eqb p ""); [done|].
  destruct (OS.exists_ _ _); [done|]. by destruct (existsb _ _).
Qed.

Lemma open_range (p : string) (d : list byte) (s : OsState) :
  range_kept s (OS.open_wb_write p d s).2.
Proof.
  unfold OS.open_wb_write. cbv zeta.
  destruct (String.eqb p ""); [done|].
  destruct (Text.endswith "/" p); [by destruct (OS.parent_check _ _)|].
  destruct (OS.isdir _ _); [done|]. by destruct (OS.parent_check _ _).
Qed.

(** A time in the range of the file system is stored as it is. *)
Lemma stored_time_in_range (s : OsState) (t : Z) :
  (time_min s ≤ t ≤ time_max s)%Z → OS.stored_time s t = t.
Proof. unfold OS.stored_time. lia. Qed.

Lemma utime_clock (p : string) (a m : Z) (s : OsState) :
  clock (OS.utime p a m s).2 = (clock s + 1)%Z.
Proof.
  destruct (utime_cases p a m s) as [-> | ->]; [|done].
  by rewrite change_clock.
Qed.

Lemma chown_clock (p : string) (u g : Z) (s : OsState) :
  clock (OS.chown p u g s).2 = (clock s + 1)%Z.
Proof.
  destruct (chown_cases p u g s) as [-> | [o ->]]; [|done].
  by rewrite change_clock.
Qed.

Lemma chmod_clock (p : string) (m : Z) (s : OsState) :
  clock (OS.chmod p m s).2 = (clock s + 1)%Z.
Proof.
  destruct (chmod_cases p m s) as [-> | ->]; [|done].
  by rewrite change_clock.
Qed.

(** What the three calls leave in place of the file at [p]: all that does
    not depend on the attributes they set. *)
Lemma utime_keeps (φ : File → Prop) (p : string) (a m : Z) (s : OsState) :
  (∀ f a' m', φ f →
     φ {| st_data := st_data f; st_atime := a'; st_mtime := m';
          st_uid := st_uid f; st_gid := st_gid f; st_mode := st_mode f |}) →
  (∃ f, files s !! p = Some f ∧ φ f) →
  ∃ f, files (OS.utime p a m s).2 !! p = Some f ∧ φ f.
Proof.
  intros Hupd Hf.
  destruct (utime_cases p a m s) as [-> | ->]; [|done].
  apply change_keeps; [|done]. intros f. apply Hupd.
Qed.

Lemma chown_keeps (φ : File → Prop) (p : string) (u g : Z) (s : OsState) :
  (∀ f u' g', φ f →
     φ {| st_data := st_data f; st_atime := st_atime f;
          st_mtime := st_mtime f; st_uid := u'; st_gid := g';
          st_mode := st_mode f |}) →
  (∃ f, files s !! p = Some f ∧ φ f) →
  ∃ f, files (OS.chown p u g s).2 !! p = Some f ∧ φ f.
Proof.
  intros Hupd Hf.
  destruct (chown_cases p u g s) as [-> | [o ->]]; [|done].
  apply change_keeps; [|done]. intros f. apply Hupd.
Qed.

Lemma chmod_keeps (φ : File → Prop) (p : string) (m : Z) (s : OsState) :
  (∀ f m', φ f →
     φ {| st_data := st_data f; st_atime := st_atime f;
          st_mtime := st_mtime f; st_uid := st_uid f; st_gid := st_gid f;
          st_mode := m' |}) →
  (∃ f, files s !! p = Some f ∧ φ f) →
  ∃ f, files (OS.chmod p m s).2 !! p = Some f ∧ φ f.
Proof.
  intros Hupd Hf.
  destruct (chmod_cases p m s) as [-> | ->]; [|done].
  apply change_keeps; [|done]. intros f. apply Hupd.
Qed.

End OSFacts.

Module AlongFacts.
Import GsUtilTestCase.

Section Relation.

Context (R : OsState → OsState → Prop).
Hypothesis R_refl : ∀ s, R s s.
Hypothesis R_trans : ∀ s1 s2 s3, R s1 s2 → R s2 s3 → R s1 s3.

Lemma along_ret {A} (a : A) : along R (ret a).
Proof. intros w. apply R_refl. Qed.

Lemma along_raise {A} (e : Exn) : along R (@raise A e).
Proof. intros w. apply R_refl. Qed.

Lemma along_lift {A} (o : Outcome A) : along R (lift o).
Proof. intros w. apply R_refl. Qed.

Lemma along_read {A} (g : World → A) : along R (λ w, (Return (g w), w)).
Proof. intros w. apply R_refl. Qed.

Lemma along_bind {A B} (m : M A) (k : A → M B) :
  along R m → (∀ a, along R (k a)) → along R (bind m k).
Proof.
  intros Hm Hk w. specialize (Hm w). unfold bind.
  destruct (m w) as [[a|e] w1]; cbn [snd] in *; [|done].
  eapply R_trans; [exact Hm | apply Hk].
Qed.

(** The same, with what is known of the value [m] returns. *)
Lemma along_bind_post {A B} (m : M A) (k : A → M B) (φ : A → Prop) :
  along R m → (∀ w a, (m w).1 = Return a → φ a) →
  (∀ a, φ a → along R (k a)) → along R (bind m k).
Proof.
  intros Hm Hφ Hk w. specialize (Hm w). specialize (Hφ w). unfold bind.
  destruct (m w) as [[a|e] w1]; cbn [fst snd] in *; [|done].
  eapply R_trans; [exact Hm | by apply Hk, Hφ].
Qed.

Lemma along_sys {A} (f : OsState → Outcome A * OsState) :
  (∀ s, R s (f s).2) → along R (sys f).
Proof. intros H w. apply H. Qed.

Lemma along_randrange (n : N) : along R (random.randrange n).
Proof.
  intros w. unfold random.randrange. destruct (n =? 0); apply R_refl.
Qed.

Lemma along_MakeTempName (kind prefix : string) :
  along R (MakeTempName kind prefix).
Proof. intros w. rewrite NameFacts.MakeTempName_run. apply R_refl. Qed.

Lemma along_tempdirs_append (d : string) : along R (tempdirs_append d).
Proof. intros w. apply R_refl. Qed.

Lemma along_times {A} (n : nat) (f : M A) : along R f → along R (times n f).
Proof.
  intros Hf. induction n as [|n IH]; [apply along_ret|].
  cbn [times]. apply along_bind; [done|]. intros a.
  apply along_bind; [done|]. intros l. apply along_ret.
Qed.

Lemma along_for_enumerate {A} (i : nat) (l : list A) (body : nat → A → M unit) :
  (∀ i a, along R (body i a)) → along R (for_enumerate i l body).
Proof.
  intros Hb. revert i. induction l as [|a l IH]; intros i; [apply along_ret|].
  cbn [for_enumerate]. apply along_bind; [apply Hb|]. intros _. apply IH.
Qed.

Hypothesis R_mkdir : ∀ p s, R s (OS.mkdir p s).2.

Lemma along_mkdtemp_from (n : nat) (prefix : string) :
  along R (tempfile.mkdtemp_from n prefix).
Proof.
  induction n as [|n IH]; [apply along_raise|].
  cbn [tempfile.mkdtemp_from].
  apply along_bind; [apply along_randrange|]. intros r.
  apply along_bind; [apply along_read|]. intros dir. cbv zeta.
  intros w.
  pose proof (R_mkdir (os_path.join dir [prefix +:+ tempfile.token 8 r]) (os w)) as H1.
  unfold sys at 1. cbv zeta.
  destruct (OS.mkdir _ (os w)) as [[u|e] s1]; cbn [fst snd] in *; [done|].
  destruct e as [| | | |[]| | |]; try done.
  eapply R_trans; [exact H1|]. apply (IH (with_os s1 w)).
Qed.

Lemma along_CreateTempDir_with
    (file : string → Contents → FileName → M string)
    (test_files : Z + list FileName) (contents : option Contents) :
  (∀ d c n, along R (file d c n)) →
  along R (CreateTempDir_with file test_files contents).
Proof.
  intros Hf. unfold CreateTempDir_with.
  apply along_bind; [apply along_MakeTempName|]. intros prefix.
  apply along_bind; [apply along_mkdtemp_from|]. intros tmpdir.
  apply along_bind; [apply along_tempdirs_append|]. intros _.
  apply along_bind.
  { destruct test_files as [n|l]; [|apply along_ret].
    apply along_bind; [apply along_times, along_MakeTempName|].
    intros names. apply along_ret. }
  intros l. apply along_bind; [|intros; apply along_ret].
  apply along_for_enumerate. intros i name.
  apply along_bind.
  { destruct contents; [apply along_ret|].
    apply along_bind; [apply along_lift | intros; apply along_ret]. }
  intros c. apply along_bind; [apply Hf | intros; apply along_ret].
Qed.

Lemma along_CreateTempDir_empty : along R CreateTempDir_empty.
Proof. apply along_CreateTempDir_with. intros. apply along_raise. Qed.

Hypothesis R_makedirs : ∀ p s, R s (OS.makedirs p s).2.

Lemma along_target (tmpdir : option string) (contents : option Contents)
    (file_name : option FileName) :
  along R (CreateTempFile_target tmpdir contents file_name).
Proof.
  unfold CreateTempFile_target.
  apply along_bind.
  { destruct tmpdir as [d|]; [destruct (String.eqb d "")|];
      auto using along_CreateTempDir_empty, along_ret. }
  intros d. apply along_bind.
  { destruct file_name as [n|]; [destruct (falsy _)|];
      try apply along_ret;
      (apply along_bind; [apply along_MakeTempName | intros; apply along_ret]). }
  intros n. cbv zeta.
  apply along_bind; [apply along_read|]. intros b.
  apply along_bind.
  { destruct b; cbn [negb]; [apply along_ret | by apply along_sys]. }
  intros _. apply along_bind; [|intros; apply along_ret].
  destruct contents; [apply along_ret|].
  apply along_bind; [apply along_MakeTempName | intros; apply along_ret].
Qed.

End Relation.

End AlongFacts.

Module FileFacts.
Import MonadFacts GsUtilTestCase.

(** [CreateTempFile] is its first part, the writing, and its second part. *)
Lemma CreateTempFile_split (NA_ID NA_MODE : Z)
    (tmpdir : option string) (contents : option Contents)
    (file_name : option FileName) (mtime : option Z)
    (mode uid gid : PyVal) (w : World) :
  CreateTempFile NA_ID NA_MODE tmpdir contents file_name mtime mode uid gid w =
  bind (CreateTempFile_target tmpdir contents file_name)
    (λ t, bind (sys (OS.open_wb_write t.1 t.2))
            (λ _, bind (CreateTempFile_times t.1 mtime)
                    (λ _, CreateTempFile_perms NA_ID NA_MODE t.1 mode uid gid)))
    w.
Proof.
  unfold CreateTempFile, CreateTempFile_target, CreateTempFile_times,
    CreateTempFile_perms.
  rewrite bind_assoc. apply bind_ext. intros d w1.
  rewrite bind_assoc. apply bind_ext. intros n w2.
  cbv zeta.
  rewrite bind_assoc. apply bind_ext. intros b w3.
  rewrite bind_assoc. apply bind_ext. intros _ w4.
  rewrite bind_assoc. apply bind_ext. intros c w5.
  rewrite bind_ret. cbn [fst snd]. by destruct c.
Qed.

Lemma along_ext (R : OsState → OsState → Prop) {A} (m m' : M A) :
  (∀ w, m w = m' w) → along R m' → along R m.
Proof. intros E H w. rewrite E. apply H. Qed.

Lemma contents_kept_refl (p : string) (s : OsState) : contents_kept p s s.
Proof. split; [lia | done]. Qed.

Lemma contents_kept_trans (p : string) (s1 s2 s3 : OsState) :
  contents_kept p s1 s2 → contents_kept p s2 s3 → contents_kept p s1 s3.
Proof.
  intros [Hc1 H1] [Hc2 H2]. split; [lia|].
  intros d a m Hf. by apply H2, H1.
Qed.

Lemma chown_contents_kept (p : string) (u g : Z) (s : OsState) :
  contents_kept p s (OS.chown p u g s).2.
Proof.
  split.
  - rewrite OSFacts.chown_clock. lia.
  - intros d a m (f & Hf & Hd & Ha & Hm).
    destruct (OSFacts.chown_keeps
      (λ f, st_data f = d ∧ st_atime f = a ∧ st_mtime f = m) p u g s)
      as (f' & Hf' & H'); [done|by exists f|].
    by exists f'.
Qed.

Lemma chmod_contents_kept (p : string) (mode : Z) (s : OsState) :
  contents_kept p s (OS.chmod p mode s).2.
Proof.
  split.
  - rewrite OSFacts.chmod_clock. lia.
  - intros d a m (f & Hf & Hd & Ha & Hm).
    destruct (OSFacts.chmod_keeps
      (λ f, st_data f = d ∧ st_atime f = a ∧ st_mtime f = m) p mode s)
      as (f' & Hf' & H'); [done|by exists f|].
    by exists f'.
Qed.

Lemma times_owner_kept (p : string) (mtime : option Z) (u g m : Z) (w : World) :
  file_owned p u g m (os w) →
  file_owned p u g m (os (CreateTempFile_times p mtime w).2).
Proof.
  intros (f & Hf & H). destruct mtime as [t|]; [|by exists f].
  cbn.
  destruct (OSFacts.utime_keeps
    (λ f, st_uid f = u ∧ st_gid f = g ∧ st_mode f = m) p t t (os w))
    as (f' & Hf' & H'); [done|by exists f|].
  by exists f'.
Qed.

Lemma times_clock (p : string) (mtime : option Z) (w : World) :
  (clock (os w) ≤ clock (os (CreateTempFile_times p mtime w).2))%Z.
Proof.
  destruct mtime as [t|]; cbn; [|lia].
  rewrite OSFacts.utime_clock. lia.
Qed.

Section Sentinels.

Variables NA_ID NA_MODE : Z.

Section Calls.

(** A property of system calls that holds of the calls [CreateTempFile]
    can issue for given arguments. *)
Context (P : Syscall → Prop) (mtime : option Z) (mode uid gid : PyVal).
Hypothesis P_mkdir : ∀ p, P (sys_mkdir p).
Hypothesis P_makedirs : ∀ p, P (sys_makedirs p).
Hypothesis P_open : ∀ p d, P (sys_open_wb p d).
Hypothesis P_utime : ∀ p t, mtime = Some t → P (sys_utime p t t).
Hypothesis P_chown : ∀ p u g, owner_requested NA_ID uid gid → P (sys_chown p u g).
Hypothesis P_chmod : ∀ p m, mode_requested NA_MODE mode → P (sys_chmod p m).

(** The second part issues [chown] and [chmod] only on request. *)
Lemma perms_calls (fpath : string) :
  along (calls_all P) (CreateTempFile_perms NA_ID NA_MODE fpath mode uid gid).
Proof.
  pose proof (OSFacts.calls_all_refl P) as Hr.
  pose proof (OSFacts.calls_all_trans P) as Ht.
  unfold CreateTempFile_perms.
  apply (AlongFacts.along_bind_post _ Ht _ _
           (λ b, b = true → owner_requested NA_ID uid gid)).
  { destruct (Py.ne_int uid NA_ID); [by apply AlongFacts.along_ret|].
    apply AlongFacts.along_bind; [done|by apply AlongFacts.along_lift|].
    intros. by apply AlongFacts.along_ret. }
  { intros w b. unfold owner_requested.
    destruct (Py.ne_int uid NA_ID); [by left|].
    unfold bind, lift, ret. destruct (Py.int gid) as [g|e]; [|done].
    cbn. intros [= <-] Hg. right. exists g. split; [done|].
    apply negb_true_iff in Hg. by apply Z.eqb_neq. }
  intros b Hb. apply AlongFacts.along_bind; [done| |].
  { destruct b; [|by apply AlongFacts.along_ret].
    apply AlongFacts.along_bind; [done|by apply AlongFacts.along_lift|].
    intros g. apply AlongFacts.along_bind; [done|by apply AlongFacts.along_lift|].
    intros u. apply AlongFacts.along_sys. intros s0.
    eapply OSFacts.calls_all_one; [apply OSFacts.chown_calls|]. by apply P_chown, Hb. }
  intros _.
  apply (AlongFacts.along_bind_post _ Ht _ _ (λ m, Py.int mode = Return m)).
  { by apply AlongFacts.along_lift. }
  { intros w m. unfold lift. cbn. done. }
  intros m Hm. apply AlongFacts.along_bind; [done| |].
  { destruct (negb (m =? NA_MODE)%Z) eqn:E; [|by apply AlongFacts.along_ret].
    apply AlongFacts.along_bind; [done|by apply AlongFacts.along_lift|].
    intros m8. apply AlongFacts.along_sys. intros s0.
    eapply OSFacts.calls_all_one; [apply OSFacts.chmod_calls|].
    apply P_chmod. exists m. split; [done|].
    apply negb_true_iff in E. by apply Z.eqb_neq. }
  intros _. by apply AlongFacts.along_ret.
Qed.

Lemma CreateTempFile_calls
    (tmpdir : option string) (contents : option Contents)
    (file_name : option FileName) :
  along (calls_all P)
    (CreateTempFile NA_ID NA_MODE tmpdir contents file_name mtime mode uid gid).
Proof.
  eapply along_ext; [intros w; apply CreateTempFile_split|].
  pose proof (OSFacts.calls_all_refl P) as Hr.
  pose proof (OSFacts.calls_all_trans P) as Ht.
  apply AlongFacts.along_bind; [done| |].
  { apply AlongFacts.along_target; try done; intros q s0.
    - eapply OSFacts.calls_all_one; [apply OSFacts.mkdir_calls|done].
    - eapply OSFacts.calls_all_one; [apply OSFacts.makedirs_calls|done]. }
  intros t. apply AlongFacts.along_bind; [done| |].
  { apply AlongFacts.along_sys. intros s0.
    eapply OSFacts.calls_all_one; [apply OSFacts.open_calls|done]. }
  intros _. apply AlongFacts.along_bind; [done| |].
  { unfold CreateTempFile_times.
    destruct mtime as [t'|] eqn:Em; [|by apply AlongFacts.along_ret].
    apply AlongFacts.along_sys. intros s0.
    eapply OSFacts.calls_all_one; [apply OSFacts.utime_calls|by apply P_utime]. }
  intros _. apply perms_calls.
Qed.

End Calls.

Lemma perms_contents_kept (fpath : string) (mode uid gid : PyVal) :
  along (contents_kept fpath)
    (CreateTempFile_perms NA_ID NA_MODE fpath mode uid gid).
Proof.
  pose proof (contents_kept_refl fpath) as Hr.
  pose proof (contents_kept_trans fpath) as Ht.
  unfold CreateTempFile_perms.
  apply AlongFacts.along_bind; [done| |].
  { destruct (Py.ne_int uid NA_ID); [by apply AlongFacts.along_ret|].
    apply AlongFacts.along_bind; [done|by apply AlongFacts.along_lift|].
    intros. by apply AlongFacts.along_ret. }
  intros b. apply AlongFacts.along_bind; [done| |].
  { destruct b; [|by apply AlongFacts.along_ret].
    apply AlongFacts.along_bind; [done|by apply AlongFacts.along_lift|].
    intros g. apply AlongFacts.along_bind; [done|by apply AlongFacts.along_lift|].
    intros u. apply AlongFacts.along_sys. intros s0. apply chown_contents_kept. }
  intros _. apply AlongFacts.along_bind; [done|by apply AlongFacts.along_lift|].
  intros m. apply AlongFacts.along_bind; [done| |].
  { destruct (negb (m =? NA_MODE)%Z); [|by apply AlongFacts.along_ret].
    apply AlongFacts.along_bind; [done|by apply AlongFacts.along_lift|].
    intros m8. apply AlongFacts.along_sys. intros s0. apply chmod_contents_kept. }
  intros _. by apply AlongFacts.along_ret.
Qed.

(** What the second part returns is the path. *)
Lemma perms_returns (fpath : string) (mode uid gid : PyVal) (w : World) (a : string) :
  (CreateTempFile_perms NA_ID NA_MODE fpath mode uid gid w).1 = Return a →
  a = fpath.
Proof.
  unfold CreateTempFile_perms, bind, ret, lift, sys.
  repeat case_match; simplify_eq/=; congruence.
Qed.

(** Nothing is asked for: the second part does nothing. *)
Lemma perms_sentinels (fpath : string) (w : World) :
  CreateTempFile_perms NA_ID NA_MODE fpath
    (PyInt NA_MODE) (PyInt NA_ID) (PyInt NA_ID) w = (Return fpath, w).
Proof.
  unfold CreateTempFile_perms, bind, ret, lift. cbn.
  rewrite !Z.eqb_refl. done.
Qed.

(** A call that returns has gone through its four steps. *)
Lemma CreateTempFile_return
    (tmpdir : option string) (contents : option Contents)
    (file_name : option FileName) (mtime : option Z) (mode uid gid : PyVal)
    (w : World) (fpath : string) :
  (CreateTempFile NA_ID NA_MODE tmpdir contents file_name mtime mode uid gid w).1
    = Return fpath →
  ∃ data w1 s2,
    CreateTempFile_target tmpdir contents file_name w
      = (Return (fpath, data), w1) ∧
    OS.open_wb_write fpath data (os w1) = (Return (), s2) ∧
    let w2 := with_os s2 w1 in
    (CreateTempFile_times fpath mtime w2).1 = Return () ∧
    let w3 := (CreateTempFile_times fpath mtime w2).2 in
    CreateTempFile NA_ID NA_MODE tmpdir contents file_name mtime mode uid gid w
      = CreateTempFile_perms NA_ID NA_MODE fpath mode uid gid w3.
Proof.
  rewrite CreateTempFile_split. unfold bind at 1.
  destruct (CreateTempFile_target _ _ _ w) as [[[p data]|e] w1] eqn:E1; [|done].
  cbn [fst snd]. unfold bind at 1. unfold sys at 1. cbv zeta.
  destruct (OS.open_wb_write p data (os w1)) as [[[]|e] s2] eqn:E2; [|done].
  cbn [fst snd]. unfold bind at 1.
  destruct (CreateTempFile_times p mtime (with_os s2 w1)) as [[[]|e] w3] eqn:E3;
    [|done].
  intros H. pose proof (perms_returns _ _ _ _ _ _ H) as ->.
  exists data, w1, s2. split; [done|]. split; [done|].
  cbv zeta. rewrite E3. split; [done|].
  cbn [snd]. unfold bind at 1. rewrite E1. cbn [fst snd]. unfold bind at 1, sys at 1.
  rewrite E2. cbn [fst snd]. unfold bind at 1. rewrite E3. done.
Qed.

Lemma owner_requested_differs (uid gid : PyVal) :
  owner_requested NA_ID uid gid → uid ≠ PyInt NA_ID ∨ gid ≠ PyInt NA_ID.
Proof.
  intros [H|(g & Hg & Hne)].
  - left. intros ->. cbn in H. by rewrite Z.eqb_refl in H.
  - right. intros ->. cbn in Hg. congruence.
Qed.

Lemma mode_requested_differs (mode : PyVal) :
  mode_requested NA_MODE mode → mode ≠ PyInt NA_MODE.
Proof. intros (m & Hm & Hne) ->. cbn in Hm. congruence. Qed.

Lemma written_owner (p : string) (d : list byte) (s : OsState) :
  (st_uid (OS.written p d s), st_gid (OS.written p d s),
   st_mode (OS.written p d s)) = owner_as_written p s.
Proof. unfold OS.written, owner_as_written. by destruct (files s !! p). Qed.

Lemma target_files_kept (tmpdir : option string) (contents : option Contents)
    (file_name : option FileName) :
  along files_kept (CreateTempFile_target tmpdir contents file_name).
Proof.
  apply AlongFacts.along_target.
  - apply OSFacts.files_kept_refl.
  - apply OSFacts.files_kept_trans.
  - apply OSFacts.mkdir_kept.
  - apply OSFacts.makedirs_kept.
Qed.

(** C3. [CreateTempFile] calls [os.chown] only when [uid] or [gid] differs
    from [NA_ID], and [os.chmod] only when [mode] differs from [NA_MODE].
    When all three are the sentinels neither is called, and the file the
    call returns has the owner, group and mode it got when it was written:
    those it had before, or those of the process for a new file. *)
Theorem CreateTempFile_owner_mode_on_request
    (tmpdir : option string) (contents : option Contents)
    (file_name : option FileName) (mtime : option Z) (mode uid gid : PyVal)
    (w : World) :
  let r := CreateTempFile NA_ID NA_MODE tmpdir contents file_name mtime
             mode uid gid w in
  ∃ l, issued w r.2 l ∧
    (∀ p u g, sys_chown p u g ∈ l →
       owner_requested NA_ID uid gid ∧
       (uid ≠ PyInt NA_ID ∨ gid ≠ PyInt NA_ID)) ∧
    (∀ p m, sys_chmod p m ∈ l →
       mode_requested NA_MODE mode ∧ mode ≠ PyInt NA_MODE) ∧
    (uid = PyInt NA_ID → gid = PyInt NA_ID → mode = PyInt NA_MODE →
       (∀ p u g, sys_chown p u g ∉ l) ∧ (∀ p m, sys_chmod p m ∉ l) ∧
       ∀ fpath, r.1 = Return fpath →
         ∃ f, files (os r.2) !! fpath = Some f ∧
              (st_uid f, st_gid f, st_mode f) = owner_as_written fpath (os w)).
Proof.
  cbv zeta.
  destruct (CreateTempFile_calls
    (attr_calls (owner_requested NA_ID uid gid) (mode_requested NA_MODE mode))
    mtime mode uid gid) with (w := w) (tmpdir := tmpdir) (contents := contents)
    (file_name := file_name) as (l & Hl & HP); try done.
  assert (∀ p u g, sys_chown p u g ∈ l → owner_requested NA_ID uid gid) as Hown.
  { intros p u g Hin. by apply (proj1 (Forall_forall _ _) HP _ Hin). }
  assert (∀ p m, sys_chmod p m ∈ l → mode_requested NA_MODE mode) as Hmod.
  { intros p m Hin. by apply (proj1 (Forall_forall _ _) HP _ Hin). }
  exists l. split; [exact Hl|].
  split; [intros p u g Hin; split;
          [|apply owner_requested_differs]; by eapply Hown|].
  split; [intros p m Hin; split;
          [|apply mode_requested_differs]; by eapply Hmod|].
  intros -> -> ->.
  split; [intros p u g Hin; by destruct (owner_requested_differs _ _ (Hown _ _ _ Hin))|].
  split; [intros p m Hin; by destruct (mode_requested_differs _ (Hmod _ _ Hin))|].
  intros fpath Hret.
  destruct (CreateTempFile_return _ _ _ _ _ _ _ _ _ Hret)
    as (data & w1 & s2 & E1 & E2 & E3 & E4).
  cbv zeta in E4. rewrite E4, perms_sentinels. cbn [snd].
  pose proof (target_files_kept tmpdir contents file_name w) as Hk.
  rewrite E1 in Hk. cbn [snd] in Hk. destruct Hk as (Hf & Hu & Hg & Hm & _).
  apply OSFacts.open_return in E2 as (Hf2 & _).
  destruct (owner_as_written fpath (os w)) as [[u g] m] eqn:Eo.
  assert (file_owned fpath u g m (os (with_os s2 w1))) as Ho.
  { eexists. cbn [os with_os]. rewrite Hf2. split; [apply lookup_insert_eq|].
    pose proof (written_owner fpath data
      (OS.enter (sys_open_wb fpath data) (os w1))) as Hw.
    replace (owner_as_written fpath (OS.enter (sys_open_wb fpath data) (os w1)))
      with (owner_as_written fpath (os w)) in Hw.
    - rewrite Eo in Hw. by injection Hw.
    - unfold owner_as_written. cbn. by rewrite Hf, Hu, Hg, Hm. }
  apply (times_owner_kept fpath mtime) in Ho as (f & Hf3 & <- & <- & <-).
  by exists f.
Qed.

Lemma target_range_kept (tmpdir : option string) (contents : option Contents)
    (file_name : option FileName) :
  along range_kept (CreateTempFile_target tmpdir contents file_name).
Proof.
  apply AlongFacts.along_target.
  - apply OSFacts.range_kept_refl.
  - apply OSFacts.range_kept_trans.
  - apply OSFacts.mkdir_range.
  - apply OSFacts.makedirs_range.
Qed.

(** C4, amended. After a call of [CreateTempFile] with an [mtime] that
    returns, the [mtime] is one a C [time_t] holds, and the file returned
    has as its access time and as its modification time the time that the
    file system stores for [mtime]: [mtime] itself when it lies in the range
    of times of the file system, and the nearest end of that range
    otherwise. After a call without one, [os.utime] has not been called and
    the times are those the file got when it was written: the modification
    time is what the file system stores for a time of the clock during the
    call, the access time is that same time for a new file and the one the
    file had for a file that was there. *)
Theorem CreateTempFile_mtime
    (tmpdir : option string) (contents : option Contents)
    (file_name : option FileName) (mtime : option Z) (mode uid gid : PyVal)
    (w : World) (fpath : string) :
  let r := CreateTempFile NA_ID NA_MODE tmpdir contents file_name mtime
             mode uid gid w in
  r.1 = Return fpath →
  ∃ f, files (os r.2) !! fpath = Some f ∧
    match mtime with
    | Some t =>
        (- 2 ^ 63 ≤ t < 2 ^ 63)%Z ∧
        st_atime f = OS.stored_time (os w) t ∧
        st_mtime f = OS.stored_time (os w) t ∧
        ((time_min (os w) ≤ t ≤ time_max (os w))%Z →
         st_atime f = t ∧ st_mtime f = t)
    | None =>
        (∃ c, (clock (os w) < c ≤ clock (os r.2))%Z ∧
              st_mtime f = OS.stored_time (os w) c) ∧
        st_atime f = match files (os w) !! fpath with
                     | Some f0 => st_atime f0
                     | None => st_mtime f
                     end ∧
        ∃ l, issued w r.2 l ∧ Forall (λ c, ¬ is_utime c) l
    end.
Proof.
  cbv zeta. intros Hret.
  destruct (CreateTempFile_return _ _ _ _ _ _ _ _ _ Hret)
    as (data & w1 & s2 & E1 & E2 & E3 & E4).
  cbv zeta in E3, E4.
  pose proof (target_files_kept tmpdir contents file_name w) as Hk.
  rewrite E1 in Hk. cbn [snd] in Hk. destruct Hk as (Hf & _ & _ & _ & Hc).
  pose proof (target_range_kept tmpdir contents file_name w) as Hr.
  rewrite E1 in Hr. cbn [snd] in Hr. destruct Hr as [Hmin Hmax].
  pose proof (OSFacts.open_range fpath data (os w1)) as Hr.
  rewrite E2 in Hr. cbn [snd] in Hr. destruct Hr as [Hmin2 Hmax2].
  apply OSFacts.open_return in E2 as (Hf2 & _ & Hc2 & _).
  pose proof (perms_contents_kept fpath mode uid gid
    (CreateTempFile_times fpath mtime (with_os s2 w1)).2) as [Hc4 Hk4].
  rewrite <- E4 in Hc4, Hk4.
  assert (∀ t, OS.stored_time s2 t = OS.stored_time (os w) t) as Hst.
  { intros t. unfold OS.stored_time. by rewrite Hmin2, Hmax2, Hmin, Hmax. }
  destruct mtime as [t|].
  - unfold CreateTempFile_times, sys in E3, Hk4. cbn [fst snd os with_os] in E3, Hk4.
    destruct (OS.utime fpath t t s2) as [[[]|e] s3] eqn:E; [|done].
    apply OSFacts.utime_return in E as (Ht & _ & f & Hf3 & Hf3').
    destruct (Hk4 (st_data f) (OS.stored_time s2 t) (OS.stored_time s2 t))
      as (f' & Hf' & _ & Ha & Hm).
    { eexists. cbn [snd]. rewrite Hf3'. split; [apply lookup_insert_eq|done]. }
    exists f'. split; [done|]. rewrite Ha, Hm, Hst.
    split.
    { unfold OS.is_time_t in Ht. apply andb_true_iff in Ht as [H1 H2].
      apply Z.leb_le in H1. apply Z.ltb_lt in H2. done. }
    split; [done|]. split; [done|].
    intros Hin. by rewrite OSFacts.stored_time_in_range.
  - cbn [CreateTempFile_times ret snd os with_os] in Hc4, Hk4.
    set (s1' := OS.enter (sys_open_wb fpath data) (os w1)) in *.
    destruct (Hk4 data (st_atime (OS.written fpath data s1'))
                (OS.stored_time s1' (clock s1')))
      as (f' & Hf' & _ & Ha & Hm).
    { eexists. rewrite Hf2. split; [apply lookup_insert_eq|].
      by rewrite OSFacts.written_data, OSFacts.written_mtime. }
    assert (∀ t, OS.stored_time s1' t = OS.stored_time (os w) t) as Hst1.
    { intros t. unfold OS.stored_time. subst s1'. cbn [time_min time_max OS.enter].
      by rewrite Hmin, Hmax. }
    exists f'. split; [done|]. rewrite Hm, Ha.
    split.
    { exists (clock s1'). split; [|apply Hst1].
      subst s1'; cbn [clock OS.enter] in *; lia. }
    split.
    + unfold OS.written. subst s1'. cbn [files OS.enter clock]. rewrite Hf.
      by destruct (files (os w) !! fpath).
    + apply (CreateTempFile_calls (λ c, ¬ is_utime c) None mode uid gid);
        try done; cbn; auto.
Qed.

End Sentinels.

(** The theorem at work: a file made with [mtime=1000000000] in the example
    world. *)
Lemma CreateTempFile_mtime_witness :
  let r := CreateTempFile (-1) (-1) None None None (Some 1000000000%Z)
             (PyInt (-1)) (PyInt (-1)) (PyInt (-1))
             (example_world N.of_nat) in
  ∃ f,
    files (os r.2) !!
      "/tmp/gsutil-test-testFoo-directory-00000000baaaaaaa/gsutil-test-testFoo-file-00000002"
      = Some f ∧
    st_atime f = 1000000000%Z ∧ st_mtime f = 1000000000%Z.
Proof.
  destruct (CreateTempFile_mtime (-1) (-1) None None None
    (Some 1000000000%Z) (PyInt (-1)) (PyInt (-1)) (PyInt (-1))
    (example_world N.of_nat)
    "/tmp/gsutil-test-testFoo-directory-00000000baaaaaaa/gsutil-test-testFoo-file-00000002")
    as (f & Hf & _ & _ & _ & Hin); [vm_compute; reflexivity|].
  exists f. split; [exact Hf|]. apply Hin. vm_compute. split; discriminate.
Defined.

(** The claim C4 fails for an [mtime] beyond the times the file system
    stores: in the example world, whose file system stores times up to
    2^34 - 2^31 - 1 as ext4 does, the call with [mtime=2**40] returns and
    the file has the last time of that range as its access time and as its
    modification time. *)
Lemma CreateTempFile_mtime_beyond_range :
  let r := CreateTempFile (-1) (-1) None None None (Some (2 ^ 40)%Z)
             (PyInt (-1)) (PyInt (-1)) (PyInt (-1))
             (example_world N.of_nat) in
  ∃ fpath f,
    r.1 = Return fpath ∧ files (os r.2) !! fpath = Some f ∧
    st_atime f = 15032385535%Z ∧ st_mtime f = 15032385535%Z ∧
    st_mtime f ≠ (2 ^ 40)%Z.
Proof.
  cbv zeta. eexists _, _. split; [vm_compute; reflexivity|].
  split; [vm_compute; reflexivity|]. by vm_compute.
Qed.

End FileFacts.

(** ** Paths *)

Module PathFacts.
Import TextFacts.

Lemma eqb_sep_cons (c : ascii) (t : string) :
  t ≠ "" → String.eqb "/" (String c t) = false.
Proof.
  intros Ht. apply String.eqb_neq. intros [= <- <-]. done.
Qed.

Lemma endswith_sep_tail (t : string) :
  Text.all no_sep t = true → Text.endswith "/" t = false.
Proof.
  induction t as [|c t IH]; [done|]. cbn [Text.all Text.endswith].
  intros [Hc Ht]%andb_true_iff. rewrite (IH Ht), orb_false_r.
  apply String.eqb_neq. intros [= <- <-]. done.
Qed.

(** A path does not end in a separator when its last part is not empty and
    has none. *)
Lemma endswith_sep_app (a t : string) :
  t ≠ "" → Text.all no_sep t = true → Text.endswith "/" (a +:+ t) = false.
Proof.
  intros Hne Ht. induction a as [|c a IH]; [by apply endswith_sep_tail|].
  change (String c a +:+ t) with (String c (a +:+ t)).
  cbn [Text.endswith]. rewrite IH, orb_false_r.
  apply eqb_sep_cons. by destruct a.
Qed.

Lemma app_nonempty (a t : string) : t ≠ "" → a +:+ t ≠ "".
Proof. by destruct a. Qed.

Lemma characters_no_sep (i : nat) (c : ascii) :
  String.get i tempfile.characters = Some c → no_sep c = true.
Proof.
  unfold tempfile.characters.
  do 37 (destruct i as [|i]; [by intros [= <-]|]). done.
Qed.

Lemma token_no_sep (k : nat) (n : N) :
  Text.all no_sep (tempfile.token k n) = true.
Proof.
  revert n. induction k as [|k IH]; intros n; [done|].
  cbn [tempfile.token].
  destruct (String.get _ _) as [c|] eqn:E; [|done].
  cbn [Text.all]. by rewrite (characters_no_sep _ _ E), IH.
Qed.

Lemma token_nonempty (k : nat) (n : N) : tempfile.token (S k) n ≠ "".
Proof.
  cbn [tempfile.token].
  assert (N.to_nat (n mod 37) < 37)%nat as H.
  { pose proof (N.mod_lt n 37). lia. }
  revert H. generalize (N.to_nat (n mod 37)). intros i Hi.
  unfold tempfile.characters.
  do 37 (destruct i as [|i]; [done|]). lia.
Qed.

(** Joining ends in what is joined on. *)
Lemma join2_ends (a b t : string) :
  ∃ a', os_path.join2 a (b +:+ t) = a' +:+ t.
Proof.
  unfold os_path.join2.
  destruct (Text.startswith _ _); [by exists b|].
  destruct (_ || _).
  - exists (a +:+ b). by rewrite app_assoc.
  - exists (a +:+ "/" +:+ b). by rewrite !app_assoc.
Qed.

(** The name of a file joined on a directory lies in that directory. *)
Lemma join_child (d n : string) :
  d ≠ "" → Text.endswith "/" d = false → Text.startswith "/" n = false →
  os_path.join d [n] = d +:+ "/" +:+ n.
Proof.
  intros Hd He Hn. cbn. unfold os_path.join2. rewrite Hn, He.
  by apply String.eqb_neq in Hd as ->.
Qed.

Lemma within_child (d n : string) :
  os_path.within d (d +:+ "/" +:+ n) = true.
Proof.
  unfold os_path.within. rewrite <- app_assoc, AssertFacts.prefix_app.
  apply orb_true_r.
Qed.

Lemma prefix_in_prefixes (d k : string) :
  String.prefix (d +:+ "/") k = true → d ∈ os_path.prefixes k.
Proof.
  revert k. induction d as [|c d IH]; intros k; destruct k as [|c' k];
    try done.
  - change ("" +:+ "/") with "/". cbn [String.prefix os_path.prefixes].
    destruct (ascii_dec "/" c') as [<-|]; [|done]. intros _.
    change (os_path.is_sep "/") with true. cbn. left.
  - change (String c d +:+ "/") with (String c (d +:+ "/")).
    cbn [String.prefix os_path.prefixes].
    destruct (ascii_dec c c') as [<-|]; [|done]. intros H.
    apply elem_of_app. right. apply list_elem_of_fmap. exists d.
    split; [done|]. by apply IH.
Qed.

(** What lies in a directory has it among its ancestors. *)
Lemma within_ancestor (d k : string) :
  d ≠ "" → os_path.within d k = true → k = d ∨ d ∈ os_path.ancestors k.
Proof.
  intros Hd [H|H]%orb_true_iff.
  - left. by apply String.eqb_eq.
  - right. unfold os_path.ancestors. apply list_elem_of_In, filter_In.
    split; [by apply list_elem_of_In, prefix_in_prefixes|].
    apply negb_true_iff. by apply String.eqb_neq.
Qed.

End PathFacts.

(** ** Temporary directories *)

Module DirFacts.
Import TextFacts PathFacts GsUtilTestCase.

Lemma mkdir_cases (p : string) (s : OsState) :
  files (OS.mkdir p s).2 = files s ∧
  match (OS.mkdir p s).1 with
  | Return _ =>
      p ≠ "" ∧ (p ∉ dirs s) ∧ files s !! p = None ∧
      dirs (OS.mkdir p s).2 = {[p]} ∪ dirs s
  | Raise _ => dirs (OS.mkdir p s).2 = dirs s
  end.
Proof.
  unfold OS.mkdir. cbv zeta.
  destruct (String.eqb p "") eqn:Ep; [done|].
  unfold OS.exists_, OS.isdir, OS.isfile. cbn [dirs files OS.enter].
  destruct (bool_decide (p ∈ dirs s)) eqn:Ed; [done|].
  destruct (bool_decide (is_Some (files s !! p))) eqn:Ef; [done|].
  cbn [orb]. destruct (OS.parent_check _ _); [done|]. cbn.
  split; [done|]. apply String.eqb_neq in Ep.
  apply bool_decide_eq_false in Ed, Ef.
  split; [done|]. split; [done|]. split; [|done].
  destruct (files s !! p); [|done]. by destruct Ef.
Qed.

Lemma makedirs_dirs (p : string) (s : OsState) :
  dirs s ⊆ dirs (OS.makedirs p s).2.
Proof.
  unfold OS.makedirs. cbv zeta.
  destruct (String.eqb p ""); [done|].
  destruct (OS.exists_ _ _); [done|].
  destruct (existsb _ _); [done|]. cbn. set_solver.
Qed.

(** The directory [mkdtemp] returns is new, and nothing else has changed in
    the file tree. *)
Lemma mkdtemp_return (n : nat) (prefix : string) (w w' : World) (tmpdir : string) :
  tempfile.mkdtemp_from n prefix w = (Return tmpdir, w') →
  files (os w') = files (os w) ∧
  dirs (os w') = {[tmpdir]} ∪ dirs (os w) ∧
  (tmpdir ∉ dirs (os w)) ∧ files (os w) !! tmpdir = None ∧
  tmpdir ≠ "" ∧ Text.endswith "/" tmpdir = false ∧
  _testMethodName w' = _testMethodName w ∧ entropy w' = entropy w ∧
  tempdirs w' = tempdirs w.
Proof.
  revert w. induction n as [|n IH]; intros w; [done|].
  cbn [tempfile.mkdtemp_from]. unfold bind at 1, random.randrange at 1.
  change (37 ^ 8 =? 0) with false. cbv beta iota. unfold bind at 1.
  cbv beta iota. cbn [os tempdir].
  set (r := entropy w (draws w) mod 37 ^ 8).
  set (file := os_path.join _ _).
  unfold sys at 1. cbv zeta. cbn [os].
  pose proof (mkdir_cases file (os w)) as [Hf Hd].
  destruct (OS.mkdir file (os w)) as [[u|e] s1]; cbn [fst snd] in *.
  - intros [= <- <-]. cbn [os with_os _testMethodName entropy tempdirs].
    destruct Hd as (Hne & Hnd & Hnf & Hd).
    repeat split; try done.
    subst file. cbn [os_path.join fold_left].
    destruct (join2_ends (tempdir (os w)) prefix (tempfile.token 8 r))
      as [a' ->].
    apply endswith_sep_app; [apply token_nonempty | apply token_no_sep].
  - assert (∀ X, tempfile.mkdtemp_from n prefix (with_os s1
        {| _testMethodName := _testMethodName w; tempdirs := tempdirs w;
           os := os w; entropy := entropy w; draws := S (draws w) |})
        = X → X = (Return tmpdir, w') →
        files (os w') = files (os w) ∧
        dirs (os w') = {[tmpdir]} ∪ dirs (os w) ∧
        (tmpdir ∉ dirs (os w)) ∧ files (os w) !! tmpdir = None ∧
        tmpdir ≠ "" ∧ Text.endswith "/" tmpdir = false ∧
        _testMethodName w' = _testMethodName w ∧ entropy w' = entropy w ∧
        tempdirs w' = tempdirs w) as Hrec.
    { intros X <- HX. apply IH in HX. cbn in HX. by rewrite Hf, Hd in HX. }
    destruct e as [| | | |[]| | |]; try done.
    intros HX. by eapply Hrec.
Qed.

Lemma target_given (d n : string) (c : Contents) (w w1 : World)
    (t : string * list byte) :
  d ≠ "" → n ≠ "" →
  CreateTempFile_target (Some d) (Some c) (Some (Name n)) w = (Return t, w1) →
  t = (os_path.join d [n], to_bytes c) ∧ same_self w w1 ∧
  files (os w1) = files (os w) ∧ dirs (os w) ⊆ dirs (os w1).
Proof.
  intros Hd Hn. unfold CreateTempFile_target.
  apply String.eqb_neq in Hd as ->.
  assert (falsy (Some (Name n)) = false) as -> by by destruct n.
  unfold bind, ret. cbv beta iota zeta.
  destruct (OS.isdir _ _); cbn [negb].
  - by intros [= <- <-].
  - unfold sys. cbv zeta.
    pose proof (OSFacts.makedirs_kept (os_path.dirname (os_path.join d [n])) (os w))
      as (Hf & _).
    pose proof (makedirs_dirs (os_path.dirname (os_path.join d [n])) (os w)) as Hs.
    destruct (OS.makedirs _ (os w)) as [[u|e] s1]; cbn [fst snd] in *; [|done].
    by intros [= <- <-].
Qed.

Section Sentinels.

Variables NA_ID NA_MODE : Z.

(** A file made the way [CreateTempDir] makes it: at the path joined of
    the directory and the name, with the contents given, and no other file
    touched. *)
Lemma CreateTempFile_plain (d n : string) (c : Contents) (w w' : World)
    (p : string) :
  d ≠ "" → n ≠ "" →
  CreateTempFile NA_ID NA_MODE (Some d) (Some c) (Some (Name n)) None
    (PyInt NA_MODE) (PyInt NA_ID) (PyInt NA_ID) w = (Return p, w') →
  p = os_path.join d [n] ∧ same_self w w' ∧
  st_data <$> files (os w') = <[p := to_bytes c]> (st_data <$> files (os w)) ∧
  dirs (os w) ⊆ dirs (os w').
Proof.
  intros Hd Hn E.
  destruct (FileFacts.CreateTempFile_return NA_ID NA_MODE (Some d) (Some c)
    (Some (Name n)) None (PyInt NA_MODE) (PyInt NA_ID) (PyInt NA_ID) w p)
    as (data & w1 & s2 & E1 & E2 & _ & E4); [by rewrite E|].
  cbv zeta in E4. cbn [CreateTempFile_times ret snd] in E4.
  rewrite FileFacts.perms_sentinels, E in E4. injection E4 as ->.
  apply target_given in E1 as ([= -> ->] & Hs & Hf & Hdir); [|done..].
  apply OSFacts.open_return in E2 as (Hf2 & Hd2 & _).
  split; [done|]. split; [exact Hs|]. cbn [os with_os]. split.
  - by rewrite Hf2, fmap_insert, OSFacts.written_data, Hf.
  - by rewrite Hd2.
Qed.

Lemma contents_file_run (contents : option Contents) (i : nat) (w w' : World)
    (c : Contents) :
  (i < 3)%nat →
  (match contents with
   | Some c => ret c
   | None => bind (lift (Py.encode_ascii ("test " +:+ Fmt.d i)))
               (λ b, ret (Bytes b))
   end) w = (Return c, w') →
  w' = w ∧
  to_bytes c = match contents with
               | Some c => to_bytes c
               | None => test_bytes i
               end.
Proof.
  intros Hi. destruct contents as [c0|]; [by intros [= <- <-]|].
  destruct i as [|[|[|i]]]; [| | |lia]; by intros [= <- <-].
Qed.

Lemma CreateTempDir_three_run (contents : option Contents) (w w' : World)
    (tmpdir : string) :
  CreateTempDir NA_ID NA_MODE (inl 3%Z) contents w = (Return tmpdir, w') →
  let k := (draws w' - 3)%nat in
  let name i := temp_name (_testMethodName w) "file" "" (draw_at w (k + i)) in
  let path i := tmpdir +:+ "/" +:+ name i in
  let data i := match contents with
                | Some c => to_bytes c
                | None => test_bytes i
                end in
  (tmpdir ∉ dirs (os w)) ∧ files (os w) !! tmpdir = None ∧ tmpdir ≠ "" ∧
  tmpdir ∈ dirs (os w') ∧ tmpdir ∈ tempdirs w' ∧
  st_data <$> files (os w') =
    <[path 2%nat := data 2%nat]> (<[path 1%nat := data 1%nat]>
      (<[path 0%nat := data 0%nat]> (st_data <$> files (os w)))).
Proof.
  unfold CreateTempDir, CreateTempDir_with. intros E.
  apply MonadFacts.bind_return in E as (prefix & w0 & E0 & E).
  rewrite NameFacts.MakeTempName_run in E0. injection E0 as <- <-.
  apply MonadFacts.bind_return in E as (d & w1 & Em & E).
  apply mkdtemp_return in Em
    as (Hf1 & Hd1 & Hnd & Hnf & Hne & Hend & Hm1 & He1 & Ht1).
  cbn [os advance _testMethodName entropy tempdirs] in *.
  apply MonadFacts.bind_return in E as ([] & w2 & E2 & E).
  injection E2 as <-.
  apply MonadFacts.bind_return in E as (l & w3 & E3 & E).
  apply MonadFacts.bind_return in E3 as (names & w3' & E3 & E3').
  injection E3' as <- <-.
  change (Z.to_nat 3) with 3%nat in E3. cbn [times] in E3.
  apply MonadFacts.bind_return in E3 as (n0 & v0 & En0 & E3).
  rewrite NameFacts.MakeTempName_run in En0. injection En0 as <- <-.
  apply MonadFacts.bind_return in E3 as (l0 & u0 & E3 & R0).
  injection R0 as <- <-.
  apply MonadFacts.bind_return in E3 as (n1 & v1 & En1 & E3).
  rewrite NameFacts.MakeTempName_run in En1. injection En1 as <- <-.
  apply MonadFacts.bind_return in E3 as (l1 & u1 & E3 & R1).
  injection R1 as <- <-.
  apply MonadFacts.bind_return in E3 as (n2 & v2 & En2 & E3).
  rewrite NameFacts.MakeTempName_run in En2. injection En2 as <- <-.
  apply MonadFacts.bind_return in E3 as (l2 & u2 & E3 & R2).
  injection R2 as <- <-. injection E3 as <- <-.
  cbn [List.map for_enumerate] in E.
  apply MonadFacts.bind_return in E as ([] & w4 & E & R).
  injection R as <- <-.
  apply MonadFacts.bind_return in E as ([] & wa & Ea & E).
  apply MonadFacts.bind_return in E as ([] & wb & Eb & E).
  apply MonadFacts.bind_return in E as ([] & wc & Ec & E).
  injection E as <-.
  apply MonadFacts.bind_return in Ea as (c0 & wa0 & Ec0 & Ea).
  apply contents_file_run in Ec0 as [-> Hc0]; [|lia].
  apply MonadFacts.bind_return in Ea as (p0 & wa1 & Ea & R).
  injection R as <-.
  apply CreateTempFile_plain in Ea as (-> & Hsa & Hfa & Hda); [|done|done].
  apply MonadFacts.bind_return in Eb as (c1 & wb0 & Ec1 & Eb).
  apply contents_file_run in Ec1 as [-> Hc1]; [|lia].
  apply MonadFacts.bind_return in Eb as (p1 & wb1 & Eb & R).
  injection R as <-.
  apply CreateTempFile_plain in Eb as (-> & Hsb & Hfb & Hdb); [|done|done].
  apply MonadFacts.bind_return in Ec as (c2 & wc0 & Ec2 & Ec).
  apply contents_file_run in Ec2 as [-> Hc2]; [|lia].
  apply MonadFacts.bind_return in Ec as (p2 & wc1 & Ec & R).
  injection R as <-.
  apply CreateTempFile_plain in Ec as (-> & Hsc & Hfc & Hdc); [|done|done].
  destruct Hsa as (_ & Hta & _ & Hra), Hsb as (_ & Htb & _ & Hrb),
    Hsc as (_ & Htc & _ & Hrc).
  cbn [os advance with_tempdirs tempdirs draws] in *.
  cbv zeta.
  assert (draws wc1 - 3 = draws w1)%nat as -> by lia.
  split; [done|]. split; [done|]. split; [done|].
  split.
  { apply Hdc, Hdb, Hda. rewrite Hd1. apply elem_of_union. left.
    by apply elem_of_singleton. }
  split.
  { rewrite Htc, Htb, Hta. apply elem_of_app. right. by apply list_elem_of_singleton. }
  rewrite Hfc, Hfb, Hfa, Hf1, Hc0, Hc1, Hc2.
  rewrite !join_child by done.
  unfold drawn, draw_at. cbn [entropy draws advance with_tempdirs].
  rewrite Hm1, He1, !Nat.add_0_r.
  replace (draws w1 + 1)%nat with (S (draws w1)) by lia.
  replace (draws w1 + 2)%nat with (S (S (draws w1))) by lia.
  done.
Qed.


Lemma file_name_shape (method : string) (r : N) :
  temp_name method "file" "" r =
  name_stem method "file" "" +:+ "-" +:+ Fmt.x08 r.
Proof. done. Qed.

Lemma path_inj (d method : string) (r r' : N) :
  r < 256 ^ 4 → r' < 256 ^ 4 →
  d +:+ "/" +:+ temp_name method "file" "" r =
  d +:+ "/" +:+ temp_name method "file" "" r' → r = r'.
Proof.
  intros Hr Hr'. rewrite !file_name_shape. intros H.
  do 4 apply (inj (String.app _)) in H. by apply FmtFacts.x08_inj.
Qed.

Lemma draw_at_bound (w : World) (k : nat) : draw_at w k < 256 ^ 4.
Proof. apply N.mod_lt. done. Qed.

(** In a well-formed file tree nothing lies in a directory that is not
    there. *)
Lemma listing_fresh (d : string) (s : OsState) :
  fs_wf s → d ≠ "" → d ∉ dirs s → files s !! d = None →
  listing d s = ∅.
Proof.
  intros Hwf Hne Hnd Hnf. apply map_empty. intros k.
  apply map_lookup_filter_None. right. intros x Hx Hin. cbn in Hin.
  apply lookup_fmap_Some in Hx as (f & _ & Hf).
  apply Is_true_true in Hin.
  destruct (within_ancestor d k Hne Hin) as [->|Ha]; [congruence|].
  assert (k ∈ dom (files s) ∪ dirs s) as Hk.
  { apply elem_of_union. left. apply elem_of_dom. by exists f. }
  specialize (Hwf k Hk). rewrite Forall_forall in Hwf. by apply Hnd, Hwf.
Qed.

Lemma listing_insert (d n : string) (b : list byte) (m : gmap string (list byte)) :
  filter (λ kv, os_path.within d kv.1) (<[d +:+ "/" +:+ n := b]> m) =
  <[d +:+ "/" +:+ n := b]> (filter (λ kv, os_path.within d kv.1) m).
Proof.
  apply map_filter_insert_True. cbn. apply Is_true_true, within_child.
Qed.

(** C2, amended. A call of [CreateTempDir] with [test_files=3] that returns
    has made a new directory, tracked for teardown, and written three times
    into it, in the order of the indices: the contents ["test 0"], ["test
    1"], ["test 2"] (ASCII) by default, the given contents if there are
    any, each under a name drawn at random. The directory holds what these
    three writes leave: exactly three files when the three random values
    drawn for the names are pairwise distinct. *)
Theorem CreateTempDir_three_files (contents : option Contents) (w : World)
    (tmpdir : string) :
  let r := CreateTempDir NA_ID NA_MODE (inl 3%Z) contents w in
  fs_wf (os w) →
  r.1 = Return tmpdir →
  let k := (draws r.2 - 3)%nat in
  let name i := temp_name (_testMethodName w) "file" "" (draw_at w (k + i)) in
  let path i := tmpdir +:+ "/" +:+ name i in
  let data i := match contents with
                | Some c => to_bytes c
                | None => test_bytes i
                end in
  (tmpdir ∉ dirs (os w)) ∧ tmpdir ∈ dirs (os r.2) ∧ tmpdir ∈ tempdirs r.2 ∧
  listing tmpdir (os r.2) =
    <[path 2%nat := data 2%nat]> (<[path 1%nat := data 1%nat]>
      (<[path 0%nat := data 0%nat]> ∅)) ∧
  (NoDup [draw_at w k; draw_at w (k + 1); draw_at w (k + 2)] →
   size (listing tmpdir (os r.2)) = 3%nat).
Proof.
  cbv zeta. intros Hwf Hret.
  destruct (CreateTempDir NA_ID NA_MODE (inl 3%Z) contents w) as [o w'] eqn:E.
  cbn [fst snd] in *. subst o.
  apply CreateTempDir_three_run in E as (Hnd & Hnf & Hne & Hd & Ht & Hf).
  cbv zeta in Hf.
  assert (listing tmpdir (os w') =
    <[tmpdir +:+ "/" +:+ temp_name (_testMethodName w) "file" ""
        (draw_at w (draws w' - 3 + 2)) :=
      match contents with Some c => to_bytes c | None => test_bytes 2 end]>
    (<[tmpdir +:+ "/" +:+ temp_name (_testMethodName w) "file" ""
        (draw_at w (draws w' - 3 + 1)) :=
      match contents with Some c => to_bytes c | None => test_bytes 1 end]>
    (<[tmpdir +:+ "/" +:+ temp_name (_testMethodName w) "file" ""
        (draw_at w (draws w' - 3 + 0)) :=
      match contents with Some c => to_bytes c | None => test_bytes 0 end]>
     ∅))) as Hl.
  { unfold listing at 1. rewrite Hf, !listing_insert.
    fold (listing tmpdir (os w)). by rewrite listing_fresh. }
  split; [done|]. split; [done|]. split; [done|]. split; [done|].
  rewrite Hl, Nat.add_0_r. intros Hnodup.
  apply NoDup_cons in Hnodup as [H0 Hnodup].
  apply NoDup_cons in Hnodup as [H1 _].
  rewrite !map_size_insert_None, map_size_empty; [done| | |].
  - apply lookup_empty.
  - rewrite lookup_insert_ne; [apply lookup_empty|].
    intros H%path_inj; [|apply draw_at_bound..].
    apply H0. rewrite H. set_solver.
  - rewrite !lookup_insert_ne; [apply lookup_empty| |].
    + intros H%path_inj; [|apply draw_at_bound..].
      apply H0. rewrite H. set_solver.
    + intros H%path_inj; [|apply draw_at_bound..].
      apply H1. rewrite H. set_solver.
Qed.

End Sentinels.

Lemma example_world_wf (e : nat → N) : fs_wf (os (example_world e)).
Proof.
  intros k Hk. cbn in Hk.
  assert (k = "/tmp") as ->.
  { apply elem_of_union in Hk as [Hk|Hk].
    - rewrite dom_empty_L in Hk. by apply not_elem_of_empty in Hk.
    - by apply elem_of_singleton in Hk. }
  vm_compute. constructor.
Qed.

(** The theorem at work: with the random source [0, 1, 2, ...] the
    directory holds three files. *)
Lemma CreateTempDir_three_files_witness :
  size (listing "/tmp/gsutil-test-testFoo-directory-00000000baaaaaaa"
          (os (CreateTempDir (-1) (-1) (inl 3%Z) None
                 (example_world N.of_nat)).2)) = 3%nat.
Proof.
  refine (proj2 (proj2 (proj2 (proj2
    (CreateTempDir_three_files (-1) (-1) None (example_world N.of_nat)
       "/tmp/gsutil-test-testFoo-directory-00000000baaaaaaa"
       (example_world_wf N.of_nat) _)))) _).
  - vm_compute. reflexivity.
  - apply (bool_decide_unpack _). vm_compute. exact I.
Defined.

(** The claim C2 fails when the random source repeats itself: with a source
    that always delivers 7 the three files get the same name, each write
    replaces the file before it, and the directory ends up with one file,
    which holds ["test 2"]. *)
Lemma CreateTempDir_name_collision :
  let r := CreateTempDir (-1) (-1) (inl 3%Z) None (example_world (λ _, 7)) in
  let tmpdir := "/tmp/gsutil-test-testFoo-directory-00000007haaaaaaa" in
  r.1 = Return tmpdir ∧
  size (listing tmpdir (os r.2)) = 1%nat ∧
  map_to_list (listing tmpdir (os r.2)) =
    [(tmpdir +:+ "/gsutil-test-testFoo-file-00000007", test_bytes 2)].
Proof. cbv zeta. split; [by vm_compute|]. split; by vm_compute. Qed.

End DirFacts.

(** ** More on temporary names *)

Module NameMoreFacts.
Import TextFacts FmtFacts NameFacts GsUtilTestCase.

Lemma len_slice_to_min (n : nat) (s : string) :
  Text.len (Text.slice_to n s) = (n `min` Text.len s)%nat.
Proof.
  revert s. induction n as [|n IH]; intros [|c s]; cbn; try done.
  by rewrite IH.
Qed.

Lemma slice_to_app (n : nat) (a b : string) :
  (n ≤ Text.len a)%nat → Text.slice_to n (a +:+ b) = Text.slice_to n a.
Proof.
  revert a. induction n as [|n IH]; intros a Hn; [by destruct a, b|].
  destruct a as [|c a]; [cbn in Hn; lia|].
  change (String c a +:+ b) with (String c (a +:+ b)). cbn [Text.slice_to].
  rewrite IH; [done | cbn in Hn; lia].
Qed.

Lemma temp_name_shape (method kind prefix : string) (r : N) :
  temp_name method kind prefix r =
  (if String.eqb kind "bucket"
   then util.MakeBucketNameValid (name_stem method kind prefix)
   else name_stem method kind prefix) +:+ "-" +:+ Fmt.x08 r.
Proof. unfold temp_name. cbv zeta. apply name_shape, x08_lower. Qed.

Lemma temp_name_inj (method kind prefix : string) (r r' : N) :
  r < 256 ^ 4 → r' < 256 ^ 4 →
  temp_name method kind prefix r = temp_name method kind prefix r' → r = r'.
Proof.
  intros Hr Hr'. rewrite !temp_name_shape. intros H.
  do 2 apply (inj (String.app _)) in H. by apply x08_inj.
Qed.

(** [MakeRandomTestString] returns eight characters out of [0-9a-f], and
    returns the same ones again exactly when the random source delivers the
    same value again. *)
Theorem MakeRandomTestString_spec (w : World) :
  ∃ s, (MakeRandomTestString w).1 = Return s ∧
       Text.len s = 8%nat ∧ Text.all Fmt.is_lower_hex s = true ∧
       ∀ w', (MakeRandomTestString w').1 = Return s ↔ drawn w' = drawn w.
Proof.
  assert (∀ v, MakeRandomTestString v = (Return (Fmt.x08 (drawn v)), advance v))
    as Hrun.
  { intros v. unfold MakeRandomTestString, random.randrange, bind, ret.
    by change (256 ^ 4 =? 0) with false. }
  exists (Fmt.x08 (drawn w)). rewrite Hrun. split; [done|].
  split; [apply x08_len, drawn_bound|]. split; [apply x08_lower|].
  intros w'. rewrite Hrun. cbn [fst]. split.
  - intros [= H]. by apply x08_inj in H; [|apply drawn_bound..].
  - by intros ->.
Qed.

(** The length of a temporary name of a kind other than "bucket" (which
    coerces the name): the prefix, ["gsutil-test-"], the method, a hyphen
    and the kind, cut to 54 characters, and 9 characters more for the
    hyphen and the random suffix. *)
Theorem MakeTempName_length (kind prefix : string) (w : World) :
  kind ≠ "bucket" →
  ∃ name,
    (MakeTempName kind prefix w).1 = Return name ∧
    Text.len name =
      (54 `min` (Text.len prefix + 12 + Text.len (_testMethodName w) + 1
                 + Text.len kind) + 9)%nat.
Proof.
  intros Hk. rewrite MakeTempName_run. eexists. split; [reflexivity|].
  rewrite temp_name_shape, !len_app, (x08_len _ (drawn_bound w)).
  apply String.eqb_neq in Hk as ->.
  unfold name_stem. rewrite len_slice_to_min, !len_app. cbn [Text.len]. lia.
Qed.

Lemma MakeTempName_length_witness :
  ∃ name,
    (MakeTempName "file" "pre" (example_world N.of_nat)).1 = Return name ∧
    Text.len name =
      (54 `min` (Text.len "pre" + 12 +
                 Text.len (_testMethodName (example_world N.of_nat)) + 1
                 + Text.len "file") + 9)%nat.
Proof.
  apply (MakeTempName_length "file" "pre" (example_world N.of_nat)). done.
Defined.

(** A prefix of 54 characters or more takes all the room there is before
    the suffix: the method and the kind (other than "bucket", which
    coerces the name) leave no trace in the name. *)
Theorem MakeTempName_long_prefix (kind prefix : string) (w : World) :
  (54 ≤ Text.len prefix)%nat → kind ≠ "bucket" →
  (MakeTempName kind prefix w).1 =
  Return (Text.slice_to 54 prefix +:+ "-" +:+ Fmt.x08 (drawn w)).
Proof.
  intros Hp Hk. rewrite MakeTempName_run. cbn [fst]. f_equal.
  unfold temp_name, name_stem. cbv zeta.
  apply String.eqb_neq in Hk as ->. by rewrite slice_to_app.
Qed.

Lemma MakeTempName_long_prefix_witness :
  (MakeTempName "file" "a-prefix-that-is-as-long-as-the-room-for-the-stem-is--"
     (example_world N.of_nat)).1 =
  Return ("a-prefix-that-is-as-long-as-the-room-for-the-stem-is--" +:+ "-"
          +:+ "00000000").
Proof.
  apply (MakeTempName_long_prefix "file"
    "a-prefix-that-is-as-long-as-the-room-for-the-stem-is--"
    (example_world N.of_nat)); [vm_compute; lia | done].
Defined.

(** Two names made for the same method, kind and prefix are equal exactly
    when the two random values drawn are equal: names collide only where the
    random source does. *)
Theorem MakeTempName_collides_with_draw (kind prefix : string) (w w' : World) :
  _testMethodName w = _testMethodName w' →
  ((MakeTempName kind prefix w).1 = (MakeTempName kind prefix w').1
   ↔ drawn w = drawn w').
Proof.
  intros Hm. rewrite !MakeTempName_run. cbn [fst]. rewrite Hm. split.
  - intros [= H]. by apply temp_name_inj in H; [|apply drawn_bound..].
  - by intros ->.
Qed.

Lemma MakeTempName_collides_with_draw_witness :
  (MakeTempName "bucket" "P_" (example_world (λ _, 7))).1 =
  (MakeTempName "bucket" "P_" (example_world (λ _, 256 ^ 4 + 7))).1
  ↔ drawn (example_world (λ _, 7)) = drawn (example_world (λ _, 256 ^ 4 + 7)).
Proof.
  apply (MakeTempName_collides_with_draw "bucket" "P_"
    (example_world (λ _, 7)) (example_world (λ _, 256 ^ 4 + 7))).
  reflexivity.
Defined.

End NameMoreFacts.

(** ** Counting lines *)

Module LineFacts.
Import TextFacts LineAssertions.

Lemma count_app (c : ascii) (a b : string) :
  count c (a +:+ b) = (count c a + count c b)%nat.
Proof.
  induction a as [|x a IH]; [done|].
  change (String x a +:+ b) with (String x (a +:+ b)). cbn [count].
  rewrite IH. lia.
Qed.

Lemma assertEqual_spec (a b : Z) :
  (assertEqual a b = Return () ↔ a = b) ∧
  (a ≠ b → ∃ m, assertEqual a b = Raise (failureException m)).
Proof.
  unfold assertEqual. destruct (Z.eqb_spec a b) as [->|Hne].
  - split; [done|]. by intros [].
  - split; [split; [done | by intros ->]|]. intros _. by eexists.
Qed.

(** [assertNumLines] passes exactly when the text holds [numlines] newline
    characters, whatever follows the last of them, and fails with the test
    failure exception otherwise; a negative [numlines] never passes. Where
    it passes on two texts it passes on the two joined, with the counts
    added. *)
Theorem assertNumLines_spec (text text' : string) (numlines numlines' : Z) :
  (assertNumLines text numlines = Return ()
   ↔ Z.of_nat (count "010" text) = numlines) ∧
  (Z.of_nat (count "010" text) ≠ numlines →
   ∃ m, assertNumLines text numlines = Raise (failureException m)) ∧
  ((numlines < 0)%Z → assertNumLines text numlines ≠ Return ()) ∧
  (assertNumLines text numlines = Return () →
   assertNumLines text' numlines' = Return () →
   assertNumLines (text +:+ text') (numlines + numlines') = Return ()).
Proof.
  unfold assertNumLines.
  split; [apply assertEqual_spec|]. split; [apply assertEqual_spec|]. split.
  - intros Hn H. apply assertEqual_spec in H. lia.
  - intros H H'. apply assertEqual_spec in H, H'. apply assertEqual_spec.
    rewrite count_app. lia.
Qed.

End LineFacts.

(** ** More on the decorators *)

Module DecoratorMoreFacts.
Import Decorators.



End DecoratorMoreFacts.

(** ** More on the regular-expression assertion *)

Module AssertMoreFacts.
Import TextFacts AssertFacts Assertions.

(** An empty [msg] counts as none, and the message of a failure starts
    with [msg], or with ["Regex didn't match"] when [msg] is empty or
    missing, then a colon and a blank: for every engine, the assertion
    ends as [re.compile] does when that raises, returns when the search
    finds a match, and otherwise raises the failure exception with such a
    message. *)
Theorem assert_message_head (E : Engine) (text : string)
    (pattern : PatternArg E) (msg : option string) (flags : Z) :
  let result := assertRegexpMatchesWithFlags text pattern msg flags in
  assertRegexpMatchesWithFlags text pattern (Some "") flags =
    assertRegexpMatchesWithFlags text pattern None flags ∧
  match compile (pattern_source pattern) (pattern_flags pattern flags) with
  | Return p =>
      if search p text then result = Return ()
      else ∃ m, result = Raise (failureException m) ∧
             Text.startswith (message_head msg +:+ ": ") m = true
  | Raise e => result = Raise e
  end.
Proof.
  cbv zeta. split; [by rewrite !assert_compiles|].
  rewrite assert_compiles.
  destruct (compile _ _) as [p|e]; [|done].
  destruct (search p text); [done|].
  eexists. split; [reflexivity|].
  unfold Text.startswith, message_head. rewrite <- app_assoc.
  apply prefix_app.
Qed.

End AssertMoreFacts.

(** ** What teardown leaves of the file tree *)

Module TearDownMoreFacts.
Import TextFacts PathFacts TearDownFacts GsUtilTestCase.

Lemma remove_tree_dirs (p k : string) (s : OsState) :
  k ∈ dirs (OS.remove_tree p s) ↔ k ∈ dirs s ∧ os_path.within p k = false.
Proof.
  unfold OS.remove_tree. cbn [dirs OS.with_dirs]. rewrite elem_of_filter.
  destruct (os_path.within p k); cbn; intuition congruence.
Qed.

Lemma remove_tree_files (p k : string) (s : OsState) :
  files (OS.remove_tree p s) !! k =
  if os_path.within p k then None else files s !! k.
Proof.
  unfold OS.remove_tree. cbn [files OS.with_dirs OS.with_files].
  destruct (os_path.within p k) eqn:E.
  - apply map_lookup_filter_None. right. intros x _. cbn. rewrite E.
    intros H. by apply H.
  - destruct (files s !! k) as [f|] eqn:F.
    + apply map_lookup_filter_Some. split; [done|]. cbn. rewrite E.
      intros H. exact H.
    + apply map_lookup_filter_None. by left.
Qed.

Lemma rmtree_state (d : string) (s : OsState) :
  (OS.rmtree d true s).2 =
  if bool_decide (d ∈ dirs s)
  then OS.remove_tree d (OS.enter (sys_rmtree d) s)
  else OS.enter (sys_rmtree d) s.
Proof.
  unfold OS.rmtree, OS.isdir. cbv zeta. cbn [dirs OS.enter].
  destruct (bool_decide (d ∈ dirs s)); [done|].
  by destruct (OS.isfile _ _).
Qed.

Lemma rmtree_dirs (d k : string) (s : OsState) :
  k ∈ dirs (OS.rmtree d true s).2 ↔
  k ∈ dirs s ∧ (d ∈ dirs s → os_path.within d k = false).
Proof.
  rewrite rmtree_state. case_bool_decide as Hd.
  - rewrite remove_tree_dirs. cbn [dirs OS.enter]. tauto.
  - cbn [dirs OS.enter]. tauto.
Qed.

Lemma rmtree_files (d k : string) (s : OsState) :
  files (OS.rmtree d true s).2 !! k =
  if bool_decide (d ∈ dirs s) && os_path.within d k then None
  else files s !! k.
Proof.
  rewrite rmtree_state. case_bool_decide as Hd; cbn [andb].
  - by rewrite remove_tree_files.
  - done.
Qed.

Lemma swept_cons (d : string) (l : list string) (s : OsState) :
  swept (d :: l) s = (OS.rmtree d true (swept l s)).2.
Proof. done. Qed.

(** Sweeping only removes. *)
Lemma swept_dirs_subseteq (l : list string) (s : OsState) :
  dirs (swept l s) ⊆ dirs s.
Proof.
  induction l as [|d l IH]; [done|]. rewrite swept_cons.
  intros k [Hk _]%rmtree_dirs. by apply IH.
Qed.

Lemma swept_files_subseteq (l : list string) (s : OsState) :
  files (swept l s) ⊆ files s.
Proof.
  induction l as [|d l IH]; [done|]. rewrite swept_cons.
  etrans; [|exact IH]. apply map_subseteq_spec. intros k f.
  rewrite rmtree_files. by destruct (_ && _).
Qed.

Lemma swept_frame (l : list string) (s : OsState) (k : string) :
  Forall (λ d, os_path.within d k = false) l →
  files (swept l s) !! k = files s !! k ∧
  (k ∈ dirs (swept l s) ↔ k ∈ dirs s).
Proof.
  induction 1 as [|d l Hd Hl IH]; [done|]. rewrite swept_cons.
  rewrite rmtree_files, rmtree_dirs, Hd, andb_false_r.
  destruct IH as [-> ->]. tauto.
Qed.

(** [tearDown] only removes: every directory and every file there is
    after it was there before, the files with the same contents and
    attributes. *)
Theorem tearDown_only_removes (w : World) :
  let s' := os (tearDown w).2 in
  dirs s' ⊆ dirs (os w) ∧ files s' ⊆ files (os w).
Proof.
  rewrite tearDown_run. cbn [snd os with_os]. split.
  - apply swept_dirs_subseteq.
  - apply swept_files_subseteq.
Qed.



End TearDownMoreFacts.

(** ** What a test case keeps of itself *)

Module WorldFacts.
Import MonadFacts GsUtilTestCase.

Lemma through_run (R : World → World → Prop) {A} (m : M A) (w w' : World)
    (o : Outcome A) :
  through R m → m w = (o, w') → R w w'.
Proof. intros H E. specialize (H w). by rewrite E in H. Qed.

Section Relation.

Context (R : World → World → Prop).
Hypothesis R_refl : ∀ w, R w w.
Hypothesis R_trans : ∀ w1 w2 w3, R w1 w2 → R w2 w3 → R w1 w3.
Hypothesis R_os : ∀ s w, R w (with_os s w).
Hypothesis R_draw : ∀ w, R w (advance w).

Lemma through_ret {A} (a : A) : through R (ret a).
Proof. intros w. apply R_refl. Qed.

Lemma through_raise {A} (e : Exn) : through R (@raise A e).
Proof. intros w. apply R_refl. Qed.

Lemma through_lift {A} (o : Outcome A) : through R (lift o).
Proof. intros w. apply R_refl. Qed.

Lemma through_read {A} (g : World → A) : through R (λ w, (Return (g w), w)).
Proof. intros w. apply R_refl. Qed.

Lemma through_bind {A B} (m : M A) (k : A → M B) :
  through R m → (∀ a, through R (k a)) → through R (bind m k).
Proof.
  intros Hm Hk w. specialize (Hm w). unfold bind.
  destruct (m w) as [[a|e] w1]; cbn [snd] in *; [|done].
  eapply R_trans; [exact Hm | apply Hk].
Qed.

Lemma through_sys {A} (f : OsState → Outcome A * OsState) :
  through R (sys f).
Proof. intros w. apply R_os. Qed.

Lemma through_randrange (n : N) : through R (random.randrange n).
Proof.
  intros w. unfold random.randrange.
  destruct (n =? 0); [apply R_refl | apply R_draw].
Qed.

Lemma through_MakeTempName (kind prefix : string) :
  through R (MakeTempName kind prefix).
Proof. intros w. rewrite NameFacts.MakeTempName_run. apply R_draw. Qed.

Lemma through_times {A} (n : nat) (f : M A) :
  through R f → through R (times n f).
Proof.
  intros Hf. induction n as [|n IH]; [apply through_ret|].
  cbn [times]. apply through_bind; [done|]. intros a.
  apply through_bind; [done|]. intros l. apply through_ret.
Qed.

Lemma through_for_enumerate {A} (i : nat) (l : list A)
    (body : nat → A → M unit) :
  (∀ i a, through R (body i a)) → through R (for_enumerate i l body).
Proof.
  intros Hb. revert i. induction l as [|a l IH]; intros i;
    [apply through_ret|].
  cbn [for_enumerate]. apply through_bind; [apply Hb|]. intros _. apply IH.
Qed.

Lemma through_mkdtemp_from (n : nat) (prefix : string) :
  through R (tempfile.mkdtemp_from n prefix).
Proof.
  induction n as [|n IH]; [apply through_raise|].
  cbn [tempfile.mkdtemp_from].
  apply through_bind; [apply through_randrange|]. intros r.
  apply through_bind; [apply through_read|]. intros dir. cbv zeta.
  intros w. unfold sys at 1. cbv zeta.
  destruct (OS.mkdir _ (os w)) as [[u|e] s1]; cbn [fst snd] in *;
    [apply R_os|].
  destruct e as [| | | |[]| | |]; try apply R_os.
  eapply R_trans; [apply (R_os s1)|]. apply (IH (with_os s1 w)).
Qed.

(** The loop of [CreateTempDir] and what comes before it, once the
    directory is tracked. *)
Lemma through_files_loop
    (file : string → Contents → FileName → M string) (tmpdir : string)
    (l : list FileName) (contents : option Contents) :
  (∀ c n, through R (file tmpdir c n)) →
  through R
    (for_enumerate 0 l (λ i name,
       bind (match contents with
             | Some c => ret c
             | None => bind (lift (Py.encode_ascii ("test " +:+ Fmt.d i)))
                         (λ b, ret (Bytes b))
             end)
         (λ contents_file,
            bind (file tmpdir contents_file name) (λ _, ret ())))).
Proof.
  intros Hf. apply through_for_enumerate. intros i name.
  apply through_bind.
  { destruct contents; [apply through_ret|].
    apply through_bind; [apply through_lift | intros; apply through_ret]. }
  intros c. apply through_bind; [apply Hf | intros; apply through_ret].
Qed.

Lemma through_test_files (test_files : Z + list FileName) :
  through R
    (match test_files with
     | inr l => ret l
     | inl n =>
         bind (times (Z.to_nat n) (MakeTempName "file" ""))
           (λ names, ret (List.map Name names))
     end).
Proof.
  destruct test_files as [n|l]; [|apply through_ret].
  apply through_bind; [apply through_times, through_MakeTempName|].
  intros names. apply through_ret.
Qed.

Lemma through_target (tmpdir : option string) (contents : option Contents)
    (file_name : option FileName) :
  through R (CreateTempFile_tmpdir tmpdir) →
  through R (CreateTempFile_target tmpdir contents file_name).
Proof.
  intros Hd. unfold CreateTempFile_target.
  apply through_bind; [exact Hd|].
  intros d. apply through_bind.
  { destruct file_name as [n|]; [destruct (falsy _)|];
      try apply through_ret;
      (apply through_bind; [apply through_MakeTempName
                           | intros; apply through_ret]). }
  intros n. cbv zeta.
  apply through_bind; [apply through_read|]. intros b.
  apply through_bind.
  { destruct b; cbn [negb]; [apply through_ret | apply through_sys]. }
  intros _. apply through_bind; [|intros; apply through_ret].
  destruct contents; [apply through_ret|].
  apply through_bind; [apply through_MakeTempName
                      | intros; apply through_ret].
Qed.

Lemma through_times_step (fpath : string) (mtime : option Z) :
  through R (CreateTempFile_times fpath mtime).
Proof. destruct mtime; [apply through_sys | apply through_ret]. Qed.

Lemma through_perms (NA_ID NA_MODE : Z) (fpath : string)
    (mode uid gid : PyVal) :
  through R (CreateTempFile_perms NA_ID NA_MODE fpath mode uid gid).
Proof.
  unfold CreateTempFile_perms.
  apply through_bind.
  { destruct (Py.ne_int uid NA_ID); [apply through_ret|].
    apply through_bind; [apply through_lift|].
    intros. apply through_ret. }
  intros b. apply through_bind.
  { destruct b; [|apply through_ret].
    apply through_bind; [apply through_lift|].
    intros g. apply through_bind; [apply through_lift|].
    intros u. apply through_sys. }
  intros _. apply through_bind; [apply through_lift|].
  intros m. apply through_bind.
  { destruct (negb (m =? NA_MODE)%Z); [|apply through_ret].
    apply through_bind; [apply through_lift|].
    intros m8. apply through_sys. }
  intros _. apply through_ret.
Qed.

Lemma through_CreateTempFile (NA_ID NA_MODE : Z)
    (tmpdir : option string) (contents : option Contents)
    (file_name : option FileName) (mtime : option Z)
    (mode uid gid : PyVal) :
  through R (CreateTempFile_tmpdir tmpdir) →
  through R (CreateTempFile NA_ID NA_MODE tmpdir contents file_name mtime
               mode uid gid).
Proof.
  intros Hd w. rewrite FileFacts.CreateTempFile_split. revert w.
  apply through_bind; [by apply through_target|]. intros t.
  apply through_bind; [apply through_sys|]. intros _.
  apply through_bind; [apply through_times_step|]. intros _.
  apply through_perms.
Qed.

Hypothesis R_track : ∀ d w, R w (with_tempdirs (tempdirs w ++ [d]) w).

Lemma through_tempdirs_append (d : string) : through R (tempdirs_append d).
Proof. intros w. apply R_track. Qed.

Lemma through_CreateTempDir_with
    (file : string → Contents → FileName → M string)
    (test_files : Z + list FileName) (contents : option Contents) :
  (∀ d c n, through R (file d c n)) →
  through R (CreateTempDir_with file test_files contents).
Proof.
  intros Hf. unfold CreateTempDir_with.
  apply through_bind; [apply through_MakeTempName|]. intros prefix.
  apply through_bind; [apply through_mkdtemp_from|]. intros tmpdir.
  apply through_bind; [apply through_tempdirs_append|]. intros _.
  apply through_bind; [apply through_test_files|].
  intros l. apply through_bind; [|intros; apply through_ret].
  apply through_files_loop. intros c n. apply Hf.
Qed.

Lemma through_tmpdir (tmpdir : option string) :
  through R (CreateTempFile_tmpdir tmpdir).
Proof.
  assert (through R CreateTempDir_empty) as H.
  { apply through_CreateTempDir_with. intros. apply through_raise. }
  destruct tmpdir as [d|]; [|done]. cbn.
  destruct (String.eqb d ""); [done | apply through_ret].
Qed.

End Relation.

Lemma self_kept_refl (w : World) : self_kept w w.
Proof. by repeat split. Qed.

Lemma self_kept_trans (w1 w2 w3 : World) :
  self_kept w1 w2 → self_kept w2 w3 → self_kept w1 w3.
Proof.
  intros (Hm & He & Hd & Ht) (Hm' & He' & Hd' & Ht').
  split; [congruence|]. split; [congruence|]. split; [lia|].
  by etrans.
Qed.

Lemma tracked_same_refl (w : World) : tracked_same w w.
Proof. by repeat split. Qed.

Lemma tracked_same_trans (w1 w2 w3 : World) :
  tracked_same w1 w2 → tracked_same w2 w3 → tracked_same w1 w3.
Proof.
  intros (Hm & He & Hd & Ht) (Hm' & He' & Hd' & Ht').
  split; [congruence|]. split; [congruence|]. split; [lia|congruence].
Qed.

Lemma tracked_same_self (w w' : World) : tracked_same w w' → self_kept w w'.
Proof. intros (Hm & He & Hd & Ht). repeat split; try done. by rewrite Ht. Qed.

(** With a directory given [CreateTempFile] tracks nothing. *)
Lemma tracked_same_given (NA_ID NA_MODE : Z) (d : string)
    (contents : option Contents) (file_name : option FileName)
    (mtime : option Z) (mode uid gid : PyVal) :
  d ≠ "" →
  through tracked_same
    (CreateTempFile NA_ID NA_MODE (Some d) contents file_name mtime
       mode uid gid).
Proof.
  intros Hd. apply through_CreateTempFile;
    try first [exact tracked_same_refl | exact tracked_same_trans].
  - intros s w. by repeat split.
  - intros w. repeat split; try done. cbn. lia.
  - cbn. apply String.eqb_neq in Hd as ->. intros w. apply tracked_same_refl.
Qed.

Lemma self_kept_CreateTempFile (NA_ID NA_MODE : Z)
    (tmpdir : option string) (contents : option Contents)
    (file_name : option FileName) (mtime : option Z)
    (mode uid gid : PyVal) :
  through self_kept
    (CreateTempFile NA_ID NA_MODE tmpdir contents file_name mtime
       mode uid gid).
Proof.
  assert (∀ s w, self_kept w (with_os s w)) as Hos by by repeat split.
  assert (∀ w, self_kept w (advance w)) as Hdraw.
  { intros w. repeat split; try done. cbn. lia. }
  apply through_CreateTempFile;
    try first [exact self_kept_refl | exact self_kept_trans | done].
  apply through_tmpdir;
    try first [exact self_kept_refl | exact self_kept_trans | done].
  intros d w. repeat split; try done. cbn. by apply prefix_app_r.
Qed.

(** Whatever becomes of a call, [CreateTempFile] and [CreateTempDir] leave
    the test method and the random source as they are, never rewind the
    random source, and never drop or reorder a tracked directory: the list
    only grows at its end. *)
Theorem CreateTemp_keeps_self (NA_ID NA_MODE : Z)
    (tmpdir : option string) (contents : option Contents)
    (file_name : option FileName) (mtime : option Z)
    (mode uid gid : PyVal) (test_files : Z + list FileName) (w : World) :
  self_kept w
    (CreateTempFile NA_ID NA_MODE tmpdir contents file_name mtime
       mode uid gid w).2 ∧
  self_kept w (CreateTempDir NA_ID NA_MODE test_files contents w).2.
Proof.
  split; [apply self_kept_CreateTempFile|].
  revert w. unfold CreateTempDir.
  apply (through_CreateTempDir_with self_kept);
    try first [exact self_kept_refl | exact self_kept_trans].
  - intros s w0. by repeat split.
  - intros w0. repeat split; try done. cbn. lia.
  - intros d w0. repeat split; try done. cbn. by apply prefix_app_r.
  - intros d c n. apply self_kept_CreateTempFile.
Qed.

End WorldFacts.

(** ** More on temporary files *)

Module FileMoreFacts.
Import MonadFacts TextFacts PathFacts GsUtilTestCase.

Lemma others_kept_refl (p : string) (s : OsState) : others_kept p s s.
Proof. by split. Qed.

Lemma others_kept_trans (p : string) (s1 s2 s3 : OsState) :
  others_kept p s1 s2 → others_kept p s2 s3 → others_kept p s1 s3.
Proof.
  intros [Hd Hf] [Hd' Hf']. split; [congruence|].
  intros k Hk. by rewrite Hf', Hf.
Qed.

Lemma change_others_kept (p : string) ok upd (s : OsState) :
  others_kept p s (OS.change p ok upd s).2.
Proof.
  unfold OS.change. destruct (files s !! p); [|done].
  destruct (_ && _); [|done]. split; [done|].
  intros k Hk. cbn. by rewrite lookup_insert_ne.
Qed.

Lemma utime_others_kept (p : string) (a m : Z) (s : OsState) :
  others_kept p s (OS.utime p a m s).2.
Proof.
  destruct (OSFacts.utime_cases p a m s) as [-> | ->]; [|done].
  exact (change_others_kept p _ _ (OS.enter (sys_utime p a m) s)).
Qed.

Lemma chown_others_kept (p : string) (u g : Z) (s : OsState) :
  others_kept p s (OS.chown p u g s).2.
Proof.
  destruct (OSFacts.chown_cases p u g s) as [-> | [o ->]]; [|done].
  exact (change_others_kept p _ _ (OS.enter (sys_chown p u g) s)).
Qed.

Lemma chmod_others_kept (p : string) (m : Z) (s : OsState) :
  others_kept p s (OS.chmod p m s).2.
Proof.
  destruct (OSFacts.chmod_cases p m s) as [-> | ->]; [|done].
  exact (change_others_kept p _ _ (OS.enter (sys_chmod p m) s)).
Qed.

Lemma dirs_grow_refl (s : OsState) : dirs_grow s s.
Proof. unfold dirs_grow. reflexivity. Qed.

Lemma dirs_grow_trans (s1 s2 s3 : OsState) :
  dirs_grow s1 s2 → dirs_grow s2 s3 → dirs_grow s1 s3.
Proof. unfold dirs_grow. intros. by etrans. Qed.

Lemma mkdir_dirs_grow (p : string) (s : OsState) :
  dirs_grow s (OS.mkdir p s).2.
Proof.
  unfold dirs_grow. pose proof (DirFacts.mkdir_cases p s) as [_ H].
  destruct (OS.mkdir p s).1.
  - destruct H as (_ & _ & _ & ->). apply union_subseteq_r.
  - by rewrite H.
Qed.

(** What follows the writing, for a relation that the calls on the path
    respect. *)
Section After.

Context (R : OsState → OsState → Prop) (fpath : string).
Hypothesis R_refl : ∀ s, R s s.
Hypothesis R_trans : ∀ s1 s2 s3, R s1 s2 → R s2 s3 → R s1 s3.
Hypothesis R_utime : ∀ a m s, R s (OS.utime fpath a m s).2.
Hypothesis R_chown : ∀ u g s, R s (OS.chown fpath u g s).2.
Hypothesis R_chmod : ∀ m s, R s (OS.chmod fpath m s).2.

Lemma along_times_step (mtime : option Z) :
  along R (CreateTempFile_times fpath mtime).
Proof.
  destruct mtime as [t|]; [|by apply AlongFacts.along_ret].
  apply AlongFacts.along_sys. intros s. apply R_utime.
Qed.

Lemma along_perms_step (NA_ID NA_MODE : Z) (mode uid gid : PyVal) :
  along R (CreateTempFile_perms NA_ID NA_MODE fpath mode uid gid).
Proof.
  unfold CreateTempFile_perms.
  apply AlongFacts.along_bind; [done| |].
  { destruct (Py.ne_int uid NA_ID); [by apply AlongFacts.along_ret|].
    apply AlongFacts.along_bind; [done|by apply AlongFacts.along_lift|].
    intros. by apply AlongFacts.along_ret. }
  intros b. apply AlongFacts.along_bind; [done| |].
  { destruct b; [|by apply AlongFacts.along_ret].
    apply AlongFacts.along_bind; [done|by apply AlongFacts.along_lift|].
    intros g. apply AlongFacts.along_bind; [done|by apply AlongFacts.along_lift|].
    intros u. apply AlongFacts.along_sys. intros s0. apply R_chown. }
  intros _. apply AlongFacts.along_bind; [done|by apply AlongFacts.along_lift|].
  intros m. apply AlongFacts.along_bind; [done| |].
  { destruct (negb (m =? NA_MODE)%Z); [|by apply AlongFacts.along_ret].
    apply AlongFacts.along_bind; [done|by apply AlongFacts.along_lift|].
    intros m8. apply AlongFacts.along_sys. intros s0. apply R_chmod. }
  intros _. by apply AlongFacts.along_ret.
Qed.

End After.

Lemma open_parent (p : string) (d : list byte) (s s' : OsState) :
  OS.open_wb_write p d s = (Return (), s') →
  (p ∉ dirs s) ∧ (os_path.dirname p = "" ∨ os_path.dirname p ∈ dirs s).
Proof.
  unfold OS.open_wb_write. cbv zeta.
  destruct (String.eqb p ""); [done|].
  destruct (Text.endswith "/" p); [by destruct (OS.parent_check _ _)|].
  unfold OS.isdir at 1.
  cbn [dirs OS.enter]. case_bool_decide as Hd; [done|].
  unfold OS.parent_check. cbv zeta.
  destruct (String.eqb _ "" || OS.isdir _ _) eqn:E;
    [|by destruct (OS.isfile _ _)].
  intros _. split; [done|]. apply orb_true_iff in E as [E|E].
  - left. by apply String.eqb_eq.
  - right. unfold OS.isdir in E. by apply bool_decide_eq_true in E.
Qed.

Lemma target_dirs_grow (tmpdir : option string) (contents : option Contents)
    (file_name : option FileName) :
  along dirs_grow (CreateTempFile_target tmpdir contents file_name).
Proof.
  apply AlongFacts.along_target.
  - apply dirs_grow_refl.
  - apply dirs_grow_trans.
  - apply mkdir_dirs_grow.
  - apply DirFacts.makedirs_dirs.
Qed.

(** The file tree once the file is written. *)
Lemma written_state (tmpdir : option string) (contents : option Contents)
    (file_name : option FileName) (w w1 : World) (fpath : string)
    (data : list byte) (s2 : OsState) :
  CreateTempFile_target tmpdir contents file_name w
    = (Return (fpath, data), w1) →
  OS.open_wb_write fpath data (os w1) = (Return (), s2) →
  (∃ f, files s2 !! fpath = Some f ∧ st_data f = data ∧
        (st_uid f, st_gid f, st_mode f) = owner_as_written fpath (os w)) ∧
  dirs (os w) ⊆ dirs s2 ∧
  (∀ k, k ≠ fpath → files s2 !! k = files (os w) !! k) ∧
  (fpath ∉ dirs s2) ∧
  (os_path.dirname fpath = "" ∨ os_path.dirname fpath ∈ dirs s2).
Proof.
  intros E1 E2.
  pose proof (FileFacts.target_files_kept tmpdir contents file_name w) as Hk.
  rewrite E1 in Hk. cbn [snd] in Hk. destruct Hk as (Hf & Hu & Hg & Hm & _).
  pose proof (target_dirs_grow tmpdir contents file_name w) as Hd.
  rewrite E1 in Hd. cbn [snd] in Hd.
  pose proof (open_parent _ _ _ _ E2) as [Hnd Hp].
  apply OSFacts.open_return in E2 as (Hf2 & Hd2 & _).
  split.
  - eexists. split; [rewrite Hf2; apply lookup_insert_eq|].
    split; [apply OSFacts.written_data|].
    rewrite FileFacts.written_owner. unfold owner_as_written. cbn.
    by rewrite Hf, Hu, Hg, Hm.
  - rewrite Hd2. split; [done|]. split; [|done].
    intros k Hk. rewrite Hf2, lookup_insert_ne by done. by rewrite Hf.
Qed.

Lemma times_data_kept (p : string) (mtime : option Z) (d : list byte)
    (w : World) :
  (∃ f, files (os w) !! p = Some f ∧ st_data f = d) →
  ∃ f, files (os (CreateTempFile_times p mtime w).2) !! p = Some f ∧
       st_data f = d.
Proof.
  intros H. destruct mtime as [t|]; [|done].
  cbn. by apply (OSFacts.utime_keeps (λ f, st_data f = d) p t t (os w)).
Qed.

Lemma self_kept_os (s : OsState) (w : World) : self_kept w (with_os s w).
Proof. by repeat split. Qed.

Lemma self_kept_draw (w : World) : self_kept w (advance w).
Proof. repeat split; try done. cbn. lia. Qed.

Lemma self_kept_track (d : string) (w : World) :
  self_kept w (with_tempdirs (tempdirs w ++ [d]) w).
Proof. repeat split; try done. cbn. by apply prefix_app_r. Qed.

(** The bytes the first part of [CreateTempFile] hands on. *)
Lemma target_data (tmpdir : option string) (contents : option Contents)
    (file_name : option FileName) (w w1 : World) (fpath : string)
    (data : list byte) :
  CreateTempFile_target tmpdir contents file_name w
    = (Return (fpath, data), w1) →
  match contents with
  | Some c => data = to_bytes c
  | None =>
      ∃ k, (draws w ≤ k < draws w1)%nat ∧
        data = Py.ensure_binary
                 (temp_name (_testMethodName w) "contents" "" (draw_at w k))
  end.
Proof.
  intros E. unfold CreateTempFile_target in E.
  apply bind_return in E as (d & wa & Ea & E).
  apply bind_return in E as (n & wb & Eb & E). cbv zeta in E.
  apply bind_return in E as (b & wc & Ec & E).
  apply bind_return in E as (u & wd & Ed & E).
  apply bind_return in E as (c & we & Ee & E).
  injection E as _ <- <-.
  destruct contents as [c0|].
  { by injection Ee as <- _. }
  apply bind_return in Ee as (nm & wf & Ef & Ee).
  injection Ee as <- <-.
  rewrite NameFacts.MakeTempName_run in Ef. injection Ef as <- <-.
  assert (self_kept w wd) as (Hm & He & Hdr & _).
  { apply WorldFacts.self_kept_trans with wa.
    { apply (WorldFacts.through_run self_kept (CreateTempFile_tmpdir tmpdir)
               w wa (Return d)); [|exact Ea].
      apply WorldFacts.through_tmpdir;
        [exact WorldFacts.self_kept_refl | exact WorldFacts.self_kept_trans
        | exact self_kept_os | exact self_kept_draw | exact self_kept_track]. }
    apply WorldFacts.self_kept_trans with wb.
    { eapply WorldFacts.through_run; [|exact Eb].
      destruct file_name as [n0|]; [destruct (falsy _)|];
        try (apply WorldFacts.through_ret; exact WorldFacts.self_kept_refl);
        (apply WorldFacts.through_bind;
         [exact WorldFacts.self_kept_trans
         |apply WorldFacts.through_MakeTempName; exact self_kept_draw
         |intros; apply WorldFacts.through_ret;
          exact WorldFacts.self_kept_refl]). }
    apply WorldFacts.self_kept_trans with wc.
    { injection Ec as _ <-. apply WorldFacts.self_kept_refl. }
    eapply WorldFacts.through_run; [|exact Ed].
    destruct b; cbn [negb];
      [apply WorldFacts.through_ret; exact WorldFacts.self_kept_refl
      |apply WorldFacts.through_sys; exact self_kept_os]. }
  exists (draws wd). split; [cbn; lia|].
  unfold drawn, draw_at. by rewrite Hm, He.
Qed.

Section Sentinels.

Variables NA_ID NA_MODE : Z.

(** The file the second part of a call leaves, when the call returns. *)
Lemma perms_result (fpath : string) (mode uid gid : PyVal) (w w' : World)
    (a : string) (u0 g0 m0 : Z) :
  file_owned fpath u0 g0 m0 (os w) →
  CreateTempFile_perms NA_ID NA_MODE fpath mode uid gid w = (Return a, w') →
  ∃ f, files (os w') !! fpath = Some f ∧
    (owner_requested NA_ID uid gid →
     ∃ u g, Py.as_id uid = Return u ∧ Py.int gid = Return g ∧
       OS.is_id u = true ∧ OS.is_id g = true ∧
       st_uid f = (if OS.keeps_id u then u0 else u) ∧
       st_gid f = (if OS.keeps_id g then g0 else g)) ∧
    (¬ owner_requested NA_ID uid gid → st_uid f = u0 ∧ st_gid f = g0) ∧
    (mode_requested NA_MODE mode →
     ∃ m8, Py.int8 mode = Return m8 ∧ OS.is_int m8 = true ∧
       st_mode f = Z.land m8 511) ∧
    (¬ mode_requested NA_MODE mode → st_mode f = m0).
Proof.
  intros (f0 & Hf0 & Hu0 & Hg0 & Hm0) E. unfold CreateTempFile_perms in E.
  apply bind_return in E as (b & wa & Ea & E).
  apply bind_return in E as ([] & wb & Eb & E).
  apply bind_return in E as (m & wc & Ec & E).
  apply bind_return in E as ([] & wd & Ed & E).
  injection E as _ <-. injection Ec as Hm <-.
  assert (wa = w ∧ (b = true ↔ owner_requested NA_ID uid gid)) as [-> Hb].
  { unfold owner_requested. destruct (Py.ne_int uid NA_ID) eqn:En.
    - injection Ea as <- <-. split; [done|]. split; auto.
    - apply bind_return in Ea as (g & wg & Eg & Ea).
      injection Eg as Hg <-. injection Ea as <- <-.
      split; [done|]. rewrite negb_true_iff, Z.eqb_neq. split.
      + intros. right. by exists g.
      + intros [?|(g' & Hg' & Hne)]; [done|]. congruence. }
  assert (∃ f1, files (os wb) !! fpath = Some f1 ∧ st_mode f1 = m0 ∧
    (owner_requested NA_ID uid gid →
     ∃ u g, Py.as_id uid = Return u ∧ Py.int gid = Return g ∧
       OS.is_id u = true ∧ OS.is_id g = true ∧
       st_uid f1 = (if OS.keeps_id u then u0 else u) ∧
       st_gid f1 = (if OS.keeps_id g then g0 else g)) ∧
    (¬ owner_requested NA_ID uid gid → st_uid f1 = u0 ∧ st_gid f1 = g0))
    as (f1 & Hf1 & Hm1 & Hown & Hnown).
  { destruct b.
    - apply bind_return in Eb as (g & w1 & Eg & Eb). injection Eg as Hg <-.
      apply bind_return in Eb as (u & w2 & Eu & Eb). injection Eu as Hu <-.
      unfold sys in Eb. cbv zeta in Eb.
      destruct (OS.chown fpath u g (os w)) as [[[]|e] s'] eqn:Ech; [|done].
      injection Eb as <-.
      apply OSFacts.chown_return in Ech as (Hiu & Hig & f & Hf & Hs').
      rewrite Hf0 in Hf. injection Hf as <-.
      eexists. cbn [os with_os]. rewrite Hs'.
      split; [apply lookup_insert_eq|]. cbn. split; [done|]. split.
      + intros _. exists u, g. by rewrite Hu0, Hg0.
      + intros Hn. destruct Hn. by apply Hb.
    - injection Eb as <-. exists f0. split; [done|]. split; [done|]. split.
      + intros Ho. apply Hb in Ho. done.
      + done. }
  destruct (m =? NA_MODE)%Z eqn:Emode; cbn [negb] in Ed.
  - injection Ed as <-. exists f1. split; [done|]. split; [done|].
    split; [done|]. split; [|by intros _; congruence].
    intros (m' & Hm' & Hne). apply Z.eqb_eq in Emode. congruence.
  - apply bind_return in Ed as (m8 & w8 & E8 & Ed). injection E8 as H8 <-.
    unfold sys in Ed. cbv zeta in Ed.
    destruct (OS.chmod fpath m8 (os wb)) as [[[]|e] s'] eqn:Ech; [|done].
    injection Ed as <-.
    apply OSFacts.chmod_return in Ech as (Him & f & Hf & Hs').
    rewrite Hf1 in Hf. injection Hf as <-.
    eexists. cbn [os with_os]. rewrite Hs'.
    split; [apply lookup_insert_eq|]. cbn.
    split; [done|]. split; [done|]. split; [intros _; by exists m8|].
    intros Hn. destruct Hn. exists m. split; [done|]. by apply Z.eqb_neq.
Qed.

(** The file of a call that returns, with the owner, group and mode it was
    written with, and what the second part made of them. *)
Lemma CreateTempFile_attributes
    (tmpdir : option string) (contents : option Contents)
    (file_name : option FileName) (mtime : option Z) (mode uid gid : PyVal)
    (w : World) (fpath : string) :
  let r := CreateTempFile NA_ID NA_MODE tmpdir contents file_name mtime
             mode uid gid w in
  r.1 = Return fpath →
  ∃ f u0 g0 m0, files (os r.2) !! fpath = Some f ∧
    owner_as_written fpath (os w) = (u0, g0, m0) ∧
    (owner_requested NA_ID uid gid →
     ∃ u g, Py.as_id uid = Return u ∧ Py.int gid = Return g ∧
       OS.is_id u = true ∧ OS.is_id g = true ∧
       st_uid f = (if OS.keeps_id u then u0 else u) ∧
       st_gid f = (if OS.keeps_id g then g0 else g)) ∧
    (¬ owner_requested NA_ID uid gid → st_uid f = u0 ∧ st_gid f = g0) ∧
    (mode_requested NA_MODE mode →
     ∃ m8, Py.int8 mode = Return m8 ∧ OS.is_int m8 = true ∧
       st_mode f = Z.land m8 511) ∧
    (¬ mode_requested NA_MODE mode → st_mode f = m0).
Proof.
  cbv zeta. intros Hret.
  destruct (FileFacts.CreateTempFile_return _ _ _ _ _ _ _ _ _ _ _ Hret)
    as (data & w1 & s2 & E1 & E2 & E3 & E4).
  cbv zeta in E3, E4.
  destruct (written_state _ _ _ _ _ _ _ _ E1 E2)
    as ((f2 & Hf2 & _ & Ho) & _).
  destruct (owner_as_written fpath (os w)) as [[u0 g0] m0] eqn:Eo.
  injection Ho as Hu Hg Hm.
  assert (file_owned fpath u0 g0 m0 (os (with_os s2 w1))) as Hown.
  { by exists f2. }
  apply (FileFacts.times_owner_kept fpath mtime) in Hown.
  rewrite E4 in Hret |- *.
  destruct (CreateTempFile_perms _ _ _ _ _ _ _) as [o w'] eqn:Ep.
  cbn [fst snd] in *. subst o.
  destruct (perms_result _ _ _ _ _ _ _ _ _ _ Hown Ep) as (f & Hf & H).
  by exists f, u0, g0, m0.
Qed.

(** What [CreateTempFile] writes: the contents given, bytes as they are and
    text encoded, or, without contents, the encoding of a temporary name of
    the kind [contents] made during the call. *)
Theorem CreateTempFile_contents
    (tmpdir : option string) (contents : option Contents)
    (file_name : option FileName) (mtime : option Z) (mode uid gid : PyVal)
    (w : World) (fpath : string) :
  let r := CreateTempFile NA_ID NA_MODE tmpdir contents file_name mtime
             mode uid gid w in
  r.1 = Return fpath →
  ∃ f, files (os r.2) !! fpath = Some f ∧
    match contents with
    | Some (Bytes b) => st_data f = b
    | Some (Str s) => st_data f = Py.ensure_binary s
    | None =>
        ∃ k, (draws w ≤ k < draws r.2)%nat ∧
          st_data f =
            Py.ensure_binary
              (temp_name (_testMethodName w) "contents" "" (draw_at w k))
    end.
Proof.
  cbv zeta. intros Hret.
  destruct (FileFacts.CreateTempFile_return _ _ _ _ _ _ _ _ _ _ _ Hret)
    as (data & w1 & s2 & E1 & E2 & E3 & E4).
  cbv zeta in E3, E4.
  destruct (written_state _ _ _ _ _ _ _ _ E1 E2)
    as ((f2 & Hf2 & Hd2 & _) & _).
  destruct (times_data_kept fpath mtime data (with_os s2 w1))
    as (f3 & Hf3 & Hd3); [by exists f2|].
  pose proof (FileFacts.perms_contents_kept NA_ID NA_MODE fpath mode uid gid
    (CreateTempFile_times fpath mtime (with_os s2 w1)).2) as [_ Hk4].
  rewrite <- E4 in Hk4.
  destruct (Hk4 data (st_atime f3) (st_mtime f3)) as (f & Hf & Hd & _).
  { by exists f3. }
  exists f. split; [done|]. rewrite Hd.
  pose proof (target_data _ _ _ _ _ _ _ E1) as Ht.
  destruct contents as [[s|b]|]; [done..|].
  destruct Ht as (k & Hk & ->). exists k. split; [|done].
  assert (self_kept (with_os s2 w1)
    (CreateTempFile NA_ID NA_MODE tmpdir None file_name mtime mode uid gid
       w).2) as (_ & _ & Hdr & _).
  { rewrite E4. eapply WorldFacts.self_kept_trans.
    - apply (WorldFacts.through_times_step self_kept);
        [exact WorldFacts.self_kept_refl | exact self_kept_os].
    - apply (WorldFacts.through_perms self_kept);
        [exact WorldFacts.self_kept_refl | exact WorldFacts.self_kept_trans
        | exact self_kept_os]. }
  cbn [draws with_os] in Hdr. lia.
Qed.

(** Where paths are in normal form (those of the file tree, the directory
    and the file name given, and a test method name without separator), a
    call that returns has written one file and touched no other: the path
    returned is a file and no directory, the directory it lies in is there,
    no directory is lost, and every other path in normal form holds the
    file it held, or none, as before. *)
Theorem CreateTempFile_frame
    (tmpdir : option string) (contents : option Contents)
    (file_name : option FileName) (mtime : option Z) (mode uid gid : PyVal)
    (w : World) (fpath : string) :
  let r := CreateTempFile NA_ID NA_MODE tmpdir contents file_name mtime
             mode uid gid w in
  normal_tree (os w) → Text.all no_sep (_testMethodName w) = true →
  normal_names tmpdir file_name →
  r.1 = Return fpath →
  is_Some (files (os r.2) !! fpath) ∧ (fpath ∉ dirs (os r.2)) ∧
  (os_path.dirname fpath = "" ∨ os_path.dirname fpath ∈ dirs (os r.2)) ∧
  dirs (os w) ⊆ dirs (os r.2) ∧
  ∀ k, normal_path k = true → k ≠ fpath →
    files (os r.2) !! k = files (os w) !! k.
Proof.
  cbv zeta. intros _ _ _ Hret.
  destruct (CreateTempFile_attributes _ _ _ _ _ _ _ _ _ Hret)
    as (f & _ & _ & _ & Hf & _).
  destruct (FileFacts.CreateTempFile_return _ _ _ _ _ _ _ _ _ _ _ Hret)
    as (data & w1 & s2 & E1 & E2 & E3 & E4).
  cbv zeta in E3, E4.
  destruct (written_state _ _ _ _ _ _ _ _ E1 E2)
    as (_ & Hd2 & Hf2 & Hnd & Hp).
  assert (others_kept fpath s2
    (os (CreateTempFile NA_ID NA_MODE tmpdir contents file_name mtime mode
           uid gid w).2)) as [Hd Hk].
  { rewrite E4. eapply others_kept_trans.
    - apply (along_times_step (others_kept fpath) fpath
        (others_kept_refl fpath) (utime_others_kept fpath) mtime
        (with_os s2 w1)).
    - apply (along_perms_step (others_kept fpath) fpath
        (others_kept_refl fpath) (others_kept_trans fpath)
        (chown_others_kept fpath) (chmod_others_kept fpath)). }
  rewrite Hd. split; [by exists f|]. split; [done|]. split; [done|].
  split; [done|]. intros k _ Hne. by rewrite Hk, Hf2.
Qed.

(** The permission bits of the file of a call that returns: when
    [int(mode)] differs from [NA_MODE] they are those of [int(mode, 8)],
    the mode text read in base 8, which is then a number a C [int] holds;
    for a mode of up to three octal digits that is [int(mode, 8)] itself.
    Otherwise they are the ones the file was written with. A mode that
    base 8 cannot read, an integer among them, never lets the call
    return. *)
Theorem CreateTempFile_mode
    (tmpdir : option string) (contents : option Contents)
    (file_name : option FileName) (mtime : option Z) (mode uid gid : PyVal)
    (w : World) (fpath : string) :
  let r := CreateTempFile NA_ID NA_MODE tmpdir contents file_name mtime
             mode uid gid w in
  r.1 = Return fpath →
  ∃ f, files (os r.2) !! fpath = Some f ∧
    (mode_requested NA_MODE mode →
     ∃ m8, Py.int8 mode = Return m8 ∧ (- 2 ^ 31 ≤ m8 < 2 ^ 31)%Z ∧
       st_mode f = Z.land m8 511 ∧
       ((0 ≤ m8 ≤ 511)%Z → st_mode f = m8)) ∧
    (¬ mode_requested NA_MODE mode →
     st_mode f = (owner_as_written fpath (os w)).2) ∧
    (∀ m, mode = PyInt m → m = NA_MODE).
Proof.
  cbv zeta. intros Hret.
  destruct (CreateTempFile_attributes _ _ _ _ _ _ _ _ _ Hret)
    as (f & u0 & g0 & m0 & Hf & Ho & _ & _ & Hm & Hnm).
  exists f. split; [done|]. rewrite Ho. split; [|split; [done|]].
  - intros Hr. destruct (Hm Hr) as (m8 & H8 & Hi & Hst).
    exists m8. split; [done|]. split.
    { unfold OS.is_int in Hi. apply andb_true_iff in Hi as [H1 H2].
      apply Z.leb_le in H1. apply Z.ltb_lt in H2. done. }
    split; [done|]. intros Hs. rewrite Hst.
    change 511%Z with (Z.ones 9). rewrite Z.land_ones by done.
    apply Z.mod_small. change (2 ^ 9)%Z with 512%Z. lia.
  - intros m ->.
    destruct (decide (m = NA_MODE)) as [|Hne]; [done|].
    assert (mode_requested NA_MODE (PyInt m)) as Hr by by exists m.
    by destruct (Hm Hr) as (m8 & H8 & _).
Qed.

(** The owner and the group of the file of a call that returns: when [uid]
    or [int(gid)] differs from [NA_ID], both are ids from -1 to 2^32 - 1,
    and owner and group are [uid] and [int(gid)], an id of -1 or 2^32 - 1
    leaving what the file was written with; otherwise they are what the
    file was written with. *)
Theorem CreateTempFile_owner
    (tmpdir : option string) (contents : option Contents)
    (file_name : option FileName) (mtime : option Z) (mode uid gid : PyVal)
    (w : World) (fpath : string) :
  let r := CreateTempFile NA_ID NA_MODE tmpdir contents file_name mtime
             mode uid gid w in
  r.1 = Return fpath →
  let o := owner_as_written fpath (os w) in
  ∃ f, files (os r.2) !! fpath = Some f ∧
    (owner_requested NA_ID uid gid →
     ∃ u g, Py.as_id uid = Return u ∧ Py.int gid = Return g ∧
       (-1 ≤ u < 2 ^ 32)%Z ∧ (-1 ≤ g < 2 ^ 32)%Z ∧
       st_uid f = (if OS.keeps_id u then o.1.1 else u) ∧
       st_gid f = (if OS.keeps_id g then o.1.2 else g)) ∧
    (¬ owner_requested NA_ID uid gid →
     st_uid f = o.1.1 ∧ st_gid f = o.1.2).
Proof.
  cbv zeta. intros Hret.
  destruct (CreateTempFile_attributes _ _ _ _ _ _ _ _ _ Hret)
    as (f & u0 & g0 & m0 & Hf & Ho & Hown & Hnown & _).
  exists f. rewrite Ho. split; [done|]. split; [|done].
  intros Hr. destruct (Hown Hr) as (u & g & Hu & Hg & Hiu & Hig & H).
  exists u, g. split; [done|]. split; [done|].
  unfold OS.is_id in Hiu, Hig.
  apply andb_true_iff in Hiu as [H1 H2], Hig as [H3 H4].
  apply Z.leb_le in H1, H3. apply Z.ltb_lt in H2, H4. done.
Qed.

End Sentinels.

Lemma CreateTempFile_contents_witness :
  let r := CreateTempFile (-1) (-1) None (Some (Str "abc")) None None
             (PyInt (-1)) (PyInt (-1)) (PyInt (-1))
             (example_world N.of_nat) in
  ∃ f,
    files (os r.2) !!
      "/tmp/gsutil-test-testFoo-directory-00000000baaaaaaa/gsutil-test-testFoo-file-00000002"
      = Some f ∧
    st_data f = Py.ensure_binary "abc".
Proof.
  apply (CreateTempFile_contents (-1) (-1) None (Some (Str "abc")) None None
           (PyInt (-1)) (PyInt (-1)) (PyInt (-1)) (example_world N.of_nat)
           "/tmp/gsutil-test-testFoo-directory-00000000baaaaaaa/gsutil-test-testFoo-file-00000002").
  vm_compute. reflexivity.
Defined.

Lemma example_world_normal (e : nat → N) : normal_tree (os (example_world e)).
Proof.
  split; [done|]. intros k. cbn [os example_world files dirs].
  rewrite dom_empty_L, (left_id_L ∅ (∪)). by intros ->%elem_of_singleton.
Qed.

Lemma CreateTempFile_frame_witness :
  let r := CreateTempFile (-1) (-1) (Some "/tmp") None (Some (Name "g")) None
             (PyInt (-1)) (PyInt (-1)) (PyInt (-1))
             (example_world N.of_nat) in
  let fpath := "/tmp/g" in
  is_Some (files (os r.2) !! fpath) ∧ (fpath ∉ dirs (os r.2)) ∧
  (os_path.dirname fpath = "" ∨ os_path.dirname fpath ∈ dirs (os r.2)) ∧
  dirs (os (example_world N.of_nat)) ⊆ dirs (os r.2) ∧
  ∀ k, normal_path k = true → k ≠ fpath →
    files (os r.2) !! k = files (os (example_world N.of_nat)) !! k.
Proof.
  apply (CreateTempFile_frame (-1) (-1) (Some "/tmp") None (Some (Name "g"))
           None (PyInt (-1)) (PyInt (-1)) (PyInt (-1))
           (example_world N.of_nat) "/tmp/g").
  - apply example_world_normal.
  - reflexivity.
  - split; right; reflexivity.
  - vm_compute. reflexivity.
Defined.

Lemma CreateTempFile_mode_witness :
  let r := CreateTempFile (-1) (-1) None None None None
             (PyStr "644") (PyInt (-1)) (PyInt (-1))
             (example_world N.of_nat) in
  let fpath :=
    "/tmp/gsutil-test-testFoo-directory-00000000baaaaaaa/gsutil-test-testFoo-file-00000002" in
  ∃ f, files (os r.2) !! fpath = Some f ∧
    (mode_requested (-1) (PyStr "644") →
     ∃ m8, Py.int8 (PyStr "644") = Return m8 ∧ (- 2 ^ 31 ≤ m8 < 2 ^ 31)%Z ∧
       st_mode f = Z.land m8 511 ∧
       ((0 ≤ m8 ≤ 511)%Z → st_mode f = m8)) ∧
    (¬ mode_requested (-1) (PyStr "644") →
     st_mode f = (owner_as_written fpath (os (example_world N.of_nat))).2) ∧
    (∀ m, PyStr "644" = PyInt m → m = (-1)%Z).
Proof.
  apply (CreateTempFile_mode (-1) (-1) None None None None
           (PyStr "644") (PyInt (-1)) (PyInt (-1)) (example_world N.of_nat)
           "/tmp/gsutil-test-testFoo-directory-00000000baaaaaaa/gsutil-test-testFoo-file-00000002").
  vm_compute. reflexivity.
Defined.

Lemma CreateTempFile_owner_witness :
  let r := CreateTempFile (-1) (-1) None None None None
             (PyInt (-1)) (PyInt 1000) (PyInt 100)
             (example_world N.of_nat) in
  let fpath :=
    "/tmp/gsutil-test-testFoo-directory-00000000baaaaaaa/gsutil-test-testFoo-file-00000002" in
  let o := owner_as_written fpath (os (example_world N.of_nat)) in
  ∃ f, files (os r.2) !! fpath = Some f ∧
    (owner_requested (-1) (PyInt 1000) (PyInt 100) →
     ∃ u g, Py.as_id (PyInt 1000) = Return u ∧ Py.int (PyInt 100) = Return g ∧
       (-1 ≤ u < 2 ^ 32)%Z ∧ (-1 ≤ g < 2 ^ 32)%Z ∧
       st_uid f = (if OS.keeps_id u then o.1.1 else u) ∧
       st_gid f = (if OS.keeps_id g then o.1.2 else g)) ∧
    (¬ owner_requested (-1) (PyInt 1000) (PyInt 100) →
     st_uid f = o.1.1 ∧ st_gid f = o.1.2).
Proof.
  apply (CreateTempFile_owner (-1) (-1) None None None None
           (PyInt (-1)) (PyInt 1000) (PyInt 100) (example_world N.of_nat)
           "/tmp/gsutil-test-testFoo-directory-00000000baaaaaaa/gsutil-test-testFoo-file-00000002").
  vm_compute. reflexivity.
Defined.

End FileMoreFacts.

(** ** More on temporary directories *)

Module DirMoreFacts.
Import MonadFacts TextFacts PathFacts GsUtilTestCase.

(** *** Reversed strings and [dirname] *)

Lemma app_empty_r (a : string) : a +:+ "" = a.
Proof.
  induction a as [|c a IH]; [done|].
  change (String c a +:+ "") with (String c (a +:+ "")). by rewrite IH.
Qed.

Lemma rev_app_app (a b c : string) :
  String.rev_app (a +:+ b) c = String.rev_app b (String.rev_app a c).
Proof.
  revert c. induction a as [|x a IH]; intros c; [done|].
  change (String x a +:+ b) with (String x (a +:+ b)).
  cbn [String.rev_app]. apply IH.
Qed.

Lemma rev_app_rev (a b c : string) :
  String.rev_app (String.rev_app a b) c = String.rev_app b (a +:+ c).
Proof.
  revert b. induction a as [|x a IH]; intros b; [done|].
  cbn [String.rev_app]. rewrite IH. reflexivity.
Qed.

Lemma drop_component_rev (n t : string) :
  Text.all no_sep n = true →
  os_path.drop_component (String.rev_app n t) = os_path.drop_component t.
Proof.
  revert t. induction n as [|x n IH]; intros t; [done|].
  cbn [Text.all String.rev_app]. intros [Hx Hn]%andb_true_iff.
  rewrite IH by done. cbn [os_path.drop_component].
  unfold no_sep in Hx. apply negb_true_iff in Hx. by rewrite Hx.
Qed.

Lemma rev_head (d acc : string) :
  d ≠ "" → Text.endswith "/" d = false →
  ∃ c t, String.rev_app d acc = String c t ∧ os_path.is_sep c = false.
Proof.
  revert acc. induction d as [|x d IH]; intros acc Hne He; [done|].
  cbn [String.rev_app]. destruct d as [|y d].
  - exists x, acc. split; [done|]. unfold os_path.is_sep.
    destruct (Ascii.eqb x "/") eqn:E; [|done].
    apply Ascii.eqb_eq in E as ->. done.
  - apply IH; [done|]. cbn [Text.endswith] in He.
    by apply orb_false_iff in He as [_ He].
Qed.

(** The directory of a file that lies directly in [d] is [d]. *)
Lemma dirname_child (d n : string) :
  d ≠ "" → Text.endswith "/" d = false → Text.all no_sep n = true →
  os_path.dirname (d +:+ "/" +:+ n) = d.
Proof.
  intros Hd He Hn. unfold os_path.dirname. cbv zeta. unfold String.rev.
  rewrite rev_app_app. change ("/" +:+ n) with (String "/" n).
  cbn [String.rev_app]. rewrite drop_component_rev by done.
  cbn [os_path.drop_component]. change (os_path.is_sep "/") with true.
  cbv iota.
  destruct (rev_head d "" Hd He) as (c & t & Hr & Hc). rewrite Hr.
  cbn [Text.all os_path.lstrip_sep]. change (os_path.is_sep "/") with true.
  rewrite Hc. cbn [andb]. rewrite <- Hr, rev_app_rev.
  cbn [String.rev_app]. apply app_empty_r.
Qed.

(** *** The names of the files *)

Lemma all_slice_to p (n : nat) (s : string) :
  Text.all p s = true → Text.all p (Text.slice_to n s) = true.
Proof.
  revert s. induction n as [|n IH]; intros [|c s]; try done.
  cbn [Text.all Text.slice_to]. intros [Hc Hs]%andb_true_iff.
  by rewrite Hc, IH.
Qed.

Lemma all_impl (p q : ascii → bool) (s : string) :
  (∀ c, p c = true → q c = true) →
  Text.all p s = true → Text.all q s = true.
Proof.
  intros Hpq. induction s as [|c s IH]; [done|]. cbn [Text.all].
  intros [Hc Hs]%andb_true_iff. by rewrite (Hpq c Hc), IH.
Qed.

Lemma lower_hex_no_sep (c : ascii) :
  Fmt.is_lower_hex c = true → no_sep c = true.
Proof. destruct c as [[] [] [] [] [] [] [] []]; vm_compute; intros; done. Qed.

Lemma file_name_ok (method : string) (r : N) :
  temp_name method "file" "" r ≠ "" ∧
  Text.startswith "/" (temp_name method "file" "" r) = false.
Proof. done. Qed.

Lemma file_name_no_sep (method : string) (r : N) :
  Text.all no_sep method = true →
  Text.all no_sep (temp_name method "file" "" r) = true.
Proof.
  intros Hm. unfold temp_name, name_stem.
  change (String.eqb "file" "bucket") with false. cbv iota zeta.
  rewrite all_app. apply andb_true_iff. split.
  - apply all_slice_to. rewrite !all_app, Hm. done.
  - rewrite all_app. apply andb_true_iff. split; [done|].
    apply (all_impl Fmt.is_lower_hex); [apply lower_hex_no_sep|].
    apply FmtFacts.x08_lower.
Qed.

Lemma times_names (n : nat) (w w' : World) (names : list string) :
  times n (MakeTempName "file" "") w = (Return names, w') →
  os w' = os w ∧ tempdirs w' = tempdirs w ∧
  _testMethodName w' = _testMethodName w ∧
  Forall (λ nm, ∃ r, nm = temp_name (_testMethodName w) "file" "" r) names.
Proof.
  revert w names. induction n as [|n IH]; intros w names.
  - intros [= <- <-]. done.
  - cbn [times]. intros E.
    apply bind_return in E as (a & w1 & Ea & E).
    rewrite NameFacts.MakeTempName_run in Ea. injection Ea as <- <-.
    apply bind_return in E as (l & w2 & El & E). injection E as <- <-.
    apply IH in El as (Ho & Ht & Hm & Hl). cbn in *.
    repeat split; try done. constructor; [by eexists | done].
Qed.

(** *** Making the directory *)

Lemma CreateTempDir_with_split
    (file : string → Contents → FileName → M string)
    (test_files : Z + list FileName) (contents : option Contents) :
  CreateTempDir_with file test_files contents =
  bind (MakeTempName "directory" "")
    (λ prefix, bind (tempfile.mkdtemp prefix)
       (λ tmpdir, bind (tempdirs_append tmpdir)
          (λ _, CreateTempDir_files file tmpdir test_files contents))).
Proof. reflexivity. Qed.

(** [CreateTempDir] is the making of the directory, which may fail, and
    then the making of the files with the directory tracked. *)
Lemma CreateTempDir_with_run
    (file : string → Contents → FileName → M string)
    (test_files : Z + list FileName) (contents : option Contents)
    (w : World) :
  match tempfile.mkdtemp_from tempfile.TMP_MAX
          (temp_name (_testMethodName w) "directory" "" (drawn w))
          (advance w) with
  | (Return d, w1) =>
      CreateTempDir_with file test_files contents w =
      CreateTempDir_files file d test_files contents
        (with_tempdirs (tempdirs w1 ++ [d]) w1)
  | (Raise e, w1) =>
      CreateTempDir_with file test_files contents w = (Raise e, w1)
  end.
Proof.
  destruct (tempfile.mkdtemp_from _ _ _) as [[d|e] w1] eqn:Em;
    rewrite CreateTempDir_with_split; unfold bind at 1;
    rewrite NameFacts.MakeTempName_run; cbv beta iota; unfold bind at 1;
    unfold tempfile.mkdtemp; rewrite Em; reflexivity.
Qed.

(** When [mkdtemp] fails nothing is left of its attempts. *)
Lemma mkdtemp_raise (n : nat) (prefix : string) (w w' : World) (e : Exn) :
  tempfile.mkdtemp_from n prefix w = (Raise e, w') →
  files (os w') = files (os w) ∧ dirs (os w') = dirs (os w) ∧
  tempdirs w' = tempdirs w.
Proof.
  revert w. induction n as [|n IH]; intros w; [by intros [= <- <-]|].
  cbn [tempfile.mkdtemp_from]. unfold bind at 1, random.randrange at 1.
  change (37 ^ 8 =? 0) with false. cbv beta iota. unfold bind at 1.
  cbv beta iota. cbn [os tempdir].
  set (r := entropy w (draws w) mod 37 ^ 8).
  set (file := os_path.join _ _).
  unfold sys at 1. cbv zeta. cbn [os].
  pose proof (DirFacts.mkdir_cases file (os w)) as [Hf Hd].
  destruct (OS.mkdir file (os w)) as [[u|e0] s1]; cbn [fst snd] in *; [done|].
  assert (∀ X, tempfile.mkdtemp_from n prefix (with_os s1
      {| _testMethodName := _testMethodName w; tempdirs := tempdirs w;
         os := os w; entropy := entropy w; draws := S (draws w) |})
      = X → X = (Raise e, w') →
      files (os w') = files (os w) ∧ dirs (os w') = dirs (os w) ∧
      tempdirs w' = tempdirs w) as Hrec.
  { intros X <- HX. apply IH in HX. cbn in HX. by rewrite Hf, Hd in HX. }
  destruct e0 as [| | | |[]| | |];
    try (intros [= <- <-]; cbn; by rewrite Hf, Hd).
  intros HX. by eapply Hrec.
Qed.

Lemma files_returns
    (file : string → Contents → FileName → M string) (d d' : string)
    (test_files : Z + list FileName) (contents : option Contents)
    (w w' : World) :
  CreateTempDir_files file d test_files contents w = (Return d', w') →
  d' = d.
Proof.
  unfold CreateTempDir_files. intros E.
  apply bind_return in E as (l & w1 & _ & E).
  apply bind_return in E as (u & w2 & _ & E). by injection E as <- _.
Qed.

(** The loop and the names before it, for relations on the file tree and
    on the test case. *)
Lemma along_files (R : OsState → OsState → Prop)
    (file : string → Contents → FileName → M string) (d : string)
    (test_files : Z + list FileName) (contents : option Contents) :
  (∀ s, R s s) → (∀ s1 s2 s3, R s1 s2 → R s2 s3 → R s1 s3) →
  (∀ c n, along R (file d c n)) →
  along R (CreateTempDir_files file d test_files contents).
Proof.
  intros Hr Ht Hf. unfold CreateTempDir_files.
  apply AlongFacts.along_bind; [done| |].
  { destruct test_files as [n|l]; [|by apply AlongFacts.along_ret].
    apply AlongFacts.along_bind; [done| |].
    - by apply AlongFacts.along_times, AlongFacts.along_MakeTempName.
    - intros. by apply AlongFacts.along_ret. }
  intros l. apply AlongFacts.along_bind; [done| |];
    [|intros; by apply AlongFacts.along_ret].
  apply AlongFacts.along_for_enumerate; [done..|]. intros i name.
  unfold CreateTempDir_body. apply AlongFacts.along_bind; [done| |].
  { destruct contents; [by apply AlongFacts.along_ret|].
    apply AlongFacts.along_bind; [done|by apply AlongFacts.along_lift|].
    intros. by apply AlongFacts.along_ret. }
  intros c. apply AlongFacts.along_bind; [done|apply Hf|].
  intros. by apply AlongFacts.along_ret.
Qed.

Lemma tracked_same_os (s : OsState) (w : World) :
  tracked_same w (with_os s w).
Proof. by repeat split. Qed.

Lemma tracked_same_draw (w : World) : tracked_same w (advance w).
Proof. repeat split; try done. cbn. lia. Qed.

Lemma through_files
    (file : string → Contents → FileName → M string) (d : string)
    (test_files : Z + list FileName) (contents : option Contents) :
  (∀ c n, through tracked_same (file d c n)) →
  through tracked_same (CreateTempDir_files file d test_files contents).
Proof.
  intros Hf. unfold CreateTempDir_files.
  apply WorldFacts.through_bind; [exact WorldFacts.tracked_same_trans| |].
  { apply WorldFacts.through_test_files;
      [exact WorldFacts.tracked_same_refl
      |exact WorldFacts.tracked_same_trans|exact tracked_same_draw]. }
  intros l.
  apply WorldFacts.through_bind; [exact WorldFacts.tracked_same_trans| |].
  { unfold CreateTempDir_body.
    apply (WorldFacts.through_files_loop tracked_same);
      [exact WorldFacts.tracked_same_refl
      |exact WorldFacts.tracked_same_trans|exact Hf]. }
  intros. apply WorldFacts.through_ret. exact WorldFacts.tracked_same_refl.
Qed.

Lemma open_dirs (p : string) (d : list byte) (s : OsState) :
  dirs (OS.open_wb_write p d s).2 = dirs s.
Proof.
  unfold OS.open_wb_write. cbv zeta.
  destruct (String.eqb p ""); [done|].
  destruct (Text.endswith "/" p); [by destruct (OS.parent_check _ _)|].
  destruct (OS.isdir _ _); [done|]. by destruct (OS.parent_check _ _).
Qed.

Lemma CreateTempFile_dirs_grow (NA_ID NA_MODE : Z)
    (tmpdir : option string) (contents : option Contents)
    (file_name : option FileName) (mtime : option Z)
    (mode uid gid : PyVal) :
  along dirs_grow
    (CreateTempFile NA_ID NA_MODE tmpdir contents file_name mtime
       mode uid gid).
Proof.
  pose proof FileMoreFacts.dirs_grow_refl as Hr.
  pose proof FileMoreFacts.dirs_grow_trans as Ht.
  intros w. rewrite FileFacts.CreateTempFile_split. revert w.
  apply AlongFacts.along_bind; [done|apply FileMoreFacts.target_dirs_grow|].
  intros t. apply AlongFacts.along_bind; [done| |].
  { apply AlongFacts.along_sys. intros s. unfold dirs_grow.
    by rewrite open_dirs. }
  intros _. apply AlongFacts.along_bind; [done| |].
  { apply FileMoreFacts.along_times_step; [done|]. intros a m s.
    unfold dirs_grow.
    by rewrite (proj1 (FileMoreFacts.utime_others_kept t.1 a m s)). }
  intros _. apply FileMoreFacts.along_perms_step; [done..| |].
  - intros u g s. unfold dirs_grow.
    by rewrite (proj1 (FileMoreFacts.chown_others_kept t.1 u g s)).
  - intros m s. unfold dirs_grow.
    by rewrite (proj1 (FileMoreFacts.chmod_others_kept t.1 m s)).
Qed.

(** *** A file in a directory of its own *)

Lemma bind_cong {A B} (m1 m2 : M A) (k : A → M B) (w1 w2 : World) :
  m1 w1 = m2 w2 → bind m1 k w1 = bind m2 k w2.
Proof. unfold bind. by intros ->. Qed.

Lemma CreateTempDir_empty_return (w wa : World) (d : string) :
  CreateTempDir_empty w = (Return d, wa) →
  tempdirs wa = tempdirs w ++ [d] ∧ (d ∉ dirs (os w)) ∧ d ∈ dirs (os wa) ∧
  d ≠ "" ∧ Text.endswith "/" d = false ∧
  _testMethodName wa = _testMethodName w.
Proof.
  unfold CreateTempDir_empty. intros E.
  pose proof (CreateTempDir_with_run (λ _ _ _, raise TypeError) (inl 0%Z)
    None w) as Hrun.
  destruct (tempfile.mkdtemp_from tempfile.TMP_MAX
    (temp_name (_testMethodName w) "directory" "" (drawn w)) (advance w))
    as [[d0|e] w1] eqn:Em; rewrite Hrun in E; [|done].
  injection E as <- <-.
  apply DirFacts.mkdtemp_return in Em
    as (Hf1 & Hd1 & Hnd & Hnf & Hne & Hend & Hm1 & He1 & Ht1).
  cbn [os advance _testMethodName entropy tempdirs with_tempdirs] in *.
  split; [by rewrite Ht1|]. split; [done|]. split; [|done].
  rewrite Hd1. apply elem_of_union_l. by apply elem_of_singleton.
Qed.

Lemma tmpdir_absent (tmpdir : option string) :
  default "" tmpdir = "" → CreateTempFile_tmpdir tmpdir = CreateTempDir_empty.
Proof. destruct tmpdir as [[|c d]|]; done. Qed.


Section Sentinels.

Variables NA_ID NA_MODE : Z.

(** What is known once the directory is made, whatever becomes of the
    files. *)
Lemma made_facts (test_files : Z + list FileName)
    (contents : option Contents) (w w1 : World) (d : string) :
  tempfile.mkdtemp_from tempfile.TMP_MAX
    (temp_name (_testMethodName w) "directory" "" (drawn w)) (advance w)
    = (Return d, w1) →
  let r := CreateTempDir_files (CreateTempDir_file NA_ID NA_MODE) d
             test_files contents (with_tempdirs (tempdirs w1 ++ [d]) w1) in
  CreateTempDir NA_ID NA_MODE test_files contents w = r ∧
  tempdirs r.2 = tempdirs w ++ [d] ∧ (d ∉ dirs (os w)) ∧
  files (os w) !! d = None ∧ d ∈ dirs (os r.2) ∧
  d ≠ "" ∧ Text.endswith "/" d = false ∧
  files (os w1) = files (os w) ∧ dirs (os w1) = {[d]} ∪ dirs (os w) ∧
  _testMethodName w1 = _testMethodName w ∧
  ∀ d', r.1 = Return d' → d' = d.
Proof.
  intros Em. cbv zeta.
  pose proof (CreateTempDir_with_run (CreateTempDir_file NA_ID NA_MODE)
    test_files contents w) as Hrun.
  rewrite Em in Hrun. split; [exact Hrun|].
  apply DirFacts.mkdtemp_return in Em
    as (Hf1 & Hd1 & Hnd & Hnf & Hne & Hend & Hm1 & He1 & Ht1).
  cbn [os advance _testMethodName entropy tempdirs] in *.
  set (w2 := with_tempdirs (tempdirs w1 ++ [d]) w1).
  assert (∀ c n, through tracked_same (CreateTempDir_file NA_ID NA_MODE d c n))
    as Hthrough.
  { intros c n. by apply WorldFacts.tracked_same_given. }
  assert (∀ c n, along dirs_grow (CreateTempDir_file NA_ID NA_MODE d c n))
    as Halong.
  { intros c n. apply CreateTempFile_dirs_grow. }
  pose proof (through_files _ d test_files contents Hthrough w2)
    as (_ & _ & _ & Ht).
  pose proof (along_files dirs_grow _ d test_files contents
    FileMoreFacts.dirs_grow_refl FileMoreFacts.dirs_grow_trans Halong w2)
    as Hg.
  split; [by rewrite Ht; cbn; rewrite Ht1|].
  split; [done|]. split; [done|].
  split.
  { apply Hg. cbn. rewrite Hd1. apply elem_of_union_l.
    by apply elem_of_singleton. }
  repeat split; try done.
  intros d' Hret.
  destruct (CreateTempDir_files _ _ _ _ w2) as [o w'] eqn:E.
  cbn in Hret. subst o. by apply files_returns in E.
Qed.

(** No directory is made without being tracked for teardown. Either
    [mkdtemp] fails: then [CreateTempDir] raises and has changed neither
    the file tree nor the list of tracked directories. Or the directory it
    made is new, is there at the end and is the last tracked directory,
    also when making the files raises; it is what a call that returns
    returns. *)
Theorem CreateTempDir_tracks (test_files : Z + list FileName)
    (contents : option Contents) (w : World) :
  let r := CreateTempDir NA_ID NA_MODE test_files contents w in
  (∃ e, r.1 = Raise e ∧ tempdirs r.2 = tempdirs w ∧
        dirs (os r.2) = dirs (os w) ∧ files (os r.2) = files (os w)) ∨
  (∃ d, tempdirs r.2 = tempdirs w ++ [d] ∧ (d ∉ dirs (os w)) ∧
        files (os w) !! d = None ∧ d ∈ dirs (os r.2) ∧
        ∀ d', r.1 = Return d' → d' = d).
Proof.
  cbv zeta.
  destruct (tempfile.mkdtemp_from tempfile.TMP_MAX
    (temp_name (_testMethodName w) "directory" "" (drawn w)) (advance w))
    as [[d|e] w1] eqn:Em.
  - right. exists d.
    destruct (made_facts test_files contents w w1 d Em)
      as (-> & Ht & Hnd & Hnf & Hd & _ & _ & _ & _ & _ & Hret).
    done.
  - left. exists e.
    pose proof (CreateTempDir_with_run (CreateTempDir_file NA_ID NA_MODE)
      test_files contents w) as Hrun.
    rewrite Em in Hrun. unfold CreateTempDir.
    change (CreateTempDir_with _ test_files contents w)
      with (CreateTempDir_with (CreateTempDir_file NA_ID NA_MODE)
              test_files contents w).
    rewrite Hrun. apply mkdtemp_raise in Em as (Hf & Hd & Ht).
    by cbn in *.
Qed.

(** *** One file of the loop *)

Lemma contents_step (contents : option Contents) (i : nat) (w w' : World)
    (c : Contents) :
  (match contents with
   | Some c => ret c
   | None => bind (lift (Py.encode_ascii ("test " +:+ Fmt.d i)))
               (λ b, ret (Bytes b))
   end) w = (Return c, w') → w' = w.
Proof.
  destruct contents as [c0|]; [by intros [= _ <-]|].
  unfold bind, lift, ret. destruct (Py.encode_ascii _); [|done].
  by intros [= _ <-].
Qed.

Lemma target_in_place (d nm : string) (c : Contents) (w w1 : World)
    (t : string * list byte) :
  d ≠ "" → nm ≠ "" → d ∈ dirs (os w) →
  os_path.dirname (os_path.join d [nm]) = d →
  CreateTempFile_target (Some d) (Some c) (Some (Name nm)) w = (Return t, w1) →
  w1 = w.
Proof.
  intros Hd Hn Hin Hdir. unfold CreateTempFile_target.
  apply String.eqb_neq in Hd as ->.
  assert (falsy (Some (Name nm)) = false) as -> by by destruct nm.
  unfold bind, ret. cbv beta iota zeta. rewrite Hdir.
  unfold OS.isdir. rewrite bool_decide_eq_true_2 by done. cbn [negb].
  by intros [= _ <-].
Qed.

Lemma body_run (d : string) (contents : option Contents) (i : nat)
    (nm : string) (w w' : World) :
  d ≠ "" → Text.endswith "/" d = false →
  nm ≠ "" → Text.startswith "/" nm = false →
  CreateTempDir_body (CreateTempDir_file NA_ID NA_MODE) d contents i
    (Name nm) w = (Return (), w') →
  tracked_same w w' ∧ dirs (os w) ⊆ dirs (os w') ∧
  (∀ k, k ≠ d +:+ "/" +:+ nm → files (os w') !! k = files (os w) !! k) ∧
  (d ∈ dirs (os w) → Text.all no_sep nm = true →
   dirs (os w') = dirs (os w)).
Proof.
  intros Hd He Hn Hs E. unfold CreateTempDir_body in E.
  apply bind_return in E as (c & w0 & Ec & E).
  apply contents_step in Ec as ->.
  apply bind_return in E as (p & w1 & Ep & E). injection E as <-.
  unfold CreateTempDir_file in Ep.
  assert (tracked_same w w1) as Htr.
  { eapply WorldFacts.through_run; [|exact Ep].
    by apply WorldFacts.tracked_same_given. }
  destruct (FileFacts.CreateTempFile_return NA_ID NA_MODE (Some d) (Some c)
    (Some (Name nm)) None (PyInt NA_MODE) (PyInt NA_ID) (PyInt NA_ID) w p)
    as (data & wt & s2 & E1 & E2 & _ & E4); [by rewrite Ep|].
  cbv zeta in E4. cbn [CreateTempFile_times ret snd] in E4.
  rewrite FileFacts.perms_sentinels, Ep in E4. injection E4 as ->.
  pose proof E1 as E1'.
  apply DirFacts.target_given in E1' as ([= -> ->] & _); [|done..].
  pose proof (join_child d nm Hd He Hs) as Hj.
  cbn [os_path.join fold_left] in Hj. rewrite Hj in E1, E2.
  destruct (FileMoreFacts.written_state _ _ _ _ _ _ _ _ E1 E2)
    as (_ & Hd2 & Hf2 & _).
  split; [done|]. cbn [os with_os]. split; [done|]. split; [done|].
  intros Hin Hsep.
  apply target_in_place in E1 as ->; try done.
  - by apply OSFacts.open_return in E2 as (_ & -> & _).
  - rewrite join_child by done. by apply dirname_child.
Qed.

(** *** The loop over generated names *)

Lemma loop_run (d : string) (contents : option Contents)
    (names : list string) (i : nat) (w w' : World) :
  d ≠ "" → Text.endswith "/" d = false →
  Forall (λ nm, nm ≠ "" ∧ Text.startswith "/" nm = false) names →
  for_enumerate i (List.map Name names)
    (CreateTempDir_body (CreateTempDir_file NA_ID NA_MODE) d contents) w
    = (Return (), w') →
  tracked_same w w' ∧ dirs (os w) ⊆ dirs (os w') ∧
  (∀ k, os_path.within d k = false →
        files (os w') !! k = files (os w) !! k) ∧
  (d ∈ dirs (os w) → Forall (λ nm, Text.all no_sep nm = true) names →
   dirs (os w') = dirs (os w)).
Proof.
  intros Hd He Hnames. revert i w.
  induction Hnames as [|nm names [Hn Hs] _ IH]; intros i w.
  - intros [= <-]. split; [apply WorldFacts.tracked_same_refl|]. done.
  - cbn [List.map for_enumerate]. intros E.
    apply bind_return in E as ([] & w1 & Eb & E).
    apply body_run in Eb as (Ht1 & Hd1 & Hf1 & Hx1); [|done..].
    apply IH in E as (Ht2 & Hd2 & Hf2 & Hx2).
    split; [by eapply WorldFacts.tracked_same_trans|].
    split; [by etrans|]. split.
    + intros k Hk. rewrite Hf2, Hf1; [done| |done].
      intros ->. by rewrite within_child in Hk.
    + intros Hin Hall. apply Forall_cons in Hall as [Hnm Hall].
      rewrite Hx2; [by apply Hx1| |done]. by apply Hd1.
Qed.

(** What a call with a number of files that returns has done. *)
Lemma counted_run (n : Z) (contents : option Contents) (w w' : World)
    (d : string) :
  CreateTempDir NA_ID NA_MODE (inl n) contents w = (Return d, w') →
  tempdirs w' = tempdirs w ++ [d] ∧ (d ∉ dirs (os w)) ∧
  files (os w) !! d = None ∧ d ≠ "" ∧
  {[d]} ∪ dirs (os w) ⊆ dirs (os w') ∧
  (∀ k, os_path.within d k = false →
        files (os w') !! k = files (os w) !! k) ∧
  (Text.all no_sep (_testMethodName w) = true →
   dirs (os w') = {[d]} ∪ dirs (os w)).
Proof.
  intros E.
  destruct (tempfile.mkdtemp_from tempfile.TMP_MAX
    (temp_name (_testMethodName w) "directory" "" (drawn w)) (advance w))
    as [[d0|e] w1] eqn:Em.
  2: { pose proof (CreateTempDir_with_run (CreateTempDir_file NA_ID NA_MODE)
         (inl n) contents w) as Hrun.
       rewrite Em in Hrun. unfold CreateTempDir in E.
       change (CreateTempDir_with _ (inl n) contents w)
         with (CreateTempDir_with (CreateTempDir_file NA_ID NA_MODE)
                 (inl n) contents w) in E.
       by rewrite Hrun in E. }
  destruct (made_facts (inl n) contents w w1 d0 Em)
    as (Er & Ht & Hnd & Hnf & Hin & Hne & Hend & Hf1 & Hd1 & Hm1 & Hr).
  rewrite E in Er. symmetry in Er.
  rewrite Er in Ht, Hin, Hr. cbn [fst snd] in Ht, Hin, Hr.
  specialize (Hr d eq_refl) as ->.
  unfold CreateTempDir_files in Er.
  apply bind_return in Er as (l & w2 & El & Er).
  apply bind_return in El as (names & w3 & En & El). injection El as <- <-.
  apply times_names in En as (Ho & _ & _ & Hnames).
  cbn [os tempdirs _testMethodName with_tempdirs] in Ho, Hnames.
  apply bind_return in Er as ([] & w4 & Eloop & Er). injection Er as <-.
  apply loop_run in Eloop as (_ & Hgrow & Hframe & Hexact); [|done..|].
  2: { eapply Forall_impl; [exact Hnames|]. intros nm [r ->].
       apply file_name_ok. }
  rewrite Ho in Hgrow, Hframe, Hexact. cbn [os with_tempdirs] in *.
  split; [done|]. split; [done|]. split; [done|]. split; [done|].
  split; [by rewrite <- Hd1|].
  split; [by intros k Hk; rewrite Hframe, Hf1|].
  intros Hsep. rewrite <- Hd1. apply Hexact.
  - rewrite Hd1. apply elem_of_union_l. by apply elem_of_singleton.
  - eapply Forall_impl; [exact Hnames|]. intros nm [r ->].
    rewrite Hm1. by apply file_name_no_sep.
Qed.


(** A number of files that is zero or negative gives an empty directory:
    no file is written, whatever the contents given, and a call that
    returns has made the one new directory, tracked it, and nothing lies
    in it. *)
Theorem CreateTempDir_nonpositive (n : Z) (contents : option Contents)
    (w : World) :
  (n ≤ 0)%Z →
  let r := CreateTempDir NA_ID NA_MODE (inl n) contents w in
  files (os r.2) = files (os w) ∧
  ∀ d, r.1 = Return d →
    (d ∉ dirs (os w)) ∧ dirs (os r.2) = {[d]} ∪ dirs (os w) ∧
    tempdirs r.2 = tempdirs w ++ [d] ∧
    (fs_wf (os w) → listing d (os r.2) = ∅).
Proof.
  intros Hn. cbv zeta.
  assert (∀ d w0, CreateTempDir_files (CreateTempDir_file NA_ID NA_MODE) d
    (inl n) contents w0 = (Return d, w0)) as Hfiles.
  { intros d w0. unfold CreateTempDir_files.
    assert (Z.to_nat n = 0%nat) as -> by lia. reflexivity. }
  destruct (tempfile.mkdtemp_from tempfile.TMP_MAX
    (temp_name (_testMethodName w) "directory" "" (drawn w)) (advance w))
    as [[d0|e] w1] eqn:Em.
  - destruct (made_facts (inl n) contents w w1 d0 Em)
      as (-> & Ht & Hnd & Hnf & _ & Hne & _ & Hf1 & Hd1 & _).
    rewrite Hfiles in Ht |- *. cbn [fst snd os with_tempdirs] in *.
    split; [done|]. intros d [= <-]. split; [done|]. split; [done|].
    split; [done|]. intros Hwf. unfold listing. rewrite Hf1.
    by apply DirFacts.listing_fresh.
  - pose proof (CreateTempDir_with_run (CreateTempDir_file NA_ID NA_MODE)
      (inl n) contents w) as Hrun.
    rewrite Em in Hrun. unfold CreateTempDir.
    change (CreateTempDir_with _ (inl n) contents w)
      with (CreateTempDir_with (CreateTempDir_file NA_ID NA_MODE)
              (inl n) contents w).
    rewrite Hrun. apply mkdtemp_raise in Em as (Hf & _).
    split; [done|]. by intros d.
Qed.

(** A call of [CreateTempFile] without directory and without file name
    that returns has made a directory of its own, tracked it, and put the
    file into it under a generated name. *)
Theorem CreateTempFile_own_dir
    (tmpdir : option string) (contents : option Contents)
    (file_name : option FileName) (mtime : option Z) (mode uid gid : PyVal)
    (w : World) (fpath : string) :
  let r := CreateTempFile NA_ID NA_MODE tmpdir contents file_name mtime
             mode uid gid w in
  default "" tmpdir = "" → falsy file_name = true →
  r.1 = Return fpath →
  ∃ d, tempdirs r.2 = tempdirs w ++ [d] ∧ (d ∉ dirs (os w)) ∧
    d ∈ dirs (os r.2) ∧
    (∃ k, fpath = d +:+ "/" +:+
            temp_name (_testMethodName w) "file" "" (draw_at w k)) ∧
    is_Some (files (os r.2) !! fpath).
Proof.
  cbv zeta. intros Habs Hfalsy Hret.
  assert (is_Some (files (os (CreateTempFile NA_ID NA_MODE tmpdir contents
    file_name mtime mode uid gid w).2) !! fpath)) as Hfile.
  { destruct (FileMoreFacts.CreateTempFile_attributes _ _ _ _ _ _ _ _ _ _ _
      Hret) as (f & _ & _ & _ & Hf & _). by exists f. }
  destruct (FileFacts.CreateTempFile_return _ _ _ _ _ _ _ _ _ _ _ Hret)
    as (data & w1 & s2 & E1 & _).
  unfold CreateTempFile_target in E1.
  apply bind_return in E1 as (d & wa & Ea & E1).
  change (CreateTempFile_tmpdir tmpdir w = (Return d, wa)) in Ea.
  pose proof Ea as Ea'. rewrite tmpdir_absent in Ea' by done.
  apply CreateTempDir_empty_return in Ea'
    as (Ht & Hnd & Hin & Hne & Hend & Hm).
  assert (CreateTempFile NA_ID NA_MODE tmpdir contents file_name mtime
            mode uid gid w =
          CreateTempFile NA_ID NA_MODE (Some d) contents file_name mtime
            mode uid gid wa) as Heq.
  { unfold CreateTempFile. apply bind_cong.
    change (CreateTempFile_tmpdir tmpdir w = CreateTempFile_tmpdir (Some d) wa).
    rewrite Ea. cbn. by apply String.eqb_neq in Hne as ->. }
  rewrite Heq in Hret, Hfile |- *. clear Heq.
  set (r := CreateTempFile NA_ID NA_MODE (Some d) contents file_name mtime
              mode uid gid wa) in *.
  assert (tempdirs r.2 = tempdirs w ++ [d]) as Htr.
  { rewrite <- Ht. by apply (WorldFacts.tracked_same_given NA_ID NA_MODE d). }
  assert (d ∈ dirs (os r.2)) as Hd.
  { by apply (CreateTempFile_dirs_grow NA_ID NA_MODE (Some d) contents
                file_name mtime mode uid gid wa). }
  assert (∃ k, fpath = d +:+ "/" +:+
            temp_name (_testMethodName w) "file" "" (draw_at w k))
    as [k Hp].
  { apply bind_return in E1 as (n & wb & Eb & E1).
    assert (n = Name (temp_name (_testMethodName wa) "file" "" (drawn wa)))
      as ->.
    { destruct file_name as [x|]; [rewrite Hfalsy in Eb|];
        apply bind_return in Eb as (nm & wn & En & Eb);
        rewrite NameFacts.MakeTempName_run in En; injection En as <- <-;
        by injection Eb as <- _. }
    cbv zeta in E1.
    apply bind_return in E1 as (b & wc & _ & E1).
    apply bind_return in E1 as (u & wd & _ & E1).
    apply bind_return in E1 as (c & we & _ & E1).
    injection E1 as Hp _ _.
    assert (entropy wa = entropy w) as He.
    { pose proof (WorldFacts.through_run self_kept
        (CreateTempFile_tmpdir tmpdir) w wa (Return d)) as H.
      destruct H as (_ & He & _); [|exact Ea|exact He].
      apply WorldFacts.through_tmpdir;
        [exact WorldFacts.self_kept_refl | exact WorldFacts.self_kept_trans
        | exact FileMoreFacts.self_kept_os
        | exact FileMoreFacts.self_kept_draw
        | exact FileMoreFacts.self_kept_track]. }
    exists (draws wa). rewrite <- Hp.
    change (os_path.join2 d ?n) with (os_path.join d [n]).
    rewrite join_child; [|done..|apply file_name_ok].
    unfold drawn, draw_at. by rewrite Hm, He. }
  exists d. split; [done|]. split; [done|]. split; [done|].
  split; [by exists k|done].
Qed.

End Sentinels.


Lemma CreateTempDir_nonpositive_witness :
  let r := CreateTempDir (-1) (-1) (inl (-5)%Z) (Some (Str "unused"))
             (example_world N.of_nat) in
  files (os r.2) = files (os (example_world N.of_nat)) ∧
  ∀ d, r.1 = Return d →
    (d ∉ dirs (os (example_world N.of_nat))) ∧
    dirs (os r.2) = {[d]} ∪ dirs (os (example_world N.of_nat)) ∧
    tempdirs r.2 = tempdirs (example_world N.of_nat) ++ [d] ∧
    (fs_wf (os (example_world N.of_nat)) → listing d (os r.2) = ∅).
Proof.
  apply (CreateTempDir_nonpositive (-1) (-1) (-5) (Some (Str "unused"))
           (example_world N.of_nat)).
  lia.
Defined.

Lemma CreateTempFile_own_dir_witness :
  let r := CreateTempFile (-1) (-1) None None None None
             (PyInt (-1)) (PyInt (-1)) (PyInt (-1))
             (example_world N.of_nat) in
  let fpath :=
    "/tmp/gsutil-test-testFoo-directory-00000000baaaaaaa/gsutil-test-testFoo-file-00000002" in
  ∃ d, tempdirs r.2 = tempdirs (example_world N.of_nat) ++ [d] ∧
    (d ∉ dirs (os (example_world N.of_nat))) ∧
    d ∈ dirs (os r.2) ∧
    (∃ k, fpath = d +:+ "/" +:+
            temp_name (_testMethodName (example_world N.of_nat)) "file" ""
              (draw_at (example_world N.of_nat) k)) ∧
    is_Some (files (os r.2) !! fpath).
Proof.
  apply (CreateTempFile_own_dir (-1) (-1) None None None None
           (PyInt (-1)) (PyInt (-1)) (PyInt (-1)) (example_world N.of_nat)
           "/tmp/gsutil-test-testFoo-directory-00000000baaaaaaa/gsutil-test-testFoo-file-00000002");
    vm_compute; reflexivity.
Defined.

End DirMoreFacts.

(** ** The files of a temporary directory *)

Module DirFilesFacts.
Import MonadFacts TextFacts PathFacts GsUtilTestCase.

Lemma same_self_refl (w : World) : same_self w w.
Proof. by repeat split. Qed.

Lemma same_self_trans (w1 w2 w3 : World) :
  same_self w1 w2 → same_self w2 w3 → same_self w1 w3.
Proof.
  intros (Hm & Ht & He & Hd) (Hm' & Ht' & He' & Hd').
  repeat split; congruence.
Qed.

Lemma path_in_dir_inj (d n n' : string) :
  d +:+ "/" +:+ n = d +:+ "/" +:+ n' → n = n'.
Proof. intros H. by do 2 apply (inj (String.app _)) in H. Qed.

Lemma no_sep_startswith (s : string) :
  Text.all no_sep s = true → Text.startswith "/" s = false.
Proof.
  destruct s as [|c s]; [done|]. cbn [Text.all].
  intros [Hc _]%andb_true_iff. unfold Text.startswith. cbn [String.prefix].
  destruct (ascii_dec "/" c) as [<-|]; done.
Qed.

(** The contents of the [i]-th file. *)
Lemma contents_value (contents : option Contents) (i : nat) (w w' : World)
    (c : Contents) :
  (match contents with
   | Some c => ret c
   | None => bind (lift (Py.encode_ascii ("test " +:+ Fmt.d i)))
               (λ b, ret (Bytes b))
   end) w = (Return c, w') →
  to_bytes c = CreateTempDir_data contents i.
Proof.
  unfold CreateTempDir_data. destruct contents as [c0|];
    [by intros [= <- _]|].
  unfold bind, lift, ret, test_bytes, Py.encode_ascii.
  destruct (Text.all _ _); [|done]. by intros [= <- _].
Qed.

Lemma times_names_at (n : nat) (w w' : World) (names : list string) :
  times n (MakeTempName "file" "") w = (Return names, w') →
  draws w' = (draws w + n)%nat ∧ length names = n ∧
  ∀ i, (i < n)%nat →
    names !! i =
    Some (temp_name (_testMethodName w) "file" ""
            (entropy w (draws w + i) mod 256 ^ 4)).
Proof.
  revert w names. induction n as [|n IH]; intros w names.
  - intros [= <- <-]. split; [lia|]. split; [done|]. intros i Hi. lia.
  - cbn [times]. intros E.
    apply bind_return in E as (a & w1 & Ea & E).
    rewrite NameFacts.MakeTempName_run in Ea. injection Ea as <- <-.
    apply bind_return in E as (l & w2 & El & E). injection E as <- <-.
    apply IH in El as (Hd & Hl & Hn). cbn in Hd, Hn.
    split; [lia|]. split; [by cbn; rewrite Hl|].
    intros [|i] Hi.
    + cbn. unfold drawn. by rewrite Nat.add_0_r.
    + rewrite Nat.add_succ_r. change (l !! i = Some
        (temp_name (_testMethodName w) "file" ""
           (entropy w (S (draws w + i)) mod 256 ^ 4))).
      apply Hn. lia.
Qed.

Section Sentinels.

Variables NA_ID NA_MODE : Z.

(** One round of the loop has written its file. *)
Lemma body_file (d : string) (contents : option Contents) (i : nat)
    (nm : string) (w w' : World) :
  d ≠ "" → Text.endswith "/" d = false →
  nm ≠ "" → Text.startswith "/" nm = false →
  CreateTempDir_body (CreateTempDir_file NA_ID NA_MODE) d contents i
    (Name nm) w = (Return (), w') →
  same_self w w' ∧
  ∃ f, files (os w') !! (d +:+ "/" +:+ nm) = Some f ∧
       st_data f = CreateTempDir_data contents i.
Proof.
  intros Hd He Hn Hs E. unfold CreateTempDir_body in E.
  apply bind_return in E as (c & w0 & Ec & E).
  pose proof (contents_value _ _ _ _ _ Ec) as Hc.
  apply DirMoreFacts.contents_step in Ec as ->.
  apply bind_return in E as (p & w1 & Ep & E). injection E as <-.
  unfold CreateTempDir_file in Ep.
  apply DirFacts.CreateTempFile_plain in Ep as (-> & Hself & Hdata & _);
    [|done..].
  split; [done|].
  rewrite join_child in Hdata by done.
  assert ((st_data <$> files (os w1)) !! (d +:+ "/" +:+ nm)
          = Some (to_bytes c)) as H.
  { rewrite Hdata. apply lookup_insert_eq. }
  apply lookup_fmap_Some in H as (f & Hf1 & Hf2).
  exists f. split; [done|]. by rewrite Hf1, Hc.
Qed.

(** The loop touches only the files it is to make. *)
Lemma loop_names (d : string) (contents : option Contents)
    (names : list string) (i : nat) (w w' : World) :
  d ≠ "" → Text.endswith "/" d = false →
  Forall (λ nm, nm ≠ "" ∧ Text.startswith "/" nm = false) names →
  for_enumerate i (List.map Name names)
    (CreateTempDir_body (CreateTempDir_file NA_ID NA_MODE) d contents) w
    = (Return (), w') →
  same_self w w' ∧
  ∀ k, (∀ nm, nm ∈ names → k ≠ d +:+ "/" +:+ nm) →
       files (os w') !! k = files (os w) !! k.
Proof.
  intros Hd He Hnames. revert i w.
  induction Hnames as [|nm names [Hn Hs] _ IH]; intros i w.
  - intros [= <-]. split; [apply same_self_refl|done].
  - cbn [List.map for_enumerate]. intros E.
    apply bind_return in E as ([] & w1 & Eb & E).
    pose proof Eb as Eb'.
    apply body_file in Eb' as (Hs1 & _); [|done..].
    apply (DirMoreFacts.body_run NA_ID NA_MODE) in Eb
      as (_ & _ & Hf1 & _); [|done..].
    apply IH in E as (Hs2 & Hf2).
    split; [by eapply same_self_trans|].
    intros k Hk. rewrite Hf2, Hf1; [done| |].
    + apply Hk. by left.
    + intros nm' Hin. apply Hk. by right.
Qed.

(** Every name of the list is a file afterwards, holding what the last
    round for that name wrote. *)
Lemma loop_files (d : string) (contents : option Contents)
    (names : list string) (i0 : nat) (w w' : World) :
  d ≠ "" → Text.endswith "/" d = false →
  Forall (λ nm, nm ≠ "" ∧ Text.startswith "/" nm = false) names →
  for_enumerate i0 (List.map Name names)
    (CreateTempDir_body (CreateTempDir_file NA_ID NA_MODE) d contents) w
    = (Return (), w') →
  ∀ i nm, names !! i = Some nm →
    ∃ f j, files (os w') !! (d +:+ "/" +:+ nm) = Some f ∧
      names !! j = Some nm ∧ (i ≤ j)%nat ∧
      st_data f = CreateTempDir_data contents (i0 + j).
Proof.
  intros Hd He Hnames. revert i0 w.
  induction Hnames as [|nm0 names [Hn Hs] Hrest IH]; intros i0 w E i nm Hi;
    [by destruct i|].
  cbn [List.map for_enumerate] in E.
  apply bind_return in E as ([] & w1 & Eb & E).
  destruct i as [|i]; cbn in Hi.
  - injection Hi as <-.
    destruct (decide (nm0 ∈ names)) as [Hin|Hnin].
    + apply list_elem_of_lookup in Hin as [j' Hj'].
      destruct (IH (S i0) w1 E j' nm0 Hj') as (f & j & Hf & Hj & Hle & Hdat).
      exists f, (S j). split; [done|]. split; [done|]. split; [lia|].
      by rewrite Nat.add_succ_r.
    + apply body_file in Eb as (_ & f & Hf & Hdat); [|done..].
      apply loop_names in E as (_ & Hframe); [|done..].
      exists f, 0%nat. rewrite Hframe.
      * split; [done|]. split; [done|]. split; [lia|].
        by rewrite Nat.add_0_r.
      * intros nm' Hin' Heq. apply path_in_dir_inj in Heq as ->. done.
  - destruct (IH (S i0) w1 E i nm Hi) as (f & j & Hf & Hj & Hle & Hdat).
    exists f, (S j). split; [done|]. split; [done|]. split; [lia|].
    by rewrite Nat.add_succ_r.
Qed.

(** A call that returns is the making of the directory and then of the
    files. *)
Lemma returned_run (test_files : Z + list FileName)
    (contents : option Contents) (w w' : World) (d : string) :
  CreateTempDir NA_ID NA_MODE test_files contents w = (Return d, w') →
  ∃ w1,
    tempfile.mkdtemp_from tempfile.TMP_MAX
      (temp_name (_testMethodName w) "directory" "" (drawn w)) (advance w)
      = (Return d, w1) ∧
    CreateTempDir_files (CreateTempDir_file NA_ID NA_MODE) d test_files
      contents (with_tempdirs (tempdirs w1 ++ [d]) w1) = (Return d, w') ∧
    d ≠ "" ∧ Text.endswith "/" d = false.
Proof.
  intros E.
  destruct (tempfile.mkdtemp_from tempfile.TMP_MAX
    (temp_name (_testMethodName w) "directory" "" (drawn w)) (advance w))
    as [[d0|e] w1] eqn:Em.
  - destruct (DirMoreFacts.made_facts NA_ID NA_MODE test_files contents
      w w1 d0 Em) as (Er & _ & _ & _ & _ & Hne & Hend & _ & _ & _ & Hr).
    rewrite E in Er. rewrite <- Er in Hr. specialize (Hr d eq_refl) as ->.
    by exists w1.
  - pose proof (DirMoreFacts.CreateTempDir_with_run
      (CreateTempDir_file NA_ID NA_MODE) test_files contents w) as Hrun.
    rewrite Em in Hrun. unfold CreateTempDir in E.
    change (CreateTempDir_with _ test_files contents w)
      with (CreateTempDir_with (CreateTempDir_file NA_ID NA_MODE)
              test_files contents w) in E.
    by rewrite Hrun in E.
Qed.

(** [CreateTempDir] with a list of file names, each the name of a
    directory entry (not empty, without separator, neither ["."] nor
    [".."]): after a call that returns, every name of the list is a file in
    the new directory. It holds the contents given or, by default,
    ["test <j>"] for the index [j] of the last place the name has in the
    list: a name that comes again is written over. *)
Theorem CreateTempDir_named_files (names : list string)
    (contents : option Contents) (w : World) (d : string) :
  let r := CreateTempDir NA_ID NA_MODE (inr (List.map Name names)) contents
             w in
  Forall (λ nm, entry_name nm = true) names →
  r.1 = Return d →
  ∀ i nm, names !! i = Some nm →
    ∃ f j, files (os r.2) !! (d +:+ "/" +:+ nm) = Some f ∧
      names !! j = Some nm ∧ (i ≤ j)%nat ∧
      st_data f = CreateTempDir_data contents j.
Proof.
  cbv zeta. intros Hentries Hret.
  assert (Forall (λ nm, nm ≠ "" ∧ Text.startswith "/" nm = false) names)
    as Hnames.
  { eapply Forall_impl; [exact Hentries|]. intros nm Hnm. cbv beta in Hnm.
    unfold entry_name in Hnm.
    apply andb_true_iff in Hnm as [Hnm _].
    apply andb_true_iff in Hnm as [Hnm _].
    apply andb_true_iff in Hnm as [Hne Hsep].
    split; [|by apply no_sep_startswith].
    intros ->. done. }
  destruct (CreateTempDir NA_ID NA_MODE _ contents w) as [o w'] eqn:E.
  cbn [fst snd] in *. subst o.
  apply returned_run in E as (w1 & _ & Er & Hne & Hend).
  unfold CreateTempDir_files in Er.
  apply bind_return in Er as (l & w2 & El & Er). injection El as <- <-.
  apply bind_return in Er as ([] & w3 & Eloop & Er). injection Er as <-.
  intros i nm Hi.
  by apply (loop_files d contents names 0 _ w3 Hne Hend Hnames Eloop).
Qed.

(** [CreateTempDir] with a number [n] of files: after a call that returns,
    each of the [n] names drawn is a file in the new directory, and holds
    the contents given or, by default, ["test <j>"] for the last index [j]
    at which that name was drawn. *)
Theorem CreateTempDir_counted_files (n : Z) (contents : option Contents)
    (w : World) (d : string) :
  let r := CreateTempDir NA_ID NA_MODE (inl n) contents w in
  r.1 = Return d →
  let k0 := (draws r.2 - Z.to_nat n)%nat in
  let name i := temp_name (_testMethodName w) "file" "" (draw_at w (k0 + i)) in
  ∀ i, (i < Z.to_nat n)%nat →
    ∃ f j, files (os r.2) !! (d +:+ "/" +:+ name i) = Some f ∧
      name j = name i ∧ (i ≤ j < Z.to_nat n)%nat ∧
      st_data f = CreateTempDir_data contents j.
Proof.
  cbv zeta. intros Hret.
  destruct (CreateTempDir NA_ID NA_MODE _ contents w) as [o w'] eqn:E.
  cbn [fst snd] in *. subst o.
  apply returned_run in E as (w1 & Em & Er & Hne & Hend).
  apply DirFacts.mkdtemp_return in Em as (_ & _ & _ & _ & _ & _ & Hm1 & He1 & _).
  cbn [advance _testMethodName entropy] in Hm1, He1.
  unfold CreateTempDir_files in Er.
  apply bind_return in Er as (l & w2 & El & Er).
  apply bind_return in El as (names & w3 & En & El). injection El as <- <-.
  pose proof En as En'.
  apply DirMoreFacts.times_names in En' as (_ & _ & _ & Hshape).
  apply times_names_at in En as (Hdr & Hlen & Hat).
  cbn [draws _testMethodName entropy with_tempdirs] in Hdr, Hat, Hshape.
  apply bind_return in Er as ([] & w4 & Eloop & Er). injection Er as <-.
  assert (Forall (λ nm, nm ≠ "" ∧ Text.startswith "/" nm = false) names)
    as Hplain.
  { eapply Forall_impl; [exact Hshape|]. intros nm [r ->].
    apply DirMoreFacts.file_name_ok. }
  pose proof Eloop as Eloop'.
  apply loop_names in Eloop' as ((_ & _ & _ & Hdraws) & _); [|done..].
  assert (draws w4 - Z.to_nat n = draws w1)%nat as -> by lia.
  intros i Hi.
  assert (∀ j, (j < Z.to_nat n)%nat →
    names !! j = Some (temp_name (_testMethodName w) "file" ""
                         (draw_at w (draws w1 + j)))) as Hat'.
  { intros j Hj. rewrite (Hat j Hj). unfold draw_at. by rewrite Hm1, He1. }
  destruct (loop_files d contents names 0 _ w4 Hne Hend Hplain Eloop i _
    (Hat' i Hi)) as (f & j & Hf & Hj & Hle & Hdat).
  exists f, j. split; [done|].
  assert (j < Z.to_nat n)%nat as Hjn.
  { apply lookup_lt_Some in Hj. lia. }
  pose proof (Hat' j Hjn) as Hj'.
  split; [congruence|]. split; [lia|done].
Qed.

(** A file name given as a tuple of a directory and a name: the file is
    made in that subdirectory of [tmpdir], and the subdirectory is there
    when the call returns. *)
Theorem CreateTempFile_in_subdirectory (d a b : string)
    (contents : option Contents) (mtime : option Z) (mode uid gid : PyVal)
    (w : World) (fpath : string) :
  let r := CreateTempFile NA_ID NA_MODE (Some d) contents
             (Some (Tuple [a; b])) mtime mode uid gid w in
  d ≠ "" → Text.endswith "/" d = false →
  a ≠ "" → Text.all no_sep a = true → Text.all no_sep b = true →
  r.1 = Return fpath →
  fpath = d +:+ "/" +:+ a +:+ "/" +:+ b ∧
  (d +:+ "/" +:+ a) ∈ dirs (os r.2) ∧
  is_Some (files (os r.2) !! fpath) ∧
  tempdirs r.2 = tempdirs w.
Proof.
  cbv zeta. intros Hd He Ha Hsa Hsb Hret.
  destruct (FileMoreFacts.CreateTempFile_attributes _ _ _ _ _ _ _ _ _ _ _
    Hret) as (f & _ & _ & _ & Hf & _).
  destruct (FileFacts.CreateTempFile_return _ _ _ _ _ _ _ _ _ _ _ Hret)
    as (data & w1 & s2 & E1 & E2 & E3 & E4).
  cbv zeta in E3, E4.
  assert (fpath = d +:+ "/" +:+ a +:+ "/" +:+ b) as Hp.
  { pose proof E1 as E. unfold CreateTempFile_target in E.
    apply bind_return in E as (d' & wa & Ea & E).
    apply String.eqb_neq in Hd. rewrite Hd in Ea. injection Ea as <- <-.
    apply bind_return in E as (n & wb & Eb & E).
    cbn [falsy] in Eb. injection Eb as <- <-. cbv zeta in E.
    apply bind_return in E as (x & wc & _ & E).
    apply bind_return in E as (u & wd & _ & E).
    apply bind_return in E as (c & we & _ & E).
    injection E as Hp _ _. rewrite <- Hp.
    apply String.eqb_neq in Hd.
    change (os_path.join2 (os_path.join2 d a) b)
      with (os_path.join (os_path.join d [a]) [b]).
    rewrite (join_child d a) by auto using no_sep_startswith.
    rewrite join_child; [by rewrite !app_assoc| | |by apply no_sep_startswith].
    - by destruct d.
    - rewrite <- app_assoc. by apply endswith_sep_app. }
  destruct (FileMoreFacts.written_state _ _ _ _ _ _ _ _ E1 E2)
    as (_ & _ & _ & _ & Hpar).
  assert (others_kept fpath s2
    (os (CreateTempFile NA_ID NA_MODE (Some d) contents (Some (Tuple [a; b]))
           mtime mode uid gid w).2)) as [Hdirs _].
  { rewrite E4. eapply FileMoreFacts.others_kept_trans.
    - apply (FileMoreFacts.along_times_step (others_kept fpath) fpath
        (FileMoreFacts.others_kept_refl fpath)
        (FileMoreFacts.utime_others_kept fpath) mtime (with_os s2 w1)).
    - apply (FileMoreFacts.along_perms_step (others_kept fpath) fpath
        (FileMoreFacts.others_kept_refl fpath)
        (FileMoreFacts.others_kept_trans fpath)
        (FileMoreFacts.chown_others_kept fpath)
        (FileMoreFacts.chmod_others_kept fpath)). }
  assert (os_path.dirname fpath = d +:+ "/" +:+ a) as Hdir.
  { rewrite Hp.
    replace (d +:+ "/" +:+ a +:+ "/" +:+ b)
      with ((d +:+ "/" +:+ a) +:+ "/" +:+ b) by by rewrite !app_assoc.
    apply DirMoreFacts.dirname_child; [|by rewrite <- app_assoc;
      apply endswith_sep_app|done].
    by destruct d. }
  split; [done|]. rewrite Hdirs. split; [|split; [by exists f|]].
  - rewrite Hdir in Hpar. destruct Hpar as [Hemp|Hin]; [|done].
    by destruct d.
  - by apply (WorldFacts.tracked_same_given NA_ID NA_MODE d).
Qed.

End Sentinels.

Lemma CreateTempDir_named_files_witness :
  let r := CreateTempDir (-1) (-1) (inr (List.map Name ["a"; "b"; "a"])) None
             (example_world N.of_nat) in
  let d := "/tmp/gsutil-test-testFoo-directory-00000000baaaaaaa" in
  ∃ f j, files (os r.2) !! (d +:+ "/" +:+ "a") = Some f ∧
    ["a"; "b"; "a"] !! j = Some "a" ∧ (0 ≤ j)%nat ∧
    st_data f = CreateTempDir_data None j.
Proof.
  apply (CreateTempDir_named_files (-1) (-1) ["a"; "b"; "a"] None
           (example_world N.of_nat)
           "/tmp/gsutil-test-testFoo-directory-00000000baaaaaaa").
  - repeat constructor; done.
  - vm_compute. reflexivity.
  - reflexivity.
Defined.

Lemma CreateTempDir_counted_files_witness :
  let r := CreateTempDir (-1) (-1) (inl 2%Z) None (example_world N.of_nat) in
  let d := "/tmp/gsutil-test-testFoo-directory-00000000baaaaaaa" in
  let k0 := (draws r.2 - Z.to_nat 2)%nat in
  let name i :=
    temp_name (_testMethodName (example_world N.of_nat)) "file" ""
      (draw_at (example_world N.of_nat) (k0 + i)) in
  ∃ f j, files (os r.2) !! (d +:+ "/" +:+ name 0%nat) = Some f ∧
    name j = name 0%nat ∧ (0 ≤ j < Z.to_nat 2)%nat ∧
    st_data f = CreateTempDir_data None j.
Proof.
  apply (CreateTempDir_counted_files (-1) (-1) 2 None (example_world N.of_nat)
           "/tmp/gsutil-test-testFoo-directory-00000000baaaaaaa").
  - vm_compute. reflexivity.
  - vm_compute. lia.
Defined.

Lemma CreateTempFile_in_subdirectory_witness :
  let r := CreateTempFile (-1) (-1) (Some "/tmp") None
             (Some (Tuple ["dir"; "foo"])) None
             (PyInt (-1)) (PyInt (-1)) (PyInt (-1))
             (example_world N.of_nat) in
  "/tmp/dir/foo" = "/tmp" +:+ "/" +:+ "dir" +:+ "/" +:+ "foo" ∧
  ("/tmp" +:+ "/" +:+ "dir") ∈ dirs (os r.2) ∧
  is_Some (files (os r.2) !! "/tmp/dir/foo") ∧
  tempdirs r.2 = tempdirs (example_world N.of_nat).
Proof.
  apply (CreateTempFile_in_subdirectory (-1) (-1) "/tmp" "dir" "foo" None
           None (PyInt (-1)) (PyInt (-1)) (PyInt (-1))
           (example_world N.of_nat) "/tmp/dir/foo");
    try done; vm_compute; reflexivity.
Defined.

End DirFilesFacts.

(** ** Calls of [CreateTempFile] that cannot write *)

Module FileErrorFacts.
Import MonadFacts TextFacts PathFacts GsUtilTestCase.

Lemma makedirs_exists (p : string) (s : OsState) :
  p ≠ "" → OS.exists_ p s = true →
  OS.makedirs p s =
  (Raise (OSError FileExistsError), OS.enter (sys_makedirs p) s).
Proof.
  intros Hp He. unfold OS.makedirs. cbv zeta.
  apply String.eqb_neq in Hp as ->.
  change (OS.exists_ p (OS.enter (sys_makedirs p) s)) with (OS.exists_ p s).
  by rewrite He.
Qed.

Lemma open_isdir (p : string) (data : list byte) (s : OsState) :
  p ≠ "" → Text.endswith "/" p = false → p ∈ dirs s →
  OS.open_wb_write p data s =
  (Raise (OSError IsADirectoryError), OS.enter (sys_open_wb p data) s).
Proof.
  intros Hne He Hp. unfold OS.open_wb_write. cbv zeta.
  apply String.eqb_neq in Hne as ->. rewrite He. unfold OS.isdir.
  cbn [dirs OS.enter]. by rewrite bool_decide_eq_true_2.
Qed.

Lemma plain_path (d n : string) :
  d ≠ "" → Text.endswith "/" d = false → Text.all no_sep n = true →
  os_path.join d [n] = d +:+ "/" +:+ n ∧
  os_path.dirname (os_path.join d [n]) = d.
Proof.
  intros Hd He Hn.
  rewrite join_child by auto using DirFilesFacts.no_sep_startswith.
  split; [done|]. by apply DirMoreFacts.dirname_child.
Qed.

(** The first part of a call, for a directory that is there. *)
Lemma target_plain_run (d n : string) (c : Contents) (w : World) :
  d ≠ "" → Text.endswith "/" d = false →
  n ≠ "" → Text.all no_sep n = true → d ∈ dirs (os w) →
  CreateTempFile_target (Some d) (Some c) (Some (Name n)) w =
  (Return (d +:+ "/" +:+ n, to_bytes c), w).
Proof.
  intros Hd He Hn Hs Hin. unfold CreateTempFile_target.
  destruct (plain_path d n Hd He Hs) as [Hj Hdir].
  apply String.eqb_neq in Hd as ->.
  assert (falsy (Some (Name n)) = false) as -> by by destruct n.
  unfold bind, ret. cbv beta iota zeta. rewrite Hdir.
  unfold OS.isdir. rewrite bool_decide_eq_true_2 by done. cbn [negb].
  by rewrite Hj.
Qed.

(** The first part of a call, for a directory that is a file. *)
Lemma target_blocked_run (d n : string) (c : Contents) (w : World) :
  d ≠ "" → Text.endswith "/" d = false →
  n ≠ "" → Text.all no_sep n = true →
  (d ∉ dirs (os w)) → is_Some (files (os w) !! d) →
  CreateTempFile_target (Some d) (Some c) (Some (Name n)) w =
  (Raise (OSError FileExistsError),
   with_os (OS.enter (sys_makedirs d) (os w)) w).
Proof.
  intros Hd He Hn Hs Hnd Hf. unfold CreateTempFile_target.
  destruct (plain_path d n Hd He Hs) as [Hj Hdir].
  pose proof Hd as Hd'. apply String.eqb_neq in Hd' as ->.
  assert (falsy (Some (Name n)) = false) as -> by by destruct n.
  unfold bind, ret. cbv beta iota zeta. rewrite Hdir.
  unfold OS.isdir at 1. rewrite bool_decide_eq_false_2 by done. cbn [negb].
  unfold sys. cbv zeta. rewrite makedirs_exists; [done..|].
  unfold OS.exists_, OS.isfile. rewrite bool_decide_eq_true_2 by done.
  apply orb_true_r.
Qed.

Section Sentinels.

Variables NA_ID NA_MODE : Z.

(** When the path of the file is a directory, [CreateTempFile] raises
    [IsADirectoryError] from [open]: the one system call it has made, with
    the file tree as it was and no attempt to set times, owner or mode. *)
Theorem CreateTempFile_path_is_directory (d n : string) (c : Contents)
    (mtime : option Z) (mode uid gid : PyVal) (w : World) :
  d ≠ "" → Text.endswith "/" d = false →
  n ≠ "" → Text.all no_sep n = true →
  d ∈ dirs (os w) → (d +:+ "/" +:+ n) ∈ dirs (os w) →
  let r := CreateTempFile NA_ID NA_MODE (Some d) (Some c) (Some (Name n))
             mtime mode uid gid w in
  r.1 = Raise (OSError IsADirectoryError) ∧
  issued w r.2 [sys_open_wb (d +:+ "/" +:+ n) (to_bytes c)] ∧
  files (os r.2) = files (os w) ∧ dirs (os r.2) = dirs (os w) ∧
  tempdirs r.2 = tempdirs w.
Proof.
  intros Hd He Hn Hs Hin Hp. cbv zeta.
  assert (CreateTempFile NA_ID NA_MODE (Some d) (Some c) (Some (Name n))
            mtime mode uid gid w =
          (Raise (OSError IsADirectoryError),
           with_os (OS.enter (sys_open_wb (d +:+ "/" +:+ n) (to_bytes c))
                      (os w)) w)) as ->.
  { rewrite FileFacts.CreateTempFile_split. unfold bind at 1.
    rewrite target_plain_run by done. cbv beta iota. cbn [fst snd].
    unfold bind at 1, sys at 1. cbv zeta.
    rewrite open_isdir; [done|by destruct d| |done].
    rewrite <- app_assoc. by apply endswith_sep_app. }
  unfold issued. by cbn.
Qed.

(** When the directory given is a regular file, [CreateTempFile] raises
    [FileExistsError] from [os.makedirs]: the one system call it has made,
    with the file tree as it was and nothing written. *)
Theorem CreateTempFile_tmpdir_is_file (d n : string) (c : Contents)
    (mtime : option Z) (mode uid gid : PyVal) (w : World) :
  d ≠ "" → Text.endswith "/" d = false →
  n ≠ "" → Text.all no_sep n = true →
  (d ∉ dirs (os w)) → is_Some (files (os w) !! d) →
  let r := CreateTempFile NA_ID NA_MODE (Some d) (Some c) (Some (Name n))
             mtime mode uid gid w in
  r.1 = Raise (OSError FileExistsError) ∧
  issued w r.2 [sys_makedirs d] ∧
  files (os r.2) = files (os w) ∧ dirs (os r.2) = dirs (os w) ∧
  tempdirs r.2 = tempdirs w.
Proof.
  intros Hd He Hn Hs Hnd Hf. cbv zeta.
  assert (CreateTempFile NA_ID NA_MODE (Some d) (Some c) (Some (Name n))
            mtime mode uid gid w =
          (Raise (OSError FileExistsError),
           with_os (OS.enter (sys_makedirs d) (os w)) w)) as ->.
  { rewrite FileFacts.CreateTempFile_split. unfold bind at 1.
    by rewrite target_blocked_run. }
  unfold issued. by cbn.
Qed.

End Sentinels.

Lemma CreateTempFile_path_is_directory_witness :
  let r := CreateTempFile (-1) (-1) (Some "/tmp") (Some (Str "x"))
             (Some (Name "d")) None (PyInt (-1)) (PyInt (-1)) (PyInt (-1))
             example_tree in
  r.1 = Raise (OSError IsADirectoryError) ∧
  issued example_tree r.2
    [sys_open_wb ("/tmp" +:+ "/" +:+ "d") (to_bytes (Str "x"))] ∧
  files (os r.2) = files (os example_tree) ∧
  dirs (os r.2) = dirs (os example_tree) ∧
  tempdirs r.2 = tempdirs example_tree.
Proof.
  apply (CreateTempFile_path_is_directory (-1) (-1) "/tmp" "d" (Str "x") None
           (PyInt (-1)) (PyInt (-1)) (PyInt (-1)) example_tree);
    try done; apply (bool_decide_unpack _); vm_compute; exact I.
Defined.

Lemma CreateTempFile_tmpdir_is_file_witness :
  let r := CreateTempFile (-1) (-1) (Some "/tmp/g") (Some (Str "x"))
             (Some (Name "f")) None (PyInt (-1)) (PyInt (-1)) (PyInt (-1))
             example_tree in
  r.1 = Raise (OSError FileExistsError) ∧
  issued example_tree r.2 [sys_makedirs "/tmp/g"] ∧
  files (os r.2) = files (os example_tree) ∧
  dirs (os r.2) = dirs (os example_tree) ∧
  tempdirs r.2 = tempdirs example_tree.
Proof.
  apply (CreateTempFile_tmpdir_is_file (-1) (-1) "/tmp/g" "f" (Str "x") None
           (PyInt (-1)) (PyInt (-1)) (PyInt (-1)) example_tree);
    done.
Defined.

End FileErrorFacts.
